(** * Inventory and production calculation engine of the distillery tracker

    A shallow embedding of the calculation code of [app.py]: the unit
    conversions, the finished-good metrics, the inventory ledger
    reconciler, the batch blending handler and the production depletion
    loop, together with the properties the specification states about them.
    The second part of the definitions embeds the rest of the engine: the
    [Record Production] handler with the older raw-material path, the
    shipping of orders, the physical counts, the recalculation and the
    removal of duplicates at start-up, and the saving of spirits and
    recipes.

    Numbers.  Python [int] values are modelled as [Z].  A stored [float]
    is given by the rational it holds ([Q]).  Where the result of float
    arithmetic is itself a float (gallons, proof gallons, tax, ABV, weights)
    the formula is read over the rationals, so the last digits binary64
    rounds away are not represented; equality of computed rationals is
    [Qeq] ([==]).  Where float arithmetic decides an integer, a branch or
    an exception (the units a production run depletes, the feasibility
    test of a blend, the tolerance test of a recipe), it is computed in
    binary64 by the module [B64], on the doubles nearest to the stored
    rationals.  [int(a / b)] on two [int]s is the exact quotient truncated,
    which is what binary64 gives as long as |a| + |b| stays below 2^53.
    [B64] also repeats the arithmetic of the examples, to show which digits
    the rounding touches.

    Store.  The [sqlite_utils] tables are finite maps from the integer
    primary key to a typed record ([gmap Z _]); tables that are only
    appended to are lists.  [table.get(pk)] is the map lookup; on a missing
    row it raises [NotFoundError], which ends the handler that called it.
    Every write is committed when it is made, so what a handler wrote
    before an exception stays written. *)

From stdpp Require Import gmap list strings sorting.
From Stdlib Require Import ZArith QArith Qround Qabs Lia Lqa.
From Stdlib Require Import PrimFloat FloatOps SpecFloat Uint63.

Set Warnings "-inexact-float".

Local Open Scope Z_scope.

(** ** Python arithmetic on [int] and [float] *)

Module Py.

(** [a / b] on two [int]s: true division, a [float]; here the exact
    quotient.  Python rounds it to binary64, which changes no integer part
    as long as the operands stay below 2^53 in absolute value. *)
Definition true_div (a b : Z) : Q := (inject_Z a / inject_Z b)%Q.

(** [int(x)] on a [float]: the integer part, truncated toward zero. *)
Definition int (x : Q) : Z := Z.quot (Qnum x) (Zpos (Qden x)).

(** [round(x)] on a [float], one argument: the nearest integer, a tie
    going to the even neighbour. *)
Definition round (x : Q) : Z :=
  let f := Qfloor x in
  match (x - inject_Z f ?= 1 # 2)%Q with
  | Lt => f
  | Gt => f + 1
  | Eq => if Z.even f then f else f + 1
  end.

(** [x < y] and [x > y] on [float]s. *)
Definition ltb (x y : Q) : bool :=
  match (x ?= y)%Q with Lt => true | _ => false end.
Definition gtb (x y : Q) : bool := ltb y x.

(** [a % b] on two [int]s takes the sign of the divisor, as [Z.modulo]. *)
Definition mod_ (a b : Z) : Z := a mod b.

End Py.

(** ** Binary64

    Rocq's primitive floats are IEEE 754 binary64 as Python's [float].
    The conversions below are correctly rounded (to nearest, ties to even)
    as Python's are. *)

Module B64.

(** An [int] as the [float] it converts to; an [int] beyond the range of
    binary64, for which Python raises [OverflowError], comes out as an
    infinity. *)
Definition of_int (z : Z) : float := SF2Prim (binary_normalize prec emax z 0 false).

(** The double nearest to a rational: the stored float, for a rational that
    is a binary64 value or the decimal a user typed. *)
Definition of_Q (q : Q) : float :=
  match Qnum q with
  | Z0 => 0%float
  | Zpos n =>
      SF2Prim (SFdiv prec emax (S754_finite false n 0) (S754_finite false (Qden q) 0))
  | Zneg n =>
      SF2Prim (SFdiv prec emax (S754_finite true n 0) (S754_finite false (Qden q) 0))
  end.

(** The rational a finite float holds; [None] for an infinity or a NaN. *)
Definition to_Q (x : float) : option Q :=
  match Prim2SF x with
  | S754_zero _ => Some 0%Q
  | S754_finite s m e =>
      let v := match e with
               | Zneg k => Zpos m # Z.to_pos (2 ^ Zpos k)
               | _ => inject_Z (Zpos m * 2 ^ e)
               end in
      Some (if s then Qopp v else v)
  | _ => None
  end.

(** [int(x)]; [None] stands for the error on an infinity or a NaN. *)
Definition int (x : float) : option Z :=
  match Prim2SF x with
  | S754_zero _ => Some 0
  | S754_finite s m e =>
      let v := if 0 <=? e then Zpos m * 2 ^ e else Zpos m / 2 ^ (- e) in
      Some (if s then - v else v)
  | _ => None
  end.

(** [round(x)], one argument: the nearest integer to the value the float
    holds, a tie going to the even one; [None] stands for the error on an
    infinity or a NaN. *)
Definition round (x : float) : option Z :=
  match to_Q x with
  | Some q => Some (Py.round q)
  | None => None
  end.

Definition calculate_proof_gallons (wine_gallons proof : float) : float :=
  (wine_gallons * (proof / 100.0))%float.

Definition calculate_excise_tax (proof_gallons : float) : float :=
  (proof_gallons * 13.50)%float.

Definition calculate_total_cases_from_stock (singles bottled_s bottled_i : Z) : float :=
  (of_int (singles + bottled_s * 24 + bottled_i * 24) / of_int 24)%float.

(** [proof_gallons] and [excise_tax_due] of [derive_finished_good_metrics]
    on the branch [abv > 0]. *)
Definition proof_gallons_of_stock (singles bottled_s bottled_i : Z) (abv : float)
    : float :=
  let total_cases := calculate_total_cases_from_stock singles bottled_s bottled_i in
  let total_gallons := (total_cases * 1.27)%float in
  let proof := (abv * 2)%float in
  calculate_proof_gallons total_gallons proof.

(** Lines 2114-2123 on the rows whose spirit was found, each given by its
    percentage and the ABV of its spirit. *)
Definition batch_abv (weight_to_produce : float) (rows : list (float * float)) : float :=
  let total_alcohol_weight :=
    fold_left
      (fun total row =>
         let ingredient_weight := (weight_to_produce * (row.1 / 100.0))%float in
         let alcohol_content := (ingredient_weight * (row.2 / 100.0))%float in
         (total + alcohol_content)%float)
      rows 0%float in
  if PrimFloat.ltb 0 weight_to_produce
  then ((total_alcohol_weight / weight_to_produce) * 100.0)%float
  else 0.0%float.

End B64.

(** ** Constants (app.py, lines 10-14) *)

Definition GALLONS_PER_CASE : Q := 1.27.
Definition UNITS_PER_CASE : Z := 24.

(** ** Unit conversion (app.py, lines 53-96) *)

Definition calculate_proof_gallons (wine_gallons proof : Q) : Q :=
  (wine_gallons * (proof / 100.0))%Q.

(** [tax_rate] is the keyword argument with default [13.50]. *)
Definition calculate_excise_tax_at (proof_gallons tax_rate : Q) : Q :=
  (proof_gallons * tax_rate)%Q.

Definition calculate_excise_tax (proof_gallons : Q) : Q :=
  calculate_excise_tax_at proof_gallons 13.50.

Definition calculate_density_from_abv (abv : Q) : Q :=
  let abv_fraction := (abv / 100.0)%Q in
  let density_g_ml := ((abv_fraction * 0.789) + ((1 - abv_fraction) * 1.0))%Q in
  (density_g_ml * 8.345)%Q.

(** The two conversions divide or multiply by the density.  Python raises
    [ZeroDivisionError] on a zero density: [None]. *)
Definition calculate_gallons_from_weight (weight_lbs abv : Q) : option Q :=
  if Qeq_bool weight_lbs 0 then Some 0.0%Q
  else
    let density := calculate_density_from_abv abv in
    if Qeq_bool density 0 then None else Some (weight_lbs / density)%Q.

Definition calculate_weight_from_gallons (wine_gallons abv : Q) : Q :=
  if Qeq_bool wine_gallons 0 then 0.0%Q
  else
    let density := calculate_density_from_abv abv in
    (wine_gallons * density)%Q.

(** ** Finished-good metrics (app.py, lines 16-34) *)

Definition calculate_total_cases_from_stock (singles bottled_s bottled_i : Z) : Q :=
  Py.true_div (singles + bottled_s * UNITS_PER_CASE + bottled_i * UNITS_PER_CASE)
              UNITS_PER_CASE.

Record Metrics := {
  current_stock : Z;
  proof_gallons : Q;
  excise_tax_due : Q
}.

Definition derive_finished_good_metrics
    (singles bottled_s bottled_i : Z) (abv : Q) : Metrics :=
  let total_cases := calculate_total_cases_from_stock singles bottled_s bottled_i in
  let proof_gallons0 := 0.0%Q in
  let excise_tax_due0 := 0.0%Q in
  if Py.gtb abv 0 then
    let total_gallons := (total_cases * GALLONS_PER_CASE)%Q in
    let proof := (abv * 2)%Q in
    let proof_gallons1 := calculate_proof_gallons total_gallons proof in
    let excise_tax_due1 := calculate_excise_tax proof_gallons1 in
    {| current_stock := Py.int total_cases;
       proof_gallons := proof_gallons1;
       excise_tax_due := excise_tax_due1 |}
  else
    {| current_stock := Py.int total_cases;
       proof_gallons := proof_gallons0;
       excise_tax_due := excise_tax_due0 |}.

(** ** Inventory ledger (table [inventory_tracking]) *)

Record InventoryItem := {
  item_name : string;
  units_per_case : Z;
  started : Z;
  depleted : Z;
  added : Z;
  units_remaining : Z;
  cases_remaining : Z
}.

(** One row of the edited data frame, after the [int(...)] conversions of
    lines 2510-2513.  The column [Units Remaining] is read-only and is not
    read back. *)
Record EditedRow := {
  row_item_name : string;
  row_units_per_case : Z;
  row_started : Z;
  row_depleted : Z;
  row_cases_remaining : Z
}.

(** [int(units_remaining / units_per_case) if units_per_case > 0 else 0],
    the expression of lines 2539 and 2851. *)
Definition cases_of_units (units_remaining units_per_case : Z) : Z :=
  if units_per_case >? 0 then Py.int (Py.true_div units_remaining units_per_case)
  else 0.

(** The test of line 2528: the cases cell was edited and neither [Started]
    nor [Depleted] was. *)
Definition leftover_branch (current_item : InventoryItem) (row : EditedRow) : bool :=
  let started_changed := negb (row_started row =? started current_item) in
  let depleted_changed := negb (row_depleted row =? depleted current_item) in
  let cases_changed := negb (row_cases_remaining row =? cases_remaining current_item) in
  cases_changed && negb (started_changed || depleted_changed).

(** The body of the [Save All Changes] loop (lines 2509-2549): the record
    written back for one row. *)
Definition reconcile_ledger_edit (current_item : InventoryItem) (row : EditedRow)
    : InventoryItem :=
  let units_per_case := row_units_per_case row in
  let started := row_started row in
  let depleted := row_depleted row in
  let new_cases_remaining := row_cases_remaining row in
  let current_units_remaining := units_remaining current_item in
  let current_added := added current_item in
  if leftover_branch current_item row then
    let leftover_units :=
      if units_per_case >? 0 then Py.mod_ current_units_remaining units_per_case
      else 0 in
    let units_remaining := (new_cases_remaining * units_per_case) + leftover_units in
    let added := units_remaining - started + depleted in
    let cases_remaining := new_cases_remaining in
    {| item_name := row_item_name row;
       units_per_case := units_per_case;
       started := started;
       depleted := depleted;
       added := added;
       units_remaining := units_remaining;
       cases_remaining := cases_remaining |}
  else
    let added := current_added in
    let units_remaining := started - depleted + added in
    let cases_remaining := cases_of_units units_remaining units_per_case in
    {| item_name := row_item_name row;
       units_per_case := units_per_case;
       started := started;
       depleted := depleted;
       added := added;
       units_remaining := units_remaining;
       cases_remaining := cases_remaining |}.

(** One turn of the loop of line 2508 on the table: the stored item is read,
    reconciled with the row and written back.  [None] stands for the
    exception raised when the table has no row with the id of the edited
    row. *)
Definition save_row (inventory_tracking : gmap Z InventoryItem) (r : Z * EditedRow)
    : option (gmap Z InventoryItem) :=
  let item_id := r.1 in
  match inventory_tracking !! item_id with
  | Some current_item =>
      Some (<[item_id := reconcile_ledger_edit current_item r.2]> inventory_tracking)
  | None => None
  end.

(** The [Save All Changes] button: every row of the edited frame in turn. *)
Fixpoint save_all_changes (rows : list (Z * EditedRow))
    (inventory_tracking : gmap Z InventoryItem) : option (gmap Z InventoryItem) :=
  match rows with
  | [] => Some inventory_tracking
  | r :: rest =>
      match save_row inventory_tracking r with
      | Some inventory_tracking' => save_all_changes rest inventory_tracking'
      | None => None
      end
  end.

(** ** Production depletion (lines 2818-2865) *)

Inductive PackagingType := Shipping | InStore | Singles.

Global Instance PackagingType_eq_dec : EqDecision PackagingType.
Proof. solve_decision. Defined.

Record ProductionRecipe := {
  finished_good_id : Z;
  inventory_item_id : Z;
  packaging_type : PackagingType;
  qty_per_case : Q;
  wastage_factor : Q
}.

(** One entry of [inventory_updates_made]. *)
Record InventoryUpdate := {
  upd_item : string;
  upd_depletion : Z;
  upd_units_remaining : Z;
  upd_cases_remaining : Z
}.

(** The messages the handler can show about the recipe lookup. *)
Inductive Warning := NoRecipeConfigured.

(** [rows_where("finished_good_id = ? AND packaging_type = ?", ...)]. *)
Definition production_recipes_for (fg_id : Z) (pkg : PackagingType)
    (table : list ProductionRecipe) : list ProductionRecipe :=
  filter (fun r => finished_good_id r = fg_id /\ packaging_type r = pkg) table.

(** The exceptions that end the [Record Production] handler. *)
Inductive PyError :=
| NotFoundError      (* [Table.get] on an id the table does not hold *)
| NotFiniteError.    (* [round] or [int] on an infinity or a NaN *)

(** [cases_produced * qty_per_case * (1 + wastage_factor)] (line 2843): an
    [int] times a [float] times a [float], in binary64. *)
Definition depletion (cases_produced : Z) (recipe : ProductionRecipe) : float :=
  (B64.of_int cases_produced * B64.of_Q (qty_per_case recipe)
   * (1 + B64.of_Q (wastage_factor recipe)))%float.

(** [int(round(depletion))] (line 2844); [None] is the exception of
    [round]. *)
Definition depletion_int (cases_produced : Z) (recipe : ProductionRecipe)
    : option Z :=
  B64.round (depletion cases_produced recipe).

(** The record written by the [update] of lines 2854-2858: three columns
    change, the others keep their value. *)
Definition deplete_item (inventory_item : InventoryItem) (depletion_int : Z)
    : InventoryItem :=
  let new_depleted := depleted inventory_item + depletion_int in
  let new_units_remaining :=
    started inventory_item - new_depleted + added inventory_item in
  let new_cases_remaining :=
    cases_of_units new_units_remaining (units_per_case inventory_item) in
  {| item_name := item_name inventory_item;
     units_per_case := units_per_case inventory_item;
     started := started inventory_item;
     depleted := new_depleted;
     added := added inventory_item;
     units_remaining := new_units_remaining;
     cases_remaining := new_cases_remaining |}.

(** One iteration of the loop of line 2832, on the table and on the list
    [inventory_updates_made].  [Table.get] raises [NotFoundError] on a
    missing item, so the [continue] of lines 2839-2840 is never reached;
    an exception leaves the iteration before its write. *)
Definition deplete_step (cases_produced : Z)
    (st : gmap Z InventoryItem * list InventoryUpdate) (recipe : ProductionRecipe)
    : gmap Z InventoryItem * list InventoryUpdate + PyError :=
  let '(inventory_tracking, inventory_updates_made) := st in
  let inventory_item_id := inventory_item_id recipe in
  match inventory_tracking !! inventory_item_id with
  | None => inr NotFoundError
  | Some inventory_item =>
      match depletion_int cases_produced recipe with
      | None => inr NotFiniteError
      | Some d =>
          let item' := deplete_item inventory_item d in
          inl (<[inventory_item_id := item']> inventory_tracking,
               inventory_updates_made ++
                 [ {| upd_item := item_name inventory_item;
                      upd_depletion := d;
                      upd_units_remaining := units_remaining item';
                      upd_cases_remaining := cases_remaining item' |} ])
      end
  end.

(** The loop: it stops at the first exception, with what the iterations
    before it wrote. *)
Fixpoint deplete_loop (cases_produced : Z) (production_recipes : list ProductionRecipe)
    (st : gmap Z InventoryItem * list InventoryUpdate)
    : gmap Z InventoryItem * list InventoryUpdate * option PyError :=
  match production_recipes with
  | [] => (st, None)
  | recipe :: rest =>
      match deplete_step cases_produced st recipe with
      | inl st' => deplete_loop cases_produced rest st'
      | inr e => (st, Some e)
      end
  end.

Definition deplete_inventory (cases_produced : Z)
    (production_recipes : list ProductionRecipe)
    (inventory_tracking : gmap Z InventoryItem)
    : gmap Z InventoryItem * list InventoryUpdate * option PyError :=
  deplete_loop cases_produced production_recipes (inventory_tracking, []).

(** Lines 2818-2865 of the [Record Production] handler: the recipe lookup,
    the warning when there is none, and the depletion loop. *)
Definition record_production_inventory (fg_id : Z) (pkg : PackagingType)
    (cases_produced : Z) (production_recipes_table : list ProductionRecipe)
    (inventory_tracking : gmap Z InventoryItem)
    : gmap Z InventoryItem * list InventoryUpdate * option PyError * list Warning :=
  let production_recipes :=
    production_recipes_for fg_id pkg production_recipes_table in
  let warnings :=
    match production_recipes with [] => [NoRecipeConfigured] | _ => [] end in
  (deplete_inventory cases_produced production_recipes inventory_tracking, warnings).

(** ** Batch blending (lines 2040-2190) *)

Record BulkSpirit := {
  s_name : string;
  s_proof : Q;
  s_abv : Q;
  weight_lbs : Q;
  wine_gallons : Q;
  s_proof_gallons : Q
}.

Record Batch := {
  b_name : string;
  gallons : Q;
  bottled_gallons : Q;
  ending : Q;
  b_abv : Q;
  b_proof_gallons : Q
}.

Record BatchRecipe := {
  batch_id : Z;
  bulk_spirit_id : option Z;      (* NULL for a non-alcoholic ingredient *)
  ingredient_name : string;
  percentage : Q
}.

(** A row of [batch_production_log]; the date and the free-text notes of
    the form are left out. *)
Record BatchLogEntry := {
  log_batch_id : Z;
  weight_produced_lbs : Q;
  gallons_produced : Q;
  log_abv : Q;
  log_proof_gallons : Q
}.

Record DB := {
  bulk_spirits : gmap Z BulkSpirit;
  batches : gmap Z Batch;
  batch_recipes : list BatchRecipe;
  batch_production_log : list BatchLogEntry
}.

(** The guard every loop over the recipe repeats:
    [if recipe.get("bulk_spirit_id"):] (a missing or zero id is falsy),
    then [spirit = db["bulk_spirits"].get(...)] and [if spirit:].  On an id
    that names no stored spirit [get] raises; that happens in the first
    loop that draws the form, before the button, and [produce_batch] ends
    there with [SpiritNotFound], so the loops of the handler meet stored
    spirits only. *)
Definition recipe_spirit (spirits : gmap Z BulkSpirit) (recipe : BatchRecipe)
    : option (Z * BulkSpirit) :=
  match bulk_spirit_id recipe with
  | Some id =>
      if id =? 0 then None
      else match spirits !! id with
           | Some spirit => Some (id, spirit)
           | None => None
           end
  | None => None
  end.

(** The spirit a recipe row takes from, as the loops test it: the id when
    it is neither null nor zero. *)
Definition truthy_spirit_id (r : BatchRecipe) : option Z :=
  match bulk_spirit_id r with
  | Some id => if id =? 0 then None else Some id
  | None => None
  end.

(** A row whose spirit id is set and names no stored spirit:
    [db["bulk_spirits"].get] raises [NotFoundError] on it. *)
Definition spirit_missing (spirits : gmap Z BulkSpirit) (recipe : BatchRecipe) : bool :=
  match truthy_spirit_id recipe with
  | Some id => match spirits !! id with Some _ => false | None => true end
  | None => false
  end.

(** The feasibility loop of lines 2102-2110; [false] leaves the loop at the
    first insufficient spirit ([break]).  The test
    [weight_lbs < weight_to_produce * (percentage / 100.0)] is a test on
    floats and is computed in binary64. *)
Fixpoint can_produce (spirits : gmap Z BulkSpirit) (weight_to_produce : Q)
    (recipes : list BatchRecipe) : bool :=
  match recipes with
  | [] => true
  | recipe :: rest =>
      match recipe_spirit spirits recipe with
      | Some (_, spirit) =>
          let depletion_weight :=
            (B64.of_Q weight_to_produce * (B64.of_Q (percentage recipe) / 100))%float in
          if PrimFloat.ltb (B64.of_Q (weight_lbs spirit)) depletion_weight then false
          else can_produce spirits weight_to_produce rest
      | None => can_produce spirits weight_to_produce rest
      end
  end.

(** The accumulation of lines 2114-2121. *)
Definition total_alcohol_weight (spirits : gmap Z BulkSpirit) (weight_to_produce : Q)
    (recipes : list BatchRecipe) : Q :=
  fold_left
    (fun total recipe =>
       match recipe_spirit spirits recipe with
       | Some (_, spirit) =>
           let ingredient_weight := (weight_to_produce * (percentage recipe / 100.0))%Q in
           let alcohol_content := (ingredient_weight * (s_abv spirit / 100.0))%Q in
           (total + alcohol_content)%Q
       | None => total
       end)
    recipes 0%Q.

(** Line 2123. *)
Definition batch_abv (spirits : gmap Z BulkSpirit) (weight_to_produce : Q)
    (recipes : list BatchRecipe) : Q :=
  if Py.gtb weight_to_produce 0
  then ((total_alcohol_weight spirits weight_to_produce recipes / weight_to_produce) * 100.0)%Q
  else 0.0%Q.

(** The depletion loop of lines 2131-2156.  Each iteration reads the spirit
    from the table as the earlier iterations left it.  The boolean is
    [false] when a conversion raised [ZeroDivisionError]; the table is then
    the one written so far.  The column [last_updated] (the wall clock) and
    the display list [depletions_made] are left out. *)
Fixpoint deplete_spirits (weight_to_produce : Q) (recipes : list BatchRecipe)
    (spirits : gmap Z BulkSpirit) : gmap Z BulkSpirit * bool :=
  match recipes with
  | [] => (spirits, true)
  | recipe :: rest =>
      match recipe_spirit spirits recipe with
      | Some (id, spirit) =>
          let depletion_weight := (weight_to_produce * (percentage recipe / 100.0))%Q in
          let new_weight := (weight_lbs spirit - depletion_weight)%Q in
          match calculate_gallons_from_weight new_weight (s_abv spirit) with
          | None => (spirits, false)
          | Some new_gallons =>
              let new_proof_gallons :=
                calculate_proof_gallons new_gallons (s_proof spirit) in
              deplete_spirits weight_to_produce rest
                (<[id := {| s_name := s_name spirit;
                            s_proof := s_proof spirit;
                            s_abv := s_abv spirit;
                            weight_lbs := new_weight;
                            wine_gallons := new_gallons;
                            s_proof_gallons := new_proof_gallons |}]> spirits)
          end
      | None => deplete_spirits weight_to_produce rest spirits
      end
  end.

(** How the run of the page that carries a press of [Produce Batch] ends. *)
Inductive Outcome :=
| Produced            (* the run was recorded *)
| NoRecipe            (* no recipe row: warning, another button, disabled *)
| SpiritNotFound      (* a row names a spirit that is not stored: the loops
                         that draw the form raise before the button *)
| NoSuchBatch         (* the select box offers only rows of [batches] *)
| ZeroDivision.       (* a conversion raised; earlier writes remain *)

Definition set_bulk_spirits (db : DB) (spirits : gmap Z BulkSpirit) : DB :=
  {| bulk_spirits := spirits;
     batches := batches db;
     batch_recipes := batch_recipes db;
     batch_production_log := batch_production_log db |}.

(** What the run that draws the form makes of the submit button for the
    values it is drawn with (lines 2040-2112): the button
    [Produce Batch] of the branch with a recipe, enabled when
    [can_produce] holds. *)
Definition produce_button_enabled (id : Z) (weight_to_produce : Q) (db : DB) : bool :=
  match batches db !! id with
  | None => false
  | Some _ =>
      let recipes := filter (fun r => batch_id r = id) (batch_recipes db) in
      match recipes with
      | [] => false
      | _ :: _ =>
          negb (existsb (spirit_missing (bulk_spirits db)) recipes)
          && can_produce (bulk_spirits db) weight_to_produce recipes
      end
  end.

(** The run of the page that carries a press of [Produce Batch], for the
    batch [id] and the weight submitted with the press (lines 2040-2182).
    The batch type and the weight are fields of the form, so they reach the
    script together with the press; the button was enabled or disabled by
    the run before, for the values the form was drawn with.  This run
    computes [can_produce] again, for the submitted values, and passes it
    to the button as [disabled=not can_produce]; the body under the button
    does not read it. *)
Definition produce_batch (id : Z) (weight_to_produce : Q) (db : DB) : DB * Outcome :=
  match batches db !! id with
  | None => (db, NoSuchBatch)
  | Some selected_batch =>
      let recipes := filter (fun r => batch_id r = id) (batch_recipes db) in
      match recipes with
      | [] => (db, NoRecipe)
      | _ :: _ =>
          if existsb (spirit_missing (bulk_spirits db)) recipes
          then (db, SpiritNotFound)
          else
            let batch_abv := batch_abv (bulk_spirits db) weight_to_produce recipes in
            match calculate_gallons_from_weight weight_to_produce batch_abv with
            | None => (db, ZeroDivision)
            | Some batch_gallons =>
                let proof := (batch_abv * 2)%Q in
                let proof_gallons := calculate_proof_gallons batch_gallons proof in
                match deplete_spirits weight_to_produce recipes (bulk_spirits db) with
                | (spirits', false) => (set_bulk_spirits db spirits', ZeroDivision)
                | (spirits', true) =>
                    let current_gallons := gallons selected_batch in
                    let current_weight_lbs :=
                      calculate_weight_from_gallons current_gallons (b_abv selected_batch) in
                    let new_total_weight := (current_weight_lbs + weight_to_produce)%Q in
                    match calculate_gallons_from_weight new_total_weight batch_abv with
                    | None => (set_bulk_spirits db spirits', ZeroDivision)
                    | Some new_total_gallons =>
                        let new_proof_gallons :=
                          calculate_proof_gallons new_total_gallons proof in
                        ({| bulk_spirits := spirits';
                            batches :=
                              <[id := {| b_name := b_name selected_batch;
                                         gallons := new_total_gallons;
                                         bottled_gallons := bottled_gallons selected_batch;
                                         ending := (new_total_gallons
                                                    - bottled_gallons selected_batch)%Q;
                                         b_abv := batch_abv;
                                         b_proof_gallons := new_proof_gallons |}]>
                                (batches db);
                            batch_recipes := batch_recipes db;
                            batch_production_log :=
                              batch_production_log db ++
                                [ {| log_batch_id := id;
                                     weight_produced_lbs := weight_to_produce;
                                     gallons_produced := batch_gallons;
                                     log_abv := batch_abv;
                                     log_proof_gallons := proof_gallons |} ] |},
                         Produced)
                    end
                end
            end
      end
  end.

(** ** Batch recipes *)

(** [total_percentage]: the percentages of the entered rows, added up in
    binary64 in the order of the rows. *)
Definition total_percentage (recipe_items : list (option Z * string * Q)) : float :=
  fold_left (fun total item => (total + B64.of_Q item.2)%float) recipe_items 0%float.

(** The test of line 2289, [abs(total_percentage - 100.0) < 0.1], a test on
    floats. *)
Definition recipe_total_ok (recipe_items : list (option Z * string * Q)) : bool :=
  PrimFloat.ltb (PrimFloat.abs (total_percentage recipe_items - 100)) 0.1.

(** The [Save Recipe] form (lines 2288-2308): the entered rows replace the
    recipe of the batch when the test on their total passes. *)
Definition save_recipe (id : Z) (recipe_items : list (option Z * string * Q))
    (db : DB) : DB :=
  if recipe_total_ok recipe_items then
    {| bulk_spirits := bulk_spirits db;
       batches := batches db;
       batch_recipes :=
         filter (fun r => batch_id r <> id) (batch_recipes db)
         ++ map (fun item => {| batch_id := id;
                                bulk_spirit_id := item.1.1;
                                ingredient_name := item.1.2;
                                percentage := item.2 |}) recipe_items;
       batch_production_log := batch_production_log db |}
  else db.

(** ** The statements of the specification *)

(** Integer truncation, "floor toward zero": the floor of a non-negative
    number and the ceiling of a negative one. *)
Definition trunc_toward_zero (x : Q) : Z :=
  if Qle_bool 0 x then Qfloor x else Qceiling x.

(** The conversion as the specification writes it: volume x proof / 200. *)
Definition spec_proof_gallons (v p : Q) : Q := (v * p / 200)%Q.

(** The finished-good example of the specification, as it is written. *)
Definition spec_finished_good_example : Prop :=
  let m := derive_finished_good_metrics 164 6 13 17.01 in
  current_stock m = 19
  /\ (Qabs (proof_gallons m - 8.577) < 0.001)%Q
  /\ (Qabs (excise_tax_due m - 115.79) < 0.01)%Q.

(** The ledger invariant of the data model. *)
Definition ledger_invariant (it : InventoryItem) : Prop :=
  units_remaining it = started it - depleted it + added it.

(** The ledger invariant on every item of the table. *)
Definition ledger_store_invariant (inventory_tracking : gmap Z InventoryItem) : Prop :=
  map_Forall (fun _ it => ledger_invariant it) inventory_tracking.

(** The cases invariant of the data model, with the floor of the quotient. *)
Definition floor_cases_invariant (it : InventoryItem) : Prop :=
  cases_remaining it =
    if units_per_case it >? 0 then units_remaining it / units_per_case it else 0.

(** The same with the quotient truncated toward zero. *)
Definition trunc_cases_invariant (it : InventoryItem) : Prop :=
  cases_remaining it =
    if units_per_case it >? 0 then units_remaining it ÷ units_per_case it else 0.




(** A recipe row the depletion loop can apply: its item is stored and its
    depletion is a finite number. *)
Definition row_applies (cases_produced : Z) (inv : gmap Z InventoryItem)
    (r : ProductionRecipe) : Prop :=
  is_Some (inv !! inventory_item_id r) /\ is_Some (depletion_int cases_produced r).

(** The range in which [int(units / units_per_case)], computed by the
    program through a binary64 quotient, is the exact quotient truncated. *)
Definition cases_exact_range (units_remaining units_per_case : Z) : Prop :=
  Z.abs units_remaining + Z.abs units_per_case < 2 ^ 53.


(** SQLite row ids start at 1: no row has the key 0. *)
Definition rowids_nonzero {A : Type} (table : gmap Z A) : Prop := table !! 0 = None.

Definition Qsum (l : list Q) : Q := foldr Qplus 0%Q l.

(** The alcohol weights of the spirit-backed rows: for a row whose
    [bulk_spirit_id] is not null and names a spirit of the table,
    (weightToProduce x percentage/100) x spiritABV/100. *)
Definition spec_alcohol_weights (spirits : gmap Z BulkSpirit) (w : Q)
    (recipes : list BatchRecipe) : list Q :=
  omap (fun r =>
          match bulk_spirit_id r with
          | Some id =>
              match spirits !! id with
              | Some s => Some ((w * percentage r / 100) * s_abv s / 100)%Q
              | None => None
              end
          | None => None
          end) recipes.

(** The blended ABV as the specification writes it. *)
Definition spec_batch_abv (spirits : gmap Z BulkSpirit) (w : Q)
    (recipes : list BatchRecipe) : Q :=
  (Qsum (spec_alcohol_weights spirits w recipes) / w * 100)%Q.

(** The rows with a null [bulk_spirit_id] removed. *)
Definition spirit_rows (recipes : list BatchRecipe) : list BatchRecipe :=
  filter (fun r => is_Some (bulk_spirit_id r)) recipes.

(** The weighted average of the ABV over all the logged runs of a batch:
    total alcohol weight over total weight, in percent. *)
Definition lifetime_abv (id : Z) (log : list BatchLogEntry) : Q :=
  let runs := filter (fun e => log_batch_id e = id) log in
  (Qsum (map (fun e => weight_produced_lbs e * log_abv e / 100) runs)
   / Qsum (map weight_produced_lbs runs) * 100)%Q.

(** The batch invariant of the data model: the stored ABV is the weighted
    average over all the runs of the batch. *)
Definition spec_lifetime_abv_invariant (id : Z) (db : DB) : Prop :=
  match batches db !! id with
  | Some b => (b_abv b == lifetime_abv id (batch_production_log db))%Q
  | None => False
  end.

(** ** Example data *)

(** The metrics of the seeded product [Typhoon (GLASS)] (lines 657-669). *)
Definition finished_good_example : Metrics :=
  derive_finished_good_metrics 164 6 13 17.01.

Definition ledger_example_item : InventoryItem :=
  {| item_name := "Labels"; units_per_case := 24; started := 100; depleted := 10;
     added := 0; units_remaining := 90; cases_remaining := 3 |}.

Definition ledger_example_row : EditedRow :=
  {| row_item_name := "Labels"; row_units_per_case := 24; row_started := 100;
     row_depleted := 10; row_cases_remaining := 5 |}.

Definition empty_item : InventoryItem :=
  {| item_name := "Caps"; units_per_case := 24; started := 0; depleted := 0;
     added := 0; units_remaining := 0; cases_remaining := 0 |}.


Definition over_recipe : ProductionRecipe :=
  {| finished_good_id := 1; inventory_item_id := 1; packaging_type := Shipping;
     qty_per_case := 11; wastage_factor := 0 |}.

Definition mk_spirit (name : string) (abv weight : Q) : BulkSpirit :=
  {| s_name := name; s_proof := (abv * 2)%Q; s_abv := abv; weight_lbs := weight;
     wine_gallons := 0; s_proof_gallons := 0 |}.

(** Two spirits, 48% and 0% ABV, blended 60 : 40 by weight. *)
Definition blend_example_spirits : gmap Z BulkSpirit :=
  {[ 1 := mk_spirit "Rum" 48 500; 2 := mk_spirit "Base" 0 500 ]}.

Definition blend_example_recipes : list BatchRecipe :=
  [ {| batch_id := 1; bulk_spirit_id := Some 1; ingredient_name := "Rum";
       percentage := 60 |};
    {| batch_id := 1; bulk_spirit_id := Some 2; ingredient_name := "Base";
       percentage := 40 |} ].

(** A store where the recipe asks for more of spirit 1 than there is. *)
Definition short_db : DB :=
  {| bulk_spirits := {[ 1 := mk_spirit "Vodka" 40 50 ]};
     batches := {[ 1 := {| b_name := "Typhoon"; gallons := 0; bottled_gallons := 0;
                           ending := 0; b_abv := 0; b_proof_gallons := 0 |} ]};
     batch_recipes := [ {| batch_id := 1; bulk_spirit_id := Some 1;
                           ingredient_name := "Vodka"; percentage := 60 |};
                        {| batch_id := 1; bulk_spirit_id := None;
                           ingredient_name := "Lime Juice"; percentage := 40 |} ];
     batch_production_log := [] |}.

(** The same store after the spirit was deleted: the recipe still names
    it. *)
Definition dangling_db : DB :=
  {| bulk_spirits := ∅;
     batches := batches short_db;
     batch_recipes := batch_recipes short_db;
     batch_production_log := [] |}.

(** A store with a 40% and an 80% spirit and one empty batch whose recipe
    is the 40% spirit alone. *)
Definition two_run_db : DB :=
  {| bulk_spirits := {[ 1 := mk_spirit "Vodka" 40 1000; 2 := mk_spirit "Overproof" 80 1000 ]};
     batches := {[ 1 := {| b_name := "Typhoon"; gallons := 0; bottled_gallons := 0;
                           ending := 0; b_abv := 0; b_proof_gallons := 0 |} ]};
     batch_recipes := [ {| batch_id := 1; bulk_spirit_id := Some 1;
                           ingredient_name := "Vodka"; percentage := 100 |} ];
     batch_production_log := [] |}.

(** A run of 100 lbs, the recipe changed to the 80% spirit, a second run of
    100 lbs. *)
Definition two_run_db_after : DB * Outcome :=
  let db1 := (produce_batch 1 100 two_run_db).1 in
  let db1' := save_recipe 1 [(Some 2, "Overproof", 100%Q)] db1 in
  produce_batch 1 100 db1'.

(** * The rest of the engine *)

(** ** Tables in row order *)

(** The order of the row ids. *)
Definition row_le {A : Type} : relation (Z * A) := fun x y => x.1 <= y.1.

Global Instance row_le_dec {A : Type} : RelDecision (@row_le A).
Proof. intros x y. unfold row_le. apply _. Defined.

(** [table.rows]: the rows in the order of their row ids. *)
Definition rows {A : Type} (table : gmap Z A) : list (Z * A) :=
  merge_sort row_le (map_to_list table).

(** [next((r for r in rows if r["name"] == name), None)] and
    [rows_where("name = ?", [name])[0]]: the first row with the name. *)
Definition first_named {A : Type} (name_of : A -> string) (name : string)
    (table_rows : list (Z * A)) : option (Z * A) :=
  snd <$> list_find (fun r => name_of r.2 = name) table_rows.

(** ** Finished goods (table [finished_goods]) *)

Record FinishedGood := {
  fg_name : string;
  fg_current_stock : Z;
  case_size : Z;
  singles : Z;
  bottled_s : Z;
  bottled_i : Z;
  sold : Z;
  samples : Z;
  fg_abv : Q;
  fg_proof_gallons : Q;
  fg_excise_tax_due : Q;
  price_per_case : Q;
  retail_price_per_case : Q
}.

(** [update_finished_good] (lines 36-51).  The payload holds the three
    counts and the derived metrics; [extra_updates] is [None] or, at its one
    call that passes it, [{"sold": n}].  [None] is the error of [update] on
    a missing row; otherwise the table and the returned [current_stock]. *)
Definition update_finished_good (finished_goods : gmap Z FinishedGood) (fg_id : Z)
    (singles bottled_s bottled_i : Z) (abv : Q) (extra_updates : option Z)
    : option (gmap Z FinishedGood * Z) :=
  let metrics := derive_finished_good_metrics singles bottled_s bottled_i abv in
  match finished_goods !! fg_id with
  | None => None
  | Some fg =>
      Some (<[fg_id := {| fg_name := fg_name fg;
                          fg_current_stock := current_stock metrics;
                          case_size := case_size fg;
                          singles := singles;
                          bottled_s := bottled_s;
                          bottled_i := bottled_i;
                          sold := match extra_updates with
                                  | Some new_sold => new_sold
                                  | None => sold fg
                                  end;
                          samples := samples fg;
                          fg_abv := fg_abv fg;
                          fg_proof_gallons := proof_gallons metrics;
                          fg_excise_tax_due := excise_tax_due metrics;
                          price_per_case := price_per_case fg;
                          retail_price_per_case := retail_price_per_case fg |}]>
              finished_goods,
            current_stock metrics)
  end.

(** ** The [Record Production] handler (lines 2757-2901) *)

(** A row of [production_history]; the date and the notes are left out. *)
Record ProductionHistoryEntry := {
  ph_finished_good_id : Z;
  ph_finished_good_name : string;
  ph_cases_produced : Z;
  ph_packaging_type : PackagingType;
  ph_units_produced : Z;
  ph_proof_gallons_produced : Q;
  ph_excise_tax_incurred : Q;
  ph_batch_name : string
}.

(** The older tables [raw_materials] and [recipes], still depleted for
    backward compatibility. *)
Record RawMaterial := {
  rm_name : string;
  rm_current_stock : Z;
  rm_reorder_point : Z;
  rm_wastage_factor : Q;
  rm_units_per_case : Z;
  rm_started : Z;
  rm_depleted : Z;
  rm_added : Z;
  rm_units_remaining : Z;
  rm_cases_remaining : Z
}.

Record LegacyRecipe := {
  lr_finished_good_id : Z;
  lr_raw_material_id : Z;
  lr_qty_per_case : Z
}.

Record ProductionDB := {
  finished_goods : gmap Z FinishedGood;
  production_history : list ProductionHistoryEntry;
  production_recipes : list ProductionRecipe;
  inventory_tracking : gmap Z InventoryItem;
  recipes : list LegacyRecipe;
  raw_materials : gmap Z RawMaterial
}.

(** Lines 2770-2782: where the produced cases go. *)
Definition produced_counts (pkg : PackagingType) (cases_produced : Z)
    (selected_fg : FinishedGood) : Z * Z * Z :=
  match pkg with
  | Singles =>
      (singles selected_fg + cases_produced * UNITS_PER_CASE,
       bottled_s selected_fg, bottled_i selected_fg)
  | Shipping =>
      (singles selected_fg, bottled_s selected_fg + cases_produced,
       bottled_i selected_fg)
  | InStore =>
      (singles selected_fg, bottled_s selected_fg,
       bottled_i selected_fg + cases_produced)
  end.

(** Lines 2794-2816: the row added to the production history. *)
Definition production_history_entry (fg_id : Z) (selected_product : string)
    (pkg : PackagingType) (cases_produced : Z) (selected_batch : string)
    (selected_fg : FinishedGood) : ProductionHistoryEntry :=
  let units_produced := cases_produced * UNITS_PER_CASE in
  let abv := fg_abv selected_fg in
  let total_gallons := (inject_Z cases_produced * GALLONS_PER_CASE)%Q in
  let proof := (abv * 2)%Q in
  let proof_gallons_produced :=
    if Py.gtb abv 0 then calculate_proof_gallons total_gallons proof else 0.0%Q in
  let excise_tax_incurred :=
    if Py.gtb proof_gallons_produced 0
    then calculate_excise_tax proof_gallons_produced else 0.0%Q in
  let batch_name :=
    if decide (selected_batch = "(No Batch)") then "" else selected_batch in
  {| ph_finished_good_id := fg_id;
     ph_finished_good_name := selected_product;
     ph_cases_produced := cases_produced;
     ph_packaging_type := pkg;
     ph_units_produced := units_produced;
     ph_proof_gallons_produced := proof_gallons_produced;
     ph_excise_tax_incurred := excise_tax_incurred;
     ph_batch_name := batch_name |}.

(** [cases_produced * qty_per_case * (1 + wastage_factor)] on the older
    path (line 2883): the product of two [int]s times a [float], in
    binary64. *)
Definition legacy_depletion (cases_produced : Z) (recipe : LegacyRecipe)
    (raw_material : RawMaterial) : float :=
  (B64.of_int (cases_produced * lr_qty_per_case recipe)
   * (1 + B64.of_Q (rm_wastage_factor raw_material)))%float.

(** The record written by the [update] of lines 2889-2894 for a depletion
    of [d] units: [current_stock] is kept from going below 0. *)
Definition deplete_raw_material (raw_material : RawMaterial) (d : Z) : RawMaterial :=
  let current_rm_stock := rm_current_stock raw_material in
  let new_rm_stock := Z.max 0 (current_rm_stock - d) in
  let new_depleted := rm_depleted raw_material + d in
  let new_units_remaining :=
    rm_started raw_material - new_depleted + rm_added raw_material in
  let new_cases_remaining :=
    cases_of_units new_units_remaining (rm_units_per_case raw_material) in
  {| rm_name := rm_name raw_material;
     rm_current_stock := new_rm_stock;
     rm_reorder_point := rm_reorder_point raw_material;
     rm_wastage_factor := rm_wastage_factor raw_material;
     rm_units_per_case := rm_units_per_case raw_material;
     rm_started := rm_started raw_material;
     rm_depleted := new_depleted;
     rm_added := rm_added raw_material;
     rm_units_remaining := new_units_remaining;
     rm_cases_remaining := new_cases_remaining |}.

(** One turn of the loop over the older recipes (lines 2870-2895): the
    depletion is truncated by [int], not rounded.  [Table.get] raises
    [NotFoundError] on a missing raw material and [int] raises on an
    infinity or a NaN, both before the write. *)
Definition deplete_raw_material_step (cases_produced : Z)
    (raw_materials : gmap Z RawMaterial) (recipe : LegacyRecipe)
    : gmap Z RawMaterial + PyError :=
  let raw_material_id := lr_raw_material_id recipe in
  match raw_materials !! raw_material_id with
  | None => inr NotFoundError
  | Some raw_material =>
      match B64.int (legacy_depletion cases_produced recipe raw_material) with
      | None => inr NotFiniteError
      | Some d =>
          inl (<[raw_material_id := deplete_raw_material raw_material d]> raw_materials)
      end
  end.

(** The loop: it stops at the first exception, with what the turns before
    it wrote. *)
Fixpoint deplete_raw_material_loop (cases_produced : Z) (recipes : list LegacyRecipe)
    (raw_materials : gmap Z RawMaterial) : gmap Z RawMaterial * option PyError :=
  match recipes with
  | [] => (raw_materials, None)
  | recipe :: rest =>
      match deplete_raw_material_step cases_produced raw_materials recipe with
      | inl raw_materials' => deplete_raw_material_loop cases_produced rest raw_materials'
      | inr e => (raw_materials, Some e)
      end
  end.

Definition deplete_raw_materials (fg_id cases_produced : Z)
    (recipes : list LegacyRecipe) (raw_materials : gmap Z RawMaterial)
    : gmap Z RawMaterial * option PyError :=
  deplete_raw_material_loop cases_produced
    (filter (fun r => lr_finished_good_id r = fg_id) recipes) raw_materials.

(** How the handler ends.  For a product that is not in the table the page
    shows an error; the statements that follow read [fg_id], which was
    never bound, so the run stops there before any write.  An exception in
    one of the two depletion loops ends the run with the finished good, the
    history row and the turns before it written. *)
Inductive ProductionOutcome :=
| Recorded
| ProductNotFound
| UpdateFailed
| InventoryDepletionFailed (e : PyError)
| RawMaterialDepletionFailed (e : PyError).

Definition record_production (selected_product : string) (pkg : PackagingType)
    (cases_produced : Z) (selected_batch : string) (db : ProductionDB)
    : ProductionDB * ProductionOutcome :=
  match first_named fg_name selected_product (rows (finished_goods db)) with
  | None => (db, ProductNotFound)
  | Some (fg_id, selected_fg) =>
      let '(new_singles, new_bottled_s, new_bottled_i) :=
        produced_counts pkg cases_produced selected_fg in
      match update_finished_good (finished_goods db) fg_id
              new_singles new_bottled_s new_bottled_i (fg_abv selected_fg) None with
      | None => (db, UpdateFailed)
      | Some (finished_goods', _) =>
          let entry :=
            production_history_entry fg_id selected_product pkg cases_produced
              selected_batch selected_fg in
          let '(inventory_tracking', _, inventory_error, _) :=
            record_production_inventory fg_id pkg cases_produced
              (production_recipes db) (inventory_tracking db) in
          match inventory_error with
          | Some e =>
              ({| finished_goods := finished_goods';
                  production_history := production_history db ++ [entry];
                  production_recipes := production_recipes db;
                  inventory_tracking := inventory_tracking';
                  recipes := recipes db;
                  raw_materials := raw_materials db |},
               InventoryDepletionFailed e)
          | None =>
              let '(raw_materials', raw_material_error) :=
                deplete_raw_materials fg_id cases_produced (recipes db)
                  (raw_materials db) in
              ({| finished_goods := finished_goods';
                  production_history := production_history db ++ [entry];
                  production_recipes := production_recipes db;
                  inventory_tracking := inventory_tracking';
                  recipes := recipes db;
                  raw_materials := raw_materials' |},
               match raw_material_error with
               | Some e => RawMaterialDepletionFailed e
               | None => Recorded
               end)
          end
      end
  end.

(** ** Shipping an order (lines 4045-4088) *)

Inductive OrderStatus := Pending | Paid | Shipped | Delivered.

Global Instance OrderStatus_eq_dec : EqDecision OrderStatus.
Proof. solve_decision. Defined.

(** Lines 4064-4072: the cases leave the shipping boxes first, then the
    in-store boxes, then the singles; [sold] grows by the whole quantity. *)
Definition shipped_counts (fg : FinishedGood) (quantity_cases : Z) : Z * Z * Z * Z :=
  let new_bottled_s := Z.max 0 (bottled_s fg - quantity_cases) in
  let remaining := quantity_cases - (bottled_s fg - new_bottled_s) in
  let new_bottled_i := Z.max 0 (bottled_i fg - remaining) in
  let remaining' := remaining - (bottled_i fg - new_bottled_i) in
  let new_singles := Z.max 0 (singles fg - remaining') in
  let new_sold := sold fg + quantity_cases in
  (new_singles, new_bottled_s, new_bottled_i, new_sold).

(** One order item: a product that is not in the table is reported and
    skipped.  [None] is the error of [update] on a missing row. *)
Definition ship_order_item (finished_goods : gmap Z FinishedGood)
    (item : string * Z) : option (gmap Z FinishedGood) :=
  let product_name := item.1 in
  let quantity_cases := item.2 in
  match first_named fg_name product_name (rows finished_goods) with
  | None => Some finished_goods
  | Some (fg_id, fg) =>
      let '(new_singles, new_bottled_s, new_bottled_i, new_sold) :=
        shipped_counts fg quantity_cases in
      fst <$> update_finished_good finished_goods fg_id
                new_singles new_bottled_s new_bottled_i (fg_abv fg) (Some new_sold)
  end.

Fixpoint ship_order_items (order_items : list (string * Z))
    (finished_goods : gmap Z FinishedGood) : option (gmap Z FinishedGood) :=
  match order_items with
  | [] => Some finished_goods
  | item :: rest =>
      match ship_order_item finished_goods item with
      | Some finished_goods' => ship_order_items rest finished_goods'
      | None => None
      end
  end.

(** The [Update Status] button, on the finished goods: the stock moves only
    when the order enters the status [Shipped]. *)
Definition update_order_status (old_status new_status : OrderStatus)
    (order_items : list (string * Z)) (finished_goods : gmap Z FinishedGood)
    : option (gmap Z FinishedGood) :=
  if bool_decide (old_status <> Shipped) && bool_decide (new_status = Shipped)
  then ship_order_items order_items finished_goods
  else Some finished_goods.

(** ** Physical counts (lines 3595-3650 and 3728-3767) *)

(** Units of a finished good: singles plus 24 per bottled case. *)
Definition stock_units (singles bottled_s bottled_i : Z) : Z :=
  singles + (bottled_s * UNITS_PER_CASE) + (bottled_i * UNITS_PER_CASE).

Record FgCount := {
  fc_fg_id : Z;
  fc_fg_name : string;
  system_singles : Z;
  actual_singles : Z;
  system_bottled_s : Z;
  actual_bottled_s : Z;
  system_bottled_i : Z;
  actual_bottled_i : Z;
  fc_variance_units : Z;
  fc_variance_cases : Q;
  fc_variance_percentage : Q
}.

(** Lines 3595-3613: the variance of one finished good. *)
Definition count_finished_good (fg_id : Z) (fg : FinishedGood)
    (actual : Z * Z * Z) : FgCount :=
  let '(actual_singles, actual_bottled_s, actual_bottled_i) := actual in
  let system_units := stock_units (singles fg) (bottled_s fg) (bottled_i fg) in
  let actual_units := stock_units actual_singles actual_bottled_s actual_bottled_i in
  let variance_units := actual_units - system_units in
  let variance_cases := Py.true_div variance_units UNITS_PER_CASE in
  let variance_percentage :=
    if system_units >? 0
    then (Py.true_div variance_units system_units * 100)%Q else 0%Q in
  {| fc_fg_id := fg_id;
     fc_fg_name := fg_name fg;
     system_singles := singles fg;
     actual_singles := actual_singles;
     system_bottled_s := bottled_s fg;
     actual_bottled_s := actual_bottled_s;
     system_bottled_i := bottled_i fg;
     actual_bottled_i := actual_bottled_i;
     fc_variance_units := variance_units;
     fc_variance_cases := variance_cases;
     fc_variance_percentage := variance_percentage |}.

(** One turn of the save loop (lines 3622-3650) on the count log and the
    finished goods; the date and the notes are left out.  [None] is the
    error of [get] or [update] on a missing row. *)
Definition save_fg_count (adjust_inventory : bool)
    (st : list FgCount * gmap Z FinishedGood) (count : FgCount)
    : option (list FgCount * gmap Z FinishedGood) :=
  let '(physical_inventory_counts, finished_goods) := st in
  let physical_inventory_counts' := physical_inventory_counts ++ [count] in
  if adjust_inventory then
    match finished_goods !! fc_fg_id count with
    | None => None
    | Some fg =>
        match update_finished_good finished_goods (fc_fg_id count)
                (actual_singles count) (actual_bottled_s count)
                (actual_bottled_i count) (fg_abv fg) None with
        | None => None
        | Some (finished_goods', _) =>
            Some (physical_inventory_counts', finished_goods')
        end
    end
  else Some (physical_inventory_counts', finished_goods).

Fixpoint save_fg_counts (adjust_inventory : bool) (count_data : list FgCount)
    (st : list FgCount * gmap Z FinishedGood)
    : option (list FgCount * gmap Z FinishedGood) :=
  match count_data with
  | [] => Some st
  | count :: rest =>
      match save_fg_count adjust_inventory st count with
      | Some st' => save_fg_counts adjust_inventory rest st'
      | None => None
      end
  end.

(** The [Save Physical Count] form: one count per finished good, built from
    the rows of the table and the numbers entered for each. *)
Definition save_physical_count (adjust_inventory : bool) (actual : Z -> Z * Z * Z)
    (physical_inventory_counts : list FgCount) (finished_goods : gmap Z FinishedGood)
    : option (list FgCount * gmap Z FinishedGood) :=
  let count_data :=
    map (fun r => count_finished_good r.1 r.2 (actual r.1)) (rows finished_goods) in
  save_fg_counts adjust_inventory count_data
    (physical_inventory_counts, finished_goods).

Record InvCount := {
  ic_item_id : Z;
  ic_item_name : string;
  ic_system_units : Z;
  ic_actual_units : Z;
  ic_variance_units : Z;
  ic_variance_percentage : Q
}.

(** Lines 3728-3738: the variance of one inventory item. *)
Definition count_inventory_item (item_id : Z) (item : InventoryItem)
    (actual_units : Z) : InvCount :=
  let variance := actual_units - units_remaining item in
  let variance_pct :=
    if units_remaining item >? 0
    then (Py.true_div variance (units_remaining item) * 100)%Q else 0%Q in
  {| ic_item_id := item_id;
     ic_item_name := item_name item;
     ic_system_units := units_remaining item;
     ic_actual_units := actual_units;
     ic_variance_units := variance;
     ic_variance_percentage := variance_pct |}.

(** Lines 3760-3767: [added] is solved so that the units match the count. *)
Definition adjust_inventory_item (item : InventoryItem) (actual_units : Z)
    : InventoryItem :=
  let new_added := actual_units - started item + depleted item in
  let new_cases := cases_of_units actual_units (units_per_case item) in
  {| item_name := item_name item;
     units_per_case := units_per_case item;
     started := started item;
     depleted := depleted item;
     added := new_added;
     units_remaining := actual_units;
     cases_remaining := new_cases |}.

(** One turn of the save loop (lines 3746-3767). *)
Definition save_inv_count (adjust_inv : bool)
    (st : list InvCount * gmap Z InventoryItem) (count : InvCount)
    : option (list InvCount * gmap Z InventoryItem) :=
  let '(inventory_physical_counts_raw, inventory_tracking) := st in
  let inventory_physical_counts_raw' := inventory_physical_counts_raw ++ [count] in
  if adjust_inv && negb (ic_variance_units count =? 0) then
    match inventory_tracking !! ic_item_id count with
    | None => None
    | Some item =>
        Some (inventory_physical_counts_raw',
              <[ic_item_id count := adjust_inventory_item item (ic_actual_units count)]>
                inventory_tracking)
    end
  else Some (inventory_physical_counts_raw', inventory_tracking).

Fixpoint save_inv_counts (adjust_inv : bool) (inv_count_data : list InvCount)
    (st : list InvCount * gmap Z InventoryItem)
    : option (list InvCount * gmap Z InventoryItem) :=
  match inv_count_data with
  | [] => Some st
  | count :: rest =>
      match save_inv_count adjust_inv st count with
      | Some st' => save_inv_counts adjust_inv rest st'
      | None => None
      end
  end.

(** The [Save Inventory Count] form. *)
Definition save_inventory_count (adjust_inv : bool) (actual : Z -> Z)
    (inventory_physical_counts_raw : list InvCount)
    (inventory_tracking : gmap Z InventoryItem)
    : option (list InvCount * gmap Z InventoryItem) :=
  let inv_count_data :=
    map (fun r => count_inventory_item r.1 r.2 (actual r.1)) (rows inventory_tracking) in
  save_inv_counts adjust_inv inv_count_data
    (inventory_physical_counts_raw, inventory_tracking).

(** ** Recalculation at start-up ([update_calculated_fields], lines 1233-1290) *)

Definition recalc_raw_material (material : RawMaterial) : RawMaterial :=
  let units_remaining :=
    rm_started material - rm_depleted material + rm_added material in
  let cases_remaining := cases_of_units units_remaining (rm_units_per_case material) in
  {| rm_name := rm_name material;
     rm_current_stock := units_remaining;
     rm_reorder_point := rm_reorder_point material;
     rm_wastage_factor := rm_wastage_factor material;
     rm_units_per_case := rm_units_per_case material;
     rm_started := rm_started material;
     rm_depleted := rm_depleted material;
     rm_added := rm_added material;
     rm_units_remaining := units_remaining;
     rm_cases_remaining := cases_remaining |}.

Definition recalc_spirit (spirit : BulkSpirit) : BulkSpirit :=
  {| s_name := s_name spirit;
     s_proof := s_proof spirit;
     s_abv := s_abv spirit;
     weight_lbs := weight_lbs spirit;
     wine_gallons := wine_gallons spirit;
     s_proof_gallons := calculate_proof_gallons (wine_gallons spirit) (s_proof spirit) |}.

Definition recalc_batch (batch : Batch) : Batch :=
  let ending := ending batch in
  let abv := b_abv batch in
  {| b_name := b_name batch;
     gallons := gallons batch;
     bottled_gallons := bottled_gallons batch;
     ending := ending;
     b_abv := abv;
     b_proof_gallons :=
       if Py.gtb ending 0 && Py.gtb abv 0
       then calculate_proof_gallons ending (abv * 2) else 0.0%Q |}.

Definition recalc_finished_good (fg : FinishedGood) : FinishedGood :=
  let metrics :=
    derive_finished_good_metrics (singles fg) (bottled_s fg) (bottled_i fg) (fg_abv fg) in
  {| fg_name := fg_name fg;
     fg_current_stock := current_stock metrics;
     case_size := case_size fg;
     singles := singles fg;
     bottled_s := bottled_s fg;
     bottled_i := bottled_i fg;
     sold := sold fg;
     samples := samples fg;
     fg_abv := fg_abv fg;
     fg_proof_gallons := proof_gallons metrics;
     fg_excise_tax_due := excise_tax_due metrics;
     price_per_case := price_per_case fg;
     retail_price_per_case := retail_price_per_case fg |}.

Definition recalc_inventory_item (item : InventoryItem) : InventoryItem :=
  let units_remaining := started item - depleted item + added item in
  let cases_remaining := cases_of_units units_remaining (units_per_case item) in
  {| item_name := item_name item;
     units_per_case := units_per_case item;
     started := started item;
     depleted := depleted item;
     added := added item;
     units_remaining := units_remaining;
     cases_remaining := cases_remaining |}.

(** The five tables the recalculation goes through. *)
Record Tables := {
  t_raw_materials : gmap Z RawMaterial;
  t_bulk_spirits : gmap Z BulkSpirit;
  t_batches : gmap Z Batch;
  t_finished_goods : gmap Z FinishedGood;
  t_inventory_tracking : gmap Z InventoryItem
}.

(** Each loop rewrites every row of its table from the row itself. *)
Definition update_calculated_fields (db : Tables) : Tables :=
  {| t_raw_materials := recalc_raw_material <$> t_raw_materials db;
     t_bulk_spirits := recalc_spirit <$> t_bulk_spirits db;
     t_batches := recalc_batch <$> t_batches db;
     t_finished_goods := recalc_finished_good <$> t_finished_goods db;
     t_inventory_tracking := recalc_inventory_item <$> t_inventory_tracking db |}.

(** ** Bulk spirits: [Save All Changes] (lines 1950-1971) *)

(** One edited row: the name, the weight and the ABV can be edited.  The
    columns [density_lbs_per_gal] and [last_updated], which no computation
    reads back, are left out.  [None] is the division error. *)
Definition save_spirit_row (name : string) (weight_lbs abv : Q) : option BulkSpirit :=
  let proof := inject_Z (Py.int (abv * 2)) in
  match calculate_gallons_from_weight weight_lbs abv with
  | None => None
  | Some wine_gallons =>
      let proof_gallons := calculate_proof_gallons wine_gallons proof in
      Some {| s_name := name;
              s_proof := proof;
              s_abv := abv;
              weight_lbs := weight_lbs;
              wine_gallons := wine_gallons;
              s_proof_gallons := proof_gallons |}
  end.

(** ** Duplicate rows ([remove_duplicates], lines 334-382) *)

(** The first loop over a table: the names seen so far and the ids of the
    rows whose name was already seen. *)
Definition duplicates_step {A : Type} (name_of : A -> string)
    (st : gset string * list Z) (item : Z * A) : gset string * list Z :=
  let '(seen_names, items_to_delete) := st in
  if decide (name_of item.2 ∈ seen_names)
  then (seen_names, items_to_delete ++ [item.1])
  else ({[ name_of item.2 ]} ∪ seen_names, items_to_delete).

Definition items_to_delete {A : Type} (name_of : A -> string)
    (table_rows : list (Z * A)) : list Z :=
  (fold_left (duplicates_step name_of) table_rows (∅, [])).2.

(** Both loops on one table. *)
Definition remove_duplicates_table {A : Type} (name_of : A -> string)
    (table : gmap Z A) : gmap Z A :=
  fold_left (fun t item_id => delete item_id t)
            (items_to_delete name_of (rows table)) table.

(** The four tables [remove_duplicates] cleans. *)
Definition remove_duplicates (db : Tables) : Tables :=
  {| t_raw_materials := t_raw_materials db;
     t_bulk_spirits := remove_duplicates_table s_name (t_bulk_spirits db);
     t_batches := remove_duplicates_table b_name (t_batches db);
     t_finished_goods := remove_duplicates_table fg_name (t_finished_goods db);
     t_inventory_tracking :=
       remove_duplicates_table item_name (t_inventory_tracking db) |}.

(** ** Statements about the rest of the engine *)

(** The derived columns of a finished good agree with its counts and ABV. *)
Definition fg_consistent (fg : FinishedGood) : Prop :=
  let m := derive_finished_good_metrics (singles fg) (bottled_s fg) (bottled_i fg)
             (fg_abv fg) in
  fg_current_stock fg = current_stock m
  /\ fg_proof_gallons fg = proof_gallons m
  /\ fg_excise_tax_due fg = excise_tax_due m.

(** The units of a stored finished good. *)
Definition fg_units (fg : FinishedGood) : Z :=
  stock_units (singles fg) (bottled_s fg) (bottled_i fg).

(** A row of the older recipes the loop can apply: its raw material is
    stored and its depletion is a finite number. *)
Definition legacy_row_applies (cases_produced : Z) (raw : gmap Z RawMaterial)
    (r : LegacyRecipe) : Prop :=
  exists rm, raw !! lr_raw_material_id r = Some rm
             /\ is_Some (B64.int (legacy_depletion cases_produced r rm)).

(** The item an inventory count leaves in the table. *)
Definition counted_item (adjust_inv : bool) (actual : Z -> Z) (id : Z)
    (item : InventoryItem) : InventoryItem :=
  if adjust_inv && negb (actual id - units_remaining item =? 0)
  then adjust_inventory_item item (actual id) else item.

(** What an adjusting physical count makes of a finished good: the counted
    numbers, the derived columns recomputed, everything else kept. *)
Definition fg_counted (actual : Z * Z * Z) (fg fg' : FinishedGood) : Prop :=
  (singles fg', bottled_s fg', bottled_i fg') = actual
  /\ fg_consistent fg'
  /\ sold fg' = sold fg /\ samples fg' = samples fg
  /\ fg_name fg' = fg_name fg /\ fg_abv fg' = fg_abv fg
  /\ case_size fg' = case_size fg.

(** The share each spirit-backed row of a recipe brings to the blended ABV:
    its percentage times the ABV of its spirit, over 100. *)
Definition recipe_abv_terms (spirits : gmap Z BulkSpirit)
    (recipes : list BatchRecipe) : list Q :=
  omap (fun r =>
          match recipe_spirit spirits r with
          | Some (_, s) => Some (percentage r * s_abv s / 100)%Q
          | None => None
          end) recipes.

(** The percentages of the spirit-backed rows. *)
Definition recipe_spirit_percentages (spirits : gmap Z BulkSpirit)
    (recipes : list BatchRecipe) : list Q :=
  omap (fun r =>
          match recipe_spirit spirits r with
          | Some _ => Some (percentage r)
          | None => None
          end) recipes.

(** The rows of a recipe are sound for an upper bound [m] on the ABV: no
    percentage is negative and every spirit they name has an ABV between 0
    and [m]. *)
Definition recipe_rows_sound (spirits : gmap Z BulkSpirit) (m : Q)
    (recipes : list BatchRecipe) : Prop :=
  forall r id s, r ∈ recipes -> recipe_spirit spirits r = Some (id, s) ->
                 (0 <= percentage r /\ 0 <= s_abv s /\ s_abv s <= m)%Q.


(** The volume columns of a spirit agree with its weight, ABV and proof. *)
Definition spirit_volume_consistent (s : BulkSpirit) : Prop :=
  (wine_gallons s * calculate_density_from_abv (s_abv s) == weight_lbs s)%Q
  /\ (s_proof_gallons s == wine_gallons s * s_proof s / 100)%Q.



(** ** Example data for the rest of the engine *)

(** A finished good with 164 singles, 6 shipping cases and 13 in-store
    cases at 17.01% ABV, its derived columns computed. *)
Definition typhoon_glass : FinishedGood :=
  let m := derive_finished_good_metrics 164 6 13 17.01 in
  {| fg_name := "Typhoon (GLASS)"; fg_current_stock := current_stock m;
     case_size := 24; singles := 164; bottled_s := 6; bottled_i := 13;
     sold := 0; samples := 0; fg_abv := 17.01;
     fg_proof_gallons := proof_gallons m; fg_excise_tax_due := excise_tax_due m;
     price_per_case := 0; retail_price_per_case := 0 |}.

(** A raw material with 10 units left and a recipe that takes 24 of it a
    case. *)
Definition short_raw_material : RawMaterial :=
  {| rm_name := "Bottles"; rm_current_stock := 10; rm_reorder_point := 0;
     rm_wastage_factor := 0.02; rm_units_per_case := 24; rm_started := 10;
     rm_depleted := 0; rm_added := 0; rm_units_remaining := 10;
     rm_cases_remaining := 0 |}.

Definition bottles_recipe : LegacyRecipe :=
  {| lr_finished_good_id := 1; lr_raw_material_id := 1; lr_qty_per_case := 24 |}.

(** A store with the one finished good, a packaging recipe on an item of
    the ledger and the older recipe. *)
Definition production_example_db : ProductionDB :=
  {| finished_goods := {[ 1 := typhoon_glass ]};
     production_history := [];
     production_recipes := [ over_recipe ];
     inventory_tracking := {[ 1 := ledger_example_item ]};
     recipes := [ bottles_recipe ];
     raw_materials := {[ 1 := short_raw_material ]} |}.

(** The same store after the ledger item was deleted: the packaging recipe
    still names it. *)
Definition dangling_production_db : ProductionDB :=
  {| finished_goods := finished_goods production_example_db;
     production_history := [];
     production_recipes := production_recipes production_example_db;
     inventory_tracking := ∅;
     recipes := recipes production_example_db;
     raw_materials := raw_materials production_example_db |}.

(** A ledger in which the item of row 1 was entered again as row 2. *)
Definition duplicated_ledger : gmap Z InventoryItem :=
  {[ 1 := ledger_example_item; 2 := ledger_example_item; 3 := empty_item ]}.

(** * Properties *)

(** ** Python arithmetic *)

Section PyFacts.

Local Open Scope Q_scope.

Lemma Py_int_trunc (x : Q) : Py.int x = trunc_toward_zero x.
Proof.
  destruct x as [n d].
  unfold Py.int, trunc_toward_zero, Qle_bool, Qceiling, Qfloor; simpl.
  rewrite Z.mul_1_r, Z.mul_0_l.
  destruct (Z.leb_spec 0 n) as [Hn|Hn].
  - apply Z.quot_div_nonneg; lia.
  - rewrite <- (Z.opp_involutive n) at 1.
    rewrite Z.quot_opp_l by lia.
    f_equal. apply Z.quot_div_nonneg; lia.
Qed.

Global Instance trunc_toward_zero_proper : Proper (Qeq ==> eq) trunc_toward_zero.
Proof.
  intros x y Hxy. unfold trunc_toward_zero.
  rewrite (Qfloor_comp _ _ Hxy), (Qceiling_comp _ _ Hxy).
  destruct (Qle_bool 0 x) eqn:Hx, (Qle_bool 0 y) eqn:Hy; try reflexivity.
  - apply Qle_bool_iff in Hx. rewrite Hxy in Hx. apply Qle_bool_iff in Hx. congruence.
  - apply Qle_bool_iff in Hy. rewrite <- Hxy in Hy. apply Qle_bool_iff in Hy. congruence.
Qed.

Lemma Py_gtb_lt (x y : Q) : Py.gtb x y = true <-> y < x.
Proof.
  unfold Py.gtb, Py.ltb. rewrite Qlt_alt.
  destruct (y ?= x); intuition congruence.
Qed.

Lemma Py_gtb_le (x y : Q) : Py.gtb x y = false <-> x <= y.
Proof.
  unfold Py.gtb, Py.ltb. rewrite Qle_alt, <- (Qcompare_antisym y x).
  destruct (y ?= x); simpl; intuition congruence.
Qed.

Lemma Py_ltb_lt (x y : Q) : Py.ltb x y = true <-> x < y.
Proof. apply (Py_gtb_lt y x). Qed.

(** [int(a / b)] on integers with a positive divisor is the truncated
    quotient. *)
Lemma Py_int_true_div (a b : Z) : (0 < b)%Z -> Py.int (Py.true_div a b) = (a ÷ b)%Z.
Proof.
  intros Hb. destruct b as [|p|p]; try lia.
  unfold Py.int, Py.true_div, Qdiv, Qinv, Qmult, inject_Z; simpl.
  now rewrite Z.mul_1_r.
Qed.

End PyFacts.

(** ** Unit conversion and finished-good metrics *)

Section Metrics.

Local Open Scope Q_scope.

Lemma calculate_proof_gallons_formula (v p : Q) :
  calculate_proof_gallons v p == v * p / 100.
Proof. unfold calculate_proof_gallons. field. Qed.

Lemma total_cases_formula (singles bottled_s bottled_i : Z) :
  calculate_total_cases_from_stock singles bottled_s bottled_i
  == inject_Z (singles + (bottled_s + bottled_i) * 24) / 24.
Proof.
  unfold calculate_total_cases_from_stock, Py.true_div, UNITS_PER_CASE.
  replace (singles + bottled_s * 24 + bottled_i * 24)%Z
    with (singles + (bottled_s + bottled_i) * 24)%Z by lia.
  reflexivity.
Qed.

(** C1, as amended.  The metrics of a finished good follow the formulas of
    the specification: the stock is the case total truncated toward zero,
    the proof gallons and the tax follow the ABV when it is positive and
    are [0.0] otherwise.  On the example input (164 singles, 6 and 13
    bottled cases, ABV 17.01) the case total is 620/24, so the stock is 25,
    the proof gallons are 11.161395 and the tax is about 150.68. *)
Theorem derive_finished_good_metrics_formulas :
  (forall (singles bottled_s bottled_i : Z) (abv : Q),
     let total_cases := inject_Z (singles + (bottled_s + bottled_i) * 24) / 24 in
     let m := derive_finished_good_metrics singles bottled_s bottled_i abv in
     current_stock m = trunc_toward_zero total_cases
     /\ (0 < abv ->
         proof_gallons m == (total_cases * 1.27) * (abv * 2) / 100
         /\ excise_tax_due m == proof_gallons m * 13.50)
     /\ (abv <= 0 -> proof_gallons m = 0.0 /\ excise_tax_due m = 0.0))
  /\ (let m := derive_finished_good_metrics 164 6 13 17.01 in
      current_stock m = 25%Z
      /\ proof_gallons m == 11.161395
      /\ Qabs (excise_tax_due m - 150.68) < 0.01).
Proof.
  split.
  - intros singles bottled_s bottled_i abv total_cases m.
    pose proof (total_cases_formula singles bottled_s bottled_i) as Htc.
    fold total_cases in Htc.
    subst m. unfold derive_finished_good_metrics.
    destruct (Py.gtb abv 0) eqn:Habv; simpl.
    + apply Py_gtb_lt in Habv.
      split; [now rewrite Py_int_trunc, Htc|].
      split; [intros _|intros Hle; lra].
      split; [|reflexivity].
      rewrite calculate_proof_gallons_formula, Htc.
      unfold GALLONS_PER_CASE. reflexivity.
    + apply Py_gtb_le in Habv.
      split; [now rewrite Py_int_trunc, Htc|].
      split; [intros Hlt; lra|intros _; split; reflexivity].
  - cbv zeta. repeat split; vm_compute; congruence.
Qed.

(** The formula for the proof gallons, at the example input. *)
Lemma derive_finished_good_metrics_witness :
  0 < 17.01
  /\ proof_gallons (derive_finished_good_metrics 164 6 13 17.01)
     == (inject_Z (164 + (6 + 13) * 24) / 24 * 1.27) * (17.01 * 2) / 100.
Proof.
  split; [reflexivity|].
  apply (proj1 derive_finished_good_metrics_formulas 164%Z 6%Z 13%Z 17.01).
  reflexivity.
Defined.

(** C1, as written, fails on its example: the case total of 164 singles and
    19 bottled cases is 620/24 = 25.83, not 19.83. *)
Lemma derive_finished_good_metrics_example_fails :
  calculate_total_cases_from_stock 164 6 13 == 620 / 24
  /\ current_stock finished_good_example <> 19%Z
  /\ ~ Qabs (proof_gallons finished_good_example - 8.577) < 0.001
  /\ ~ Qabs (excise_tax_due finished_good_example - 115.79) < 0.01
  /\ ~ spec_finished_good_example.
Proof.
  split; [reflexivity|].
  split; [vm_compute; discriminate|].
  split; [vm_compute; discriminate|].
  split; [vm_compute; discriminate|].
  unfold spec_finished_good_example. cbv zeta. intros [H _].
  vm_compute in H. discriminate H.
Qed.

(** C2, as amended.  The conversion is volume x proof / 100, twice what the
    specification writes, and a zero volume gives zero. *)
Theorem calculate_proof_gallons_spec (v p : Q) :
  calculate_proof_gallons v p == v * p / 100
  /\ calculate_proof_gallons v p == 2 * spec_proof_gallons v p
  /\ calculate_proof_gallons 0 p == 0.
Proof.
  unfold spec_proof_gallons. split; [|split].
  - apply calculate_proof_gallons_formula.
  - unfold calculate_proof_gallons. field.
  - unfold calculate_proof_gallons. field.
Qed.

(** C2, as written, fails: 2 gallons at 100 proof are 2 proof gallons,
    not 1. *)
Lemma calculate_proof_gallons_not_over_200 :
  0 <= 2 /\ 0 <= 100
  /\ ~ calculate_proof_gallons 2 100 == spec_proof_gallons 2 100.
Proof. repeat split; vm_compute; congruence. Qed.

End Metrics.

(** ** Inventory ledger reconciler *)

Section Ledger.

Lemma cases_of_units_quot (u upc : Z) :
  cases_of_units u upc = if upc >? 0 then u ÷ upc else 0.
Proof.
  unfold cases_of_units. destruct (Z.gtb_spec upc 0) as [H|H]; [|reflexivity].
  now apply Py_int_true_div.
Qed.

(** Truncation and floor agree on a non-negative stock. *)
Lemma quot_floor_nonneg (u upc : Z) : 0 <= u -> 0 < upc -> u ÷ upc = u / upc.
Proof. intros; apply Z.quot_div_nonneg; lia. Qed.

Lemma leftover_branch_true (current_item : InventoryItem) (row : EditedRow) :
  leftover_branch current_item row = true <->
  row_cases_remaining row <> cases_remaining current_item
  /\ row_started row = started current_item
  /\ row_depleted row = depleted current_item.
Proof.
  unfold leftover_branch.
  rewrite andb_true_iff, !negb_true_iff, orb_false_iff, !negb_false_iff.
  rewrite Z.eqb_neq, !Z.eqb_eq. reflexivity.
Qed.

(** The record the leftover-preserving branch writes. *)
Lemma reconcile_leftover (current_item : InventoryItem) (row : EditedRow) :
  leftover_branch current_item row = true ->
  let upc := row_units_per_case row in
  let leftover := if upc >? 0 then units_remaining current_item mod upc else 0 in
  let units := row_cases_remaining row * upc + leftover in
  reconcile_ledger_edit current_item row =
    {| item_name := row_item_name row;
       units_per_case := upc;
       started := row_started row;
       depleted := row_depleted row;
       added := units - row_started row + row_depleted row;
       units_remaining := units;
       cases_remaining := row_cases_remaining row |}.
Proof. intros H. unfold reconcile_ledger_edit. rewrite H. reflexivity. Qed.

(** The record the canonical branch writes. *)
Lemma reconcile_canonical (current_item : InventoryItem) (row : EditedRow) :
  leftover_branch current_item row = false ->
  let units := row_started row - row_depleted row + added current_item in
  reconcile_ledger_edit current_item row =
    {| item_name := row_item_name row;
       units_per_case := row_units_per_case row;
       started := row_started row;
       depleted := row_depleted row;
       added := added current_item;
       units_remaining := units;
       cases_remaining := cases_of_units units (row_units_per_case row) |}.
Proof. intros H. unfold reconcile_ledger_edit. rewrite H. reflexivity. Qed.

Lemma reconcile_ledger_edit_ok (current_item : InventoryItem) (row : EditedRow) :
  ledger_invariant (reconcile_ledger_edit current_item row).
Proof.
  unfold ledger_invariant.
  destruct (leftover_branch current_item row) eqn:Hb.
  - rewrite (reconcile_leftover _ _ Hb); simpl. lia.
  - rewrite (reconcile_canonical _ _ Hb); simpl. reflexivity.
Qed.

Lemma save_row_some (inv inv' : gmap Z InventoryItem) (r : Z * EditedRow) :
  save_row inv r = Some inv' ->
  exists current_item,
    inv !! r.1 = Some current_item
    /\ inv' = <[r.1 := reconcile_ledger_edit current_item r.2]> inv.
Proof.
  unfold save_row. destruct (inv !! r.1) as [current_item|]; [|discriminate].
  intros [= <-]. eauto.
Qed.

(** A saved table keeps the ledger invariant where it held, and has it on
    every item a row was written for. *)
Lemma save_all_changes_invariant (rows : list (Z * EditedRow)) :
  forall inv inv' : gmap Z InventoryItem,
    save_all_changes rows inv = Some inv' ->
    (forall id it, inv !! id = Some it -> ledger_invariant it ->
                   exists it', inv' !! id = Some it' /\ ledger_invariant it')
    /\ (forall r, r ∈ rows ->
                  exists it', inv' !! r.1 = Some it' /\ ledger_invariant it')
    /\ (forall id, is_Some (inv' !! id) <-> is_Some (inv !! id)).
Proof.
  induction rows as [|r rows IH]; intros inv inv' H.
  - injection H as <-. split; [eauto|]. split; [|reflexivity].
    intros r Hr. inversion Hr.
  - cbn [save_all_changes] in H.
    destruct (save_row inv r) as [inv1|] eqn:Hrow; [|discriminate].
    apply save_row_some in Hrow as (cur & Hcur & ->).
    destruct (IH _ _ H) as (Hkeep & Hrows & Hdom).
    assert (Hr : exists it', inv' !! r.1 = Some it' /\ ledger_invariant it').
    { apply (Hkeep r.1 (reconcile_ledger_edit cur r.2)).
      - apply lookup_insert_eq.
      - apply reconcile_ledger_edit_ok. }
    split; [|split].
    + intros id it Hid Hinv.
      destruct (decide (r.1 = id)) as [<-|Hne]; [exact Hr|].
      apply (Hkeep id it); [|exact Hinv].
      now rewrite lookup_insert_ne.
    + intros r' Hin. apply elem_of_cons in Hin as [->|Hin]; [exact Hr|].
      now apply Hrows.
    + intros id. rewrite Hdom.
      destruct (decide (r.1 = id)) as [<-|Hne].
      * rewrite lookup_insert_eq, Hcur. split; eauto.
      * now rewrite lookup_insert_ne.
Qed.

Lemma save_all_changes_total (rows : list (Z * EditedRow)) :
  forall inv : gmap Z InventoryItem,
    (forall r, r ∈ rows -> is_Some (inv !! r.1)) ->
    is_Some (save_all_changes rows inv).
Proof.
  induction rows as [|r rows IH]; intros inv Hall; [cbn; eauto|].
  cbn [save_all_changes]. unfold save_row.
  destruct (Hall r) as [cur Hcur]; [apply list_elem_of_here|].
  rewrite Hcur. apply IH. intros r' Hin.
  destruct (decide (r.1 = r'.1)) as [Heq|Hne].
  - rewrite <- Heq, lookup_insert_eq. eauto.
  - rewrite lookup_insert_ne by assumption. apply Hall. now apply list_elem_of_further.
Qed.

(** C3.  Whatever the stored item and the edited row, and whichever branch
    the edit takes, the record written back satisfies
    units_remaining = started - depleted + added.  On the table: the save
    of a frame whose rows all name stored items completes, every item a
    row was written for then satisfies the formula, and a table that
    satisfied it on every item still does. *)
Theorem reconcile_ledger_edit_invariant :
  (forall (current_item : InventoryItem) (row : EditedRow),
     ledger_invariant (reconcile_ledger_edit current_item row))
  /\ (forall (rows : list (Z * EditedRow)) (inv : gmap Z InventoryItem),
        (forall r, r ∈ rows -> is_Some (inv !! r.1)) ->
        exists inv',
          save_all_changes rows inv = Some inv'
          /\ (forall r, r ∈ rows ->
                        exists it', inv' !! r.1 = Some it' /\ ledger_invariant it')
          /\ (ledger_store_invariant inv -> ledger_store_invariant inv')).
Proof.
  split; [apply reconcile_ledger_edit_ok|].
  intros rows inv Hall.
  destruct (save_all_changes_total rows inv Hall) as [inv' Hsave].
  exists inv'. split; [exact Hsave|].
  destruct (save_all_changes_invariant _ _ _ Hsave) as (Hkeep & Hrows & Hdom).
  split; [exact Hrows|].
  intros Hstore id it' Hid.
  assert (Hsome : is_Some (inv !! id)) by (apply Hdom; eauto).
  destruct Hsome as [it Hit].
  destruct (Hkeep id it Hit (Hstore id it Hit)) as (it'' & Hid' & Hinv).
  congruence.
Qed.

Lemma reconcile_ledger_edit_invariant_witness :
  exists inv',
    save_all_changes [(1, ledger_example_row)] {[ 1 := ledger_example_item ]} = Some inv'
    /\ ledger_store_invariant inv'.
Proof.
  destruct (proj2 reconcile_ledger_edit_invariant
              [(1, ledger_example_row)] {[ 1 := ledger_example_item ]})
    as (inv' & Hsave & _ & Hstore).
  - intros r Hr. apply list_elem_of_singleton in Hr as ->. eexists; reflexivity.
  - exists inv'. split; [exact Hsave|]. apply Hstore.
    intros id it Hid. apply lookup_singleton_Some in Hid as [_ <-]. reflexivity.
Defined.

(** C4.  An edit of the cases cell alone keeps the leftover units (the
    stored units modulo the units per case, 0 when that is not positive),
    writes units_remaining = cases x units per case + leftover, and solves
    [added] from the ledger formula.  On the example item (24 per case,
    started 100, depleted 10, added 0) the edit from 3 to 5 cases gives
    138 units and 48 added. *)
Theorem reconcile_cases_edit_preserves_leftover :
  (forall (current_item : InventoryItem) (row : EditedRow),
     row_cases_remaining row <> cases_remaining current_item ->
     row_started row = started current_item ->
     row_depleted row = depleted current_item ->
     let upc := row_units_per_case row in
     let leftover := if upc >? 0 then units_remaining current_item mod upc else 0 in
     let it := reconcile_ledger_edit current_item row in
     units_remaining it = row_cases_remaining row * upc + leftover
     /\ added it = units_remaining it - started it + depleted it
     /\ cases_remaining it = row_cases_remaining row
     /\ (0 < upc -> units_remaining it mod upc = units_remaining current_item mod upc))
  /\ (let it := reconcile_ledger_edit ledger_example_item ledger_example_row in
      units_remaining ledger_example_item mod 24 = 18
      /\ units_remaining it = 138
      /\ added it = 48).
Proof.
  split.
  - intros current_item row Hc Hs Hd upc leftover it.
    assert (Hb : leftover_branch current_item row = true)
      by (apply leftover_branch_true; auto).
    subst it. rewrite (reconcile_leftover _ _ Hb); simpl.
    fold upc. fold leftover.
    repeat split.
    intros Hupc. subst leftover.
    destruct (Z.gtb_spec upc 0); [|lia].
    rewrite Z.add_comm, Z.mod_add by lia.
    apply Z.mod_mod; lia.
  - cbv zeta. repeat split.
Qed.

Lemma reconcile_cases_edit_witness :
  units_remaining (reconcile_ledger_edit ledger_example_item ledger_example_row)
  = 5 * 24 + 18
  /\ added (reconcile_ledger_edit ledger_example_item ledger_example_row)
     = 138 - 100 + 10.
Proof.
  destruct (proj1 reconcile_cases_edit_preserves_leftover
              ledger_example_item ledger_example_row) as (Hu & Ha & _).
  - simpl; lia.
  - reflexivity.
  - reflexivity.
  - split; [exact Hu | exact Ha].
Defined.

(** C9, as amended.  The canonical branch of the reconciler and the
    production depletion store the quotient truncated toward zero (0 when
    the units per case are not positive), which is the floor exactly when
    the stock is not negative; the statement is made for units and units
    per case in the range where the quotient the program takes through
    binary64 is exact.  The leftover-preserving branch stores the requested
    cases, which are the floor of the stored units when the units per case
    are positive. *)
Theorem cases_remaining_truncates :
  (forall (current_item : InventoryItem) (row : EditedRow),
     leftover_branch current_item row = false ->
     cases_exact_range (units_remaining (reconcile_ledger_edit current_item row))
                       (row_units_per_case row) ->
     trunc_cases_invariant (reconcile_ledger_edit current_item row))
  /\ (forall (inventory_item : InventoryItem) (d : Z),
        cases_exact_range (units_remaining (deplete_item inventory_item d))
                          (units_per_case inventory_item) ->
        trunc_cases_invariant (deplete_item inventory_item d))
  /\ (forall (current_item : InventoryItem) (row : EditedRow),
        leftover_branch current_item row = true ->
        cases_remaining (reconcile_ledger_edit current_item row)
        = row_cases_remaining row
        /\ (0 < row_units_per_case row ->
            floor_cases_invariant (reconcile_ledger_edit current_item row)))
  /\ (forall it : InventoryItem,
        trunc_cases_invariant it -> 0 <= units_remaining it ->
        floor_cases_invariant it).
Proof.
  split; [|split; [|split]].
  - intros current_item row Hb _. unfold trunc_cases_invariant.
    rewrite (reconcile_canonical _ _ Hb); simpl.
    apply cases_of_units_quot.
  - intros inventory_item d _. unfold trunc_cases_invariant, deplete_item; simpl.
    apply cases_of_units_quot.
  - intros current_item row Hb.
    rewrite (reconcile_leftover _ _ Hb). split; [reflexivity|].
    intros Hupc. unfold floor_cases_invariant; simpl.
    destruct (Z.gtb_spec (row_units_per_case row) 0); [|lia].
    apply Z.div_unique with (r := units_remaining current_item mod row_units_per_case row).
    + left. apply Z.mod_pos_bound; lia.
    + lia.
  - intros it Ht Hu. unfold trunc_cases_invariant, floor_cases_invariant in *.
    rewrite Ht. destruct (Z.gtb_spec (units_per_case it) 0); [|reflexivity].
    apply quot_floor_nonneg; lia.
Qed.

Lemma cases_remaining_truncates_witness :
  cases_remaining (reconcile_ledger_edit ledger_example_item ledger_example_row) = 5
  /\ floor_cases_invariant (reconcile_ledger_edit ledger_example_item ledger_example_row)
  /\ trunc_cases_invariant (deplete_item ledger_example_item 50).
Proof.
  destruct (proj1 (proj2 (proj2 cases_remaining_truncates))
              ledger_example_item ledger_example_row) as [Hc Hf].
  - reflexivity.
  - split; [exact Hc|]. split; [apply Hf; reflexivity|].
    apply (proj1 (proj2 cases_remaining_truncates) ledger_example_item 50).
    vm_compute. reflexivity.
Defined.

(** C9, as written, fails.  Entering one depleted unit on an empty item
    leaves -1 units: the stored cases are [int(-1 / 24)] = 0, the floor is
    -1.  And with a zero units per case the leftover-preserving branch
    stores the requested cases, not 0. *)
Lemma cases_remaining_not_floor :
  ~ floor_cases_invariant
      (reconcile_ledger_edit empty_item
         {| row_item_name := "Caps"; row_units_per_case := 24; row_started := 0;
            row_depleted := 1; row_cases_remaining := 0 |})
  /\ ~ floor_cases_invariant (deplete_item empty_item 1)
  /\ ~ floor_cases_invariant
         (reconcile_ledger_edit empty_item
            {| row_item_name := "Caps"; row_units_per_case := 0; row_started := 0;
               row_depleted := 0; row_cases_remaining := 5 |}).
Proof. repeat split; vm_compute; congruence. Qed.

End Ledger.

(** ** Production depletion *)

Section Production.

Implicit Types (inv : gmap Z InventoryItem) (upds : list InventoryUpdate).
Implicit Types (recipe : ProductionRecipe) (item : InventoryItem).




Lemma deplete_step_missing (cases_produced : Z) recipe inv upds :
  inv !! inventory_item_id recipe = None ->
  deplete_step cases_produced (inv, upds) recipe = inr NotFoundError.
Proof. intros H. unfold deplete_step. now rewrite H. Qed.

Lemma deplete_step_inl (cases_produced : Z) recipe inv upds inv' upds' :
  deplete_step cases_produced (inv, upds) recipe = inl (inv', upds') ->
  exists item d,
    inv !! inventory_item_id recipe = Some item
    /\ depletion_int cases_produced recipe = Some d
    /\ inv' = <[inventory_item_id recipe := deplete_item item d]> inv.
Proof.
  unfold deplete_step.
  destruct (inv !! inventory_item_id recipe) as [item|]; [|discriminate].
  destruct (depletion_int cases_produced recipe) as [d|]; [|discriminate].
  intros [= <- _]. now exists item, d.
Qed.

Lemma deplete_step_applies (cases_produced : Z) recipe inv upds :
  row_applies cases_produced inv recipe
  <-> exists st', deplete_step cases_produced (inv, upds) recipe = inl st'.
Proof.
  unfold row_applies, deplete_step.
  destruct (inv !! inventory_item_id recipe) as [item|].
  - destruct (depletion_int cases_produced recipe) as [d|].
    + split; [intros _; eauto|intros _; split; eauto].
    + split; [intros [_ [d Hd]]; discriminate|intros [st' H]; discriminate].
  - split; [intros [[x Hx] _]; discriminate|intros [st' H]; discriminate].
Qed.

Lemma row_applies_insert (cases_produced : Z) inv (k : Z) item item' recipe :
  inv !! k = Some item ->
  row_applies cases_produced (<[k := item']> inv) recipe
  <-> row_applies cases_produced inv recipe.
Proof.
  intros Hk. unfold row_applies.
  destruct (decide (inventory_item_id recipe = k)) as [->|Hne].
  - rewrite lookup_insert_eq, Hk. split; intros [_ H]; split; eauto.
  - now rewrite lookup_insert_ne by congruence.
Qed.



Lemma deplete_loop_error (cases_produced : Z) (rows : list ProductionRecipe) :
  forall inv upds,
    (deplete_loop cases_produced rows (inv, upds)).2 = None
    <-> Forall (row_applies cases_produced inv) rows.
Proof.
  induction rows as [|r rows IH]; intros inv upds.
  - cbn. split; [constructor|reflexivity].
  - cbn [deplete_loop].
    destruct (deplete_step cases_produced (inv, upds) r) as [[inv' upds']|e] eqn:Hstep.
    + pose proof (deplete_step_inl _ _ _ _ _ _ Hstep) as (item & d & Hit & Hd & ->).
      rewrite IH, Forall_cons.
      assert (Hr : row_applies cases_produced inv r) by (split; eauto).
      split.
      * intros Hall. split; [exact Hr|].
        eapply Forall_impl; [exact Hall|]. intros r' Hr'.
        exact (proj1 (row_applies_insert _ _ _ _ _ _ Hit) Hr').
      * intros [_ Hall]. eapply Forall_impl; [exact Hall|]. intros r' Hr'.
        exact (proj2 (row_applies_insert _ _ _ _ _ _ Hit) Hr').
    + cbn. split; [discriminate|].
      intros [Hr _]%Forall_cons.
      apply (deplete_step_applies _ _ _ upds) in Hr as [st' Hst']. congruence.
Qed.

(** What holds of the ledger before the loop and is kept by every
    depletion holds of it after the loop, however the loop ends. *)
Lemma deplete_loop_invariant (P : gmap Z InventoryItem -> Prop) (cases_produced : Z)
    (rows : list ProductionRecipe) :
  (forall inv (k : Z) item (d : Z),
     P inv -> inv !! k = Some item -> P (<[k := deplete_item item d]> inv)) ->
  forall inv upds,
    P inv -> P (deplete_loop cases_produced rows (inv, upds)).1.1.
Proof.
  intros Hstep. induction rows as [|r rows IH]; intros inv upds HP; [exact HP|].
  cbn [deplete_loop].
  destruct (deplete_step cases_produced (inv, upds) r) as [[inv' upds']|e] eqn:Hs;
    [|exact HP].
  apply deplete_step_inl in Hs as (item & d & Hit & _ & ->).
  apply IH. now apply Hstep.
Qed.

(** A production run keeps the ledger invariant of the table, also when it
    ends with an exception. *)
Lemma deplete_inventory_keeps_ledger_invariant (cases_produced : Z)
    (rows : list ProductionRecipe) inv :
  ledger_store_invariant inv ->
  ledger_store_invariant (deplete_inventory cases_produced rows inv).1.1.
Proof.
  unfold deplete_inventory. apply deplete_loop_invariant.
  intros inv0 k item d HP Hk id it'.
  destruct (decide (id = k)) as [->|Hne].
  - rewrite lookup_insert_eq. intros [= <-]. reflexivity.
  - rewrite lookup_insert_ne by congruence. apply HP.
Qed.






End Production.

(** ** Batch blending *)

Section Blending.

Local Open Scope Q_scope.

Implicit Types (spirits : gmap Z BulkSpirit) (recipes : list BatchRecipe).

(** On a table without the key 0 the truthiness test on the id is the null
    test. *)
Lemma recipe_spirit_lookup spirits (r : BatchRecipe) :
  rowids_nonzero spirits ->
  recipe_spirit spirits r =
    match bulk_spirit_id r with
    | Some id => match spirits !! id with Some s => Some (id, s) | None => None end
    | None => None
    end.
Proof.
  intros H0. unfold recipe_spirit.
  destruct (bulk_spirit_id r) as [id|]; [|reflexivity].
  destruct (Z.eqb_spec id 0) as [->|]; [|reflexivity].
  now rewrite H0.
Qed.

Lemma recipe_spirit_null spirits (r : BatchRecipe) :
  bulk_spirit_id r = None -> recipe_spirit spirits r = None.
Proof. unfold recipe_spirit. now intros ->. Qed.

Lemma Qsum_cons (x : Q) (l : list Q) : Qsum (x :: l) = x + Qsum l.
Proof. reflexivity. Qed.

(** The loop accumulates the sum of the alcohol weights. *)
Lemma total_alcohol_weight_sum spirits (w : Q) recipes :
  rowids_nonzero spirits ->
  total_alcohol_weight spirits w recipes == Qsum (spec_alcohol_weights spirits w recipes).
Proof.
  intros H0. unfold total_alcohol_weight.
  enough (forall acc,
             fold_left
               (fun total recipe =>
                  match recipe_spirit spirits recipe with
                  | Some (_, spirit) =>
                      total + w * (percentage recipe / 100.0) * (s_abv spirit / 100.0)
                  | None => total
                  end) recipes acc
             == acc + Qsum (spec_alcohol_weights spirits w recipes)) as H
    by (rewrite H; ring).
  induction recipes as [|r recipes IH]; intros acc.
  - simpl. ring.
  - cbn [fold_left]. rewrite IH, (recipe_spirit_lookup _ _ H0).
    unfold spec_alcohol_weights; cbn [omap list_omap].
    destruct (bulk_spirit_id r) as [id|]; [|reflexivity].
    destruct (spirits !! id) as [s|]; [|reflexivity].
    rewrite Qsum_cons. field.
Qed.

(** Rows with a null spirit id can be dropped from the loop. *)
Lemma total_alcohol_weight_spirit_rows spirits (w : Q) recipes :
  total_alcohol_weight spirits w (spirit_rows recipes)
  = total_alcohol_weight spirits w recipes.
Proof.
  unfold total_alcohol_weight. generalize 0 as acc.
  induction recipes as [|r recipes IH]; intros acc; [reflexivity|].
  unfold spirit_rows in *.
  destruct (bulk_spirit_id r) as [id|] eqn:Hid.
  - rewrite filter_cons_True by (rewrite Hid; eauto).
    cbn [fold_left]. apply IH.
  - rewrite filter_cons_False by (rewrite Hid; apply is_Some_None).
    cbn [fold_left]. rewrite (recipe_spirit_null _ _ Hid). apply IH.
Qed.

(** C5.  For a positive weight the blended ABV is the sum, over the rows
    that name a spirit, of (weight x percentage/100) x spirit ABV/100,
    divided by the weight, times 100; it is 0 for a zero weight; the rows
    without a spirit add nothing.  The 60%/48% and 40%/0% blend of 100 lbs
    has ABV 28.8. *)
Theorem batch_abv_weighted_average :
  (forall spirits (w : Q) recipes,
     (rowids_nonzero spirits -> 0 < w ->
      batch_abv spirits w recipes == spec_batch_abv spirits w recipes)
     /\ (w == 0 -> batch_abv spirits w recipes == 0)
     /\ batch_abv spirits w (spirit_rows recipes) = batch_abv spirits w recipes)
  /\ batch_abv blend_example_spirits 100 blend_example_recipes == 28.8.
Proof.
  split.
  - intros spirits w recipes. split; [|split].
    + intros H0 Hw. unfold batch_abv, spec_batch_abv.
      rewrite (proj2 (Py_gtb_lt w 0) Hw).
      rewrite (total_alcohol_weight_sum _ _ _ H0).
      generalize (Qsum (spec_alcohol_weights spirits w recipes)); intros total.
      field. lra.
    + intros Hw. unfold batch_abv.
      assert (Hle : w <= 0) by (rewrite Hw; apply Qle_refl).
      rewrite (proj2 (Py_gtb_le w 0) Hle). reflexivity.
    + unfold batch_abv. now rewrite total_alcohol_weight_spirit_rows.
  - vm_compute. reflexivity.
Qed.

Lemma batch_abv_weighted_average_witness :
  rowids_nonzero blend_example_spirits /\ 0 < 100
  /\ batch_abv blend_example_spirits 100 blend_example_recipes
     == spec_batch_abv blend_example_spirits 100 blend_example_recipes.
Proof.
  assert (H0 : rowids_nonzero blend_example_spirits) by reflexivity.
  assert (Hw : 0 < 100) by reflexivity.
  split; [exact H0|]. split; [exact Hw|].
  exact (proj1 (proj1 batch_abv_weighted_average blend_example_spirits 100
                  blend_example_recipes) H0 Hw).
Defined.

End Blending.

(** ** The [Produce Batch] handler *)

Section ProduceBatch.

Local Open Scope Q_scope.

Implicit Types (spirits : gmap Z BulkSpirit) (recipes : list BatchRecipe) (db : DB).

(** C6.  The feasibility check does not guard the run.  [can_produce] is
    computed while the page is drawn and only sets [disabled] on the
    button; the batch type and the weight are fields of the form and reach
    the script together with the press.  On a store with 1000 lbs of the
    one spirit of the recipe, the form drawn for the default weight of 100
    lbs has the button enabled; the press submitted with 2000 lbs finds
    [can_produce] false and is recorded all the same: the spirit is left
    with -1000 lbs, and the batch and the log are written. *)
Theorem produce_batch_not_guarded :
  produce_button_enabled 1 100 two_run_db = true
  /\ can_produce (bulk_spirits two_run_db) 2000
       (filter (fun r => batch_id r = 1%Z) (batch_recipes two_run_db)) = false
  /\ (produce_batch 1 2000 two_run_db).2 = Produced
  /\ (exists s s',
        bulk_spirits two_run_db !! 1%Z = Some s
        /\ bulk_spirits (produce_batch 1 2000 two_run_db).1 !! 1%Z = Some s'
        /\ weight_lbs s == 1000 /\ weight_lbs s' == - (1000))
  /\ batches (produce_batch 1 2000 two_run_db).1 <> batches two_run_db
  /\ length (batch_production_log (produce_batch 1 2000 two_run_db).1)
     = S (length (batch_production_log two_run_db)).
Proof.
  split; [vm_compute; reflexivity|].
  split; [vm_compute; reflexivity|].
  split; [vm_compute; reflexivity|].
  split.
  - eexists _, _. split; [vm_compute; reflexivity|].
    split; [vm_compute; reflexivity|]. split; vm_compute; reflexivity.
  - split; [|vm_compute; reflexivity].
    intros E.
    assert (H : (fun m : gmap Z Batch => gallons <$> m !! 1%Z)
                  (batches (produce_batch 1 2000 two_run_db).1)
                = (fun m : gmap Z Batch => gallons <$> m !! 1%Z) (batches two_run_db))
      by (now rewrite E).
    vm_compute in H. discriminate H.
Qed.

(** C8, as amended.  A recorded run overwrites the ABV of the batch with
    the blended ABV of that run alone, computed from the weight entered and
    the recipe and spirits of the moment; the same value goes to the new
    log row.  The ABV and gallons the batch had before do not enter. *)
Theorem produce_batch_overwrites_abv (id : Z) (w : Q) db db' :
  produce_batch id w db = (db', Produced) ->
  let recipes := filter (fun r => batch_id r = id) (batch_recipes db) in
  let run_abv := batch_abv (bulk_spirits db) w recipes in
  exists b' e,
    batches db' !! id = Some b'
    /\ b_abv b' = run_abv
    /\ batch_production_log db' = batch_production_log db ++ [e]
    /\ log_batch_id e = id
    /\ weight_produced_lbs e = w
    /\ log_abv e = run_abv.
Proof.
  intros H recipes run_abv. unfold produce_batch in H.
  destruct (batches db !! id) as [selected_batch|]; [|discriminate].
  fold recipes in H. destruct recipes as [|r0 rs] eqn:Hrecipes; [discriminate|].
  destruct (existsb _ _); [discriminate|].
  fold run_abv in H.
  destruct (calculate_gallons_from_weight w run_abv) as [batch_gallons|];
    [|discriminate].
  destruct (deplete_spirits _ _ _) as [spirits' [|]]; cbv beta iota in H;
    [|discriminate].
  destruct (calculate_gallons_from_weight _ run_abv) as [new_total_gallons|];
    [|discriminate].
  injection H as <-. simpl.
  eexists _, _. rewrite lookup_insert_eq.
  repeat split; reflexivity.
Qed.

Lemma produce_batch_overwrites_abv_witness :
  exists b', batches two_run_db_after.1 !! 1%Z = Some b' /\ b_abv b' == 80.
Proof.
  destruct (produce_batch_overwrites_abv 1 100
              (save_recipe 1 [(Some 2%Z, "Overproof", 100)]
                 (produce_batch 1 100 two_run_db).1)
              two_run_db_after.1) as (b' & e & Hb & Habv & _).
  - vm_compute. reflexivity.
  - exists b'. split; [exact Hb|]. rewrite Habv. vm_compute. reflexivity.
Defined.

(** C8, as written, fails.  After a 100 lbs run at 40% and, the recipe
    changed, a 100 lbs run at 80%, the batch stores 80%; the weighted
    average over the two runs is 60%. *)
Lemma produce_batch_abv_not_lifetime_average :
  two_run_db_after.2 = Produced
  /\ lifetime_abv 1 (batch_production_log two_run_db_after.1) == 60
  /\ (exists b', batches two_run_db_after.1 !! 1%Z = Some b' /\ b_abv b' == 80)
  /\ ~ spec_lifetime_abv_invariant 1 two_run_db_after.1.
Proof.
  split; [vm_compute; reflexivity|].
  split; [vm_compute; reflexivity|].
  split.
  - eexists. split; [vm_compute; reflexivity|]. vm_compute. reflexivity.
  - unfold spec_lifetime_abv_invariant. vm_compute. discriminate.
Qed.

End ProduceBatch.

(** ** The examples in binary64 *)

Section Binary64.

(** The feasibility test at the boundary: 55% of 100 lbs from a spirit of
    55 lbs.  The required weight is 100 x (55 / 100.0), which in binary64
    is a little above 55, so the test finds the spirit short. *)
Lemma b64_can_produce_boundary :
  can_produce {[ 1 := mk_spirit "Vodka" 40 55 ]} 100
    [ {| batch_id := 1; bulk_spirit_id := Some 1; ingredient_name := "Vodka";
         percentage := 55 |} ] = false
  /\ PrimFloat.ltb 55 (100 * (55 / 100)) = true
  /\ (100 * (55 / 100) == 55)%Q.
Proof. repeat split; vm_compute; reflexivity. Qed.

(** [int(units / units_per_case)] with the quotient Python takes, the
    double nearest to the exact quotient: on the examples it is the exact
    quotient truncated, also at 2^53 - 1 units, and no longer at 2^53 + 1
    units. *)
Lemma b64_cases_of_units :
  B64.int (B64.of_Q (90 # 24)) = Some (cases_of_units 90 24)
  /\ B64.int (B64.of_Q (-1 # 24)) = Some (cases_of_units (-1) 24)
  /\ B64.int (B64.of_Q (inject_Z (2 ^ 53 - 1))) = Some (cases_of_units (2 ^ 53 - 1) 1)
  /\ B64.int (B64.of_Q (inject_Z (2 ^ 53 + 1))) <> Some (cases_of_units (2 ^ 53 + 1) 1).
Proof. repeat split; vm_compute; congruence. Qed.

(** The finished-good example with the program's rounding: the stock is 25
    and the two amounts round to 11.161 and 150.68. *)
Lemma b64_finished_good_example :
  let pg := B64.proof_gallons_of_stock 164 6 13 17.01 in
  B64.int (B64.calculate_total_cases_from_stock 164 6 13) = Some 25
  /\ PrimFloat.ltb 11.1613 pg = true /\ PrimFloat.ltb pg 11.1614 = true
  /\ PrimFloat.ltb 150.678 (B64.calculate_excise_tax pg) = true
  /\ PrimFloat.ltb (B64.calculate_excise_tax pg) 150.679 = true.
Proof. cbv zeta. repeat split; vm_compute; reflexivity. Qed.

(** Two gallons at 100 proof: the conversion gives exactly 2, the formula
    with the divisor 200 gives exactly 1. *)
Lemma b64_proof_gallons_2_100 :
  PrimFloat.eqb (B64.calculate_proof_gallons 2 100) 2 = true
  /\ PrimFloat.eqb (2 * 100 / 200) 1 = true.
Proof. split; vm_compute; reflexivity. Qed.

(** The blend example: the binary64 result is 28.8 up to the last digits. *)
Lemma b64_blend_example :
  let abv := B64.batch_abv 100 [(60, 48); (40, 0)]%float in
  PrimFloat.ltb 28.799999999999 abv = true
  /\ PrimFloat.ltb abv 28.800000000001 = true.
Proof. cbv zeta. split; vm_compute; reflexivity. Qed.

End Binary64.

(** ** Unit conversion: density and the two conversions *)

Section Conversions.

Local Open Scope Q_scope.

Lemma density_linear (abv : Q) :
  calculate_density_from_abv abv == 8.345 - abv * 0.01760795.
Proof. unfold calculate_density_from_abv. field. Qed.

Lemma density_zero_iff (abv : Q) :
  calculate_density_from_abv abv == 0 <-> abv == 100000 # 211.
Proof. rewrite density_linear. split; intros H; lra. Qed.

Lemma density_pos (abv : Q) : abv <= 100 -> 0 < calculate_density_from_abv abv.
Proof. intros H. rewrite density_linear. lra. Qed.

(** The density falls strictly as the ABV rises; between 0% and 100% it
    stays between that of ethanol (0.789 x 8.345) and that of water (8.345),
    both reached at the ends. *)
Theorem density_decreasing_and_bounded :
  (forall a b : Q, a < b -> calculate_density_from_abv b < calculate_density_from_abv a)
  /\ (forall abv : Q, 0 <= abv -> abv <= 100 ->
        0.789 * 8.345 <= calculate_density_from_abv abv
        /\ calculate_density_from_abv abv <= 8.345)
  /\ calculate_density_from_abv 0 == 8.345
  /\ calculate_density_from_abv 100 == 0.789 * 8.345.
Proof.
  split; [|split; [|split]].
  - intros a b Hab. rewrite !density_linear. lra.
  - intros abv H0 H100. rewrite density_linear. lra.
  - reflexivity.
  - reflexivity.
Qed.

Lemma density_decreasing_and_bounded_witness :
  calculate_density_from_abv 50 < calculate_density_from_abv 40.
Proof. apply (proj1 density_decreasing_and_bounded 40 50). reflexivity. Defined.


Lemma Qeq_bool_false (x y : Q) : Qeq_bool x y = false <-> ~ x == y.
Proof.
  split.
  - intros H E. apply Qeq_bool_iff in E. congruence.
  - intros H. destruct (Qeq_bool x y) eqn:E; [|reflexivity].
    apply Qeq_bool_iff in E. contradiction.
Qed.

Lemma gallons_from_weight_some (w abv : Q) :
  ~ w == 0 -> ~ calculate_density_from_abv abv == 0 ->
  calculate_gallons_from_weight w abv = Some (w / calculate_density_from_abv abv).
Proof.
  intros Hw Hd. unfold calculate_gallons_from_weight.
  now rewrite (proj2 (Qeq_bool_false _ _) Hw), (proj2 (Qeq_bool_false _ _) Hd).
Qed.

Lemma gallons_from_weight_zero (w abv : Q) :
  w == 0 -> calculate_gallons_from_weight w abv = Some 0.0.
Proof.
  intros Hw. unfold calculate_gallons_from_weight.
  now rewrite (proj2 (Qeq_bool_iff _ _) Hw).
Qed.

(** The conversions are inverse to each other wherever the density is not
    zero, a zero weight or volume included. *)
Theorem weight_gallons_round_trip :
  (forall w abv : Q,
     ~ abv == 100000 # 211 ->
     exists g, calculate_gallons_from_weight w abv = Some g
               /\ calculate_weight_from_gallons g abv == w)
  /\ (forall g abv : Q,
        ~ abv == 100000 # 211 ->
        exists g',
          calculate_gallons_from_weight (calculate_weight_from_gallons g abv) abv
          = Some g'
          /\ g' == g).
Proof.
  split.
  - intros w abv Habv.
    assert (Hd : ~ calculate_density_from_abv abv == 0)
      by (rewrite density_zero_iff; exact Habv).
    destruct (Qeq_dec w 0) as [Hw|Hw].
    + exists 0.0. split; [now apply gallons_from_weight_zero|].
      unfold calculate_weight_from_gallons. cbn. now rewrite Hw.
    + exists (w / calculate_density_from_abv abv).
      split; [now apply gallons_from_weight_some|].
      unfold calculate_weight_from_gallons.
      assert (Hg : ~ w / calculate_density_from_abv abv == 0).
      { intros E. apply Hw.
        assert (Ew : w == w / calculate_density_from_abv abv
                          * calculate_density_from_abv abv) by (field; exact Hd).
        rewrite Ew, E. ring. }
      rewrite (proj2 (Qeq_bool_false _ _) Hg). cbv zeta. field. exact Hd.
  - intros g abv Habv.
    assert (Hd : ~ calculate_density_from_abv abv == 0)
      by (rewrite density_zero_iff; exact Habv).
    unfold calculate_weight_from_gallons.
    destruct (Qeq_bool g 0) eqn:Hg.
    + apply Qeq_bool_iff in Hg. exists 0.0.
      split; [now apply gallons_from_weight_zero|]. now rewrite Hg.
    + apply Qeq_bool_false in Hg. cbv zeta.
      exists (g * calculate_density_from_abv abv / calculate_density_from_abv abv).
      split.
      * apply gallons_from_weight_some; [|exact Hd].
        intros E. apply Qmult_integral in E. tauto.
      * field. exact Hd.
Qed.

Lemma weight_gallons_round_trip_witness :
  exists g, calculate_gallons_from_weight 100 40 = Some g
            /\ calculate_weight_from_gallons g 40 == 100.
Proof.
  apply (proj1 weight_gallons_round_trip 100 40).
  intros H. discriminate H.
Defined.

Lemma gallons_from_weight_None (w abv : Q) :
  calculate_gallons_from_weight w abv = None
  <-> ~ w == 0 /\ abv == 100000 # 211.
Proof.
  rewrite <- density_zero_iff. unfold calculate_gallons_from_weight.
  destruct (Qeq_bool w 0) eqn:Hw.
  - apply Qeq_bool_iff in Hw. split; [discriminate|]. tauto.
  - apply Qeq_bool_false in Hw. cbv zeta.
    destruct (Qeq_bool (calculate_density_from_abv abv) 0) eqn:Hd.
    + apply Qeq_bool_iff in Hd. tauto.
    + apply Qeq_bool_false in Hd. split; [discriminate|]. tauto.
Qed.

(** The volume conversion fails only at the one ABV where the linear
    density is zero, about 473.9%, and only for a weight other than zero;
    so it never fails for an ABV up to 100%, where it gives the weight over
    the density, or zero for no weight. *)
Theorem gallons_from_weight_error :
  (forall w abv : Q,
     calculate_gallons_from_weight w abv = None
     <-> ~ w == 0 /\ abv == 100000 # 211)
  /\ (forall w abv : Q,
        abv <= 100 ->
        exists g, calculate_gallons_from_weight w abv = Some g
                  /\ g == w / calculate_density_from_abv abv).
Proof.
  split; [exact gallons_from_weight_None|].
  intros w abv H100. pose proof (density_pos abv H100) as Hd.
  destruct (Qeq_dec w 0) as [Hw|Hw].
  - exists 0.0. split; [now apply gallons_from_weight_zero|].
    rewrite Hw. unfold Qdiv. ring.
  - exists (w / calculate_density_from_abv abv).
    split; [|reflexivity]. apply gallons_from_weight_some; [exact Hw|lra].
Qed.

Lemma gallons_from_weight_error_witness :
  exists g, calculate_gallons_from_weight 100 40 = Some g
            /\ g == 100 / calculate_density_from_abv 40.
Proof.
  apply (proj2 gallons_from_weight_error 100 40). discriminate.
Defined.

End Conversions.

(** ** Tables in row order *)

Section Rows.

Context {A : Type}.

Lemma elem_of_rows (table : gmap Z A) (id : Z) (a : A) :
  (id, a) ∈ rows table <-> table !! id = Some a.
Proof. unfold rows. rewrite merge_sort_Permutation. apply elem_of_map_to_list. Qed.

Lemma first_named_Some (name_of : A -> string) (name : string)
    (rs : list (Z * A)) (id : Z) (a : A) :
  first_named name_of name rs = Some (id, a) ->
  (id, a) ∈ rs /\ name_of a = name.
Proof.
  unfold first_named.
  destruct (list_find _ rs) as [[i r]|] eqn:Hfind; [|discriminate].
  intros [= ->]. apply list_find_Some in Hfind as (Hi & Hname & _).
  split; [|exact Hname]. apply list_elem_of_lookup. eauto.
Qed.

Lemma first_named_None (name_of : A -> string) (name : string) (rs : list (Z * A)) :
  first_named name_of name rs = None <-> forall r, r ∈ rs -> name_of r.2 <> name.
Proof.
  unfold first_named.
  destruct (list_find _ rs) as [[i r]|] eqn:Hfind.
  - split; [discriminate|]. intros Hall.
    apply list_find_Some in Hfind as (Hi & Hname & _).
    exfalso. apply (Hall r); [|exact Hname]. apply list_elem_of_lookup. eauto.
  - split; [|reflexivity]. intros _ r Hr.
    apply list_find_None in Hfind. rewrite Forall_forall in Hfind.
    now apply Hfind.
Qed.

Lemma first_named_rows_Some (name_of : A -> string) (name : string)
    (table : gmap Z A) (id : Z) (a : A) :
  first_named name_of name (rows table) = Some (id, a) ->
  table !! id = Some a /\ name_of a = name.
Proof.
  intros H. apply first_named_Some in H as [Hin Hname].
  split; [now apply elem_of_rows|exact Hname].
Qed.

Lemma first_named_rows_None (name_of : A -> string) (name : string)
    (table : gmap Z A) :
  first_named name_of name (rows table) = None
  <-> forall id a, table !! id = Some a -> name_of a <> name.
Proof.
  rewrite first_named_None. split.
  - intros H id a Hid. apply (H (id, a)). now apply elem_of_rows.
  - intros H [id a] Hin. apply (H id a). now apply elem_of_rows.
Qed.

End Rows.

(** ** Finished goods *)

Section FinishedGoods.

Lemma current_stock_units (singles bottled_s bottled_i : Z) (abv : Q) :
  current_stock (derive_finished_good_metrics singles bottled_s bottled_i abv)
  = stock_units singles bottled_s bottled_i ÷ 24.
Proof.
  unfold derive_finished_good_metrics, calculate_total_cases_from_stock, stock_units.
  destruct (Py.gtb abv 0); cbn [current_stock];
    now rewrite Py_int_true_div by reflexivity.
Qed.

Lemma total_cases_nonneg (singles bottled_s bottled_i : Z) :
  0 <= stock_units singles bottled_s bottled_i ->
  (0 <= calculate_total_cases_from_stock singles bottled_s bottled_i)%Q.
Proof.
  intros H. unfold calculate_total_cases_from_stock, Py.true_div, stock_units in *.
  apply Qle_shift_div_l; [reflexivity|].
  rewrite Qmult_0_l. rewrite <- (Zle_Qle 0). exact H.
Qed.

(** The stock of a finished good with non-negative counts is its bottled
    cases plus the whole cases its singles fill; the proof gallons and the
    tax are then never negative, and the tax is 13.50 a proof gallon. *)
Theorem finished_good_whole_cases (singles bottled_s bottled_i : Z) (abv : Q) :
  0 <= singles -> 0 <= bottled_s -> 0 <= bottled_i ->
  let m := derive_finished_good_metrics singles bottled_s bottled_i abv in
  current_stock m = bottled_s + bottled_i + singles / 24
  /\ (0 <= proof_gallons m)%Q
  /\ (0 <= excise_tax_due m)%Q
  /\ (excise_tax_due m == 13.50 * proof_gallons m)%Q.
Proof.
  intros Hs Hbs Hbi m.
  assert (Hu : 0 <= stock_units singles bottled_s bottled_i)
    by (unfold stock_units, UNITS_PER_CASE; lia).
  split.
  { subst m. rewrite current_stock_units.
    rewrite Z.quot_div_nonneg by lia.
    unfold stock_units, UNITS_PER_CASE.
    replace (singles + bottled_s * 24 + bottled_i * 24)
      with (singles + (bottled_s + bottled_i) * 24) by lia.
    rewrite Z.div_add by lia. lia. }
  pose proof (total_cases_nonneg _ _ _ Hu) as Htc.
  subst m. unfold derive_finished_good_metrics.
  destruct (Py.gtb abv 0) eqn:Habv; cbn [proof_gallons excise_tax_due].
  - apply Py_gtb_lt in Habv.
    assert (Hpg : (0 <= calculate_proof_gallons
                          (calculate_total_cases_from_stock singles bottled_s bottled_i
                           * GALLONS_PER_CASE) (abv * 2))%Q).
    { unfold calculate_proof_gallons, GALLONS_PER_CASE.
      apply Qmult_le_0_compat; [apply Qmult_le_0_compat; [exact Htc|discriminate]|].
      apply Qmult_le_0_compat; [lra|discriminate]. }
    split; [exact Hpg|]. unfold calculate_excise_tax, calculate_excise_tax_at.
    split; [|ring]. apply Qmult_le_0_compat; [exact Hpg|discriminate].
  - split; [discriminate|]. split; [discriminate|]. reflexivity.
Qed.

Lemma finished_good_whole_cases_witness :
  current_stock (derive_finished_good_metrics 164 6 13 17.01) = 6 + 13 + 164 / 24.
Proof.
  apply (finished_good_whole_cases 164 6 13 17.01); lia.
Defined.

Lemma update_finished_good_found (table : gmap Z FinishedGood) (fg_id : Z)
    (fg : FinishedGood) (s bs bi : Z) (extra : option Z) :
  table !! fg_id = Some fg ->
  exists fg',
    update_finished_good table fg_id s bs bi (fg_abv fg) extra
    = Some (<[fg_id := fg']> table,
            current_stock (derive_finished_good_metrics s bs bi (fg_abv fg)))
    /\ fg_consistent fg'
    /\ singles fg' = s
    /\ bottled_s fg' = bs
    /\ bottled_i fg' = bi
    /\ sold fg' = default (sold fg) extra
    /\ fg_name fg' = fg_name fg /\ fg_abv fg' = fg_abv fg
    /\ case_size fg' = case_size fg /\ samples fg' = samples fg
    /\ price_per_case fg' = price_per_case fg
    /\ retail_price_per_case fg' = retail_price_per_case fg.
Proof.
  intros H. unfold update_finished_good. rewrite H.
  eexists. split; [reflexivity|]. unfold fg_consistent. cbn.
  destruct extra; repeat split.
Qed.

End FinishedGoods.

(** ** Rounding of the depletion *)

Section Rounding.

Local Open Scope Q_scope.

Lemma Py_round_cases (x : Q) :
  Py.round x = Qfloor x \/ Py.round x = (Qfloor x + 1)%Z.
Proof.
  unfold Py.round. cbv zeta.
  destruct (x - inject_Z (Qfloor x) ?= 1 # 2); [destruct (Z.even _)|..]; auto.
Qed.

Lemma Py_round_half (x : Q) : Qabs (inject_Z (Py.round x) - x) <= 1 # 2.
Proof.
  pose proof (Qfloor_le x) as Hlo. pose proof (Qlt_floor x) as Hhi.
  rewrite inject_Z_plus in Hhi. change (inject_Z 1) with 1 in Hhi.
  apply Qabs_Qle_condition.
  unfold Py.round. cbv zeta.
  destruct (x - inject_Z (Qfloor x) ?= 1 # 2) eqn:Hc.
  - apply Qeq_alt in Hc.
    destruct (Z.even (Qfloor x));
      [|rewrite inject_Z_plus; change (inject_Z 1) with 1]; split; lra.
  - apply Qlt_alt in Hc. split; lra.
  - apply Qgt_alt in Hc. rewrite inject_Z_plus. change (inject_Z 1) with 1.
    split; lra.
Qed.

Lemma Py_round_comp (x y : Q) : x == y -> Py.round x = Py.round y.
Proof.
  intros H. unfold Py.round. cbv zeta.
  rewrite (Qfloor_comp _ _ H).
  assert (Hc : (x - inject_Z (Qfloor y) ?= 1 # 2) = (y - inject_Z (Qfloor y) ?= 1 # 2))
    by (now rewrite H).
  now rewrite Hc.
Qed.

Lemma Py_round_Z (n : Z) : Py.round (inject_Z n) = n.
Proof.
  unfold Py.round. cbv zeta. rewrite Qfloor_Z.
  assert (Hc : (inject_Z n - inject_Z n ?= 1 # 2) = Lt)
    by (unfold Qminus; now rewrite Qplus_opp_r).
  now rewrite Hc.
Qed.

Lemma Py_int_floor (x : Q) : 0 <= x -> Py.int x = Qfloor x.
Proof.
  intros H. rewrite Py_int_trunc. unfold trunc_toward_zero.
  now rewrite (proj2 (Qle_bool_iff 0 x) H).
Qed.

Lemma Py_int_le_round (x : Q) :
  0 <= x -> (Py.int x <= Py.round x <= Py.int x + 1)%Z.
Proof.
  intros H. rewrite (Py_int_floor x H).
  destruct (Py_round_cases x) as [-> | ->]; lia.
Qed.

(** [round] and [int] on a float are Python's [round] and [int] on the
    rational the float holds. *)
Lemma B64_round_to_Q (x : float) : B64.round x = Py.round <$> B64.to_Q x.
Proof. unfold B64.round. destruct (B64.to_Q x); reflexivity. Qed.

Lemma B64_int_to_Q (x : float) : B64.int x = Py.int <$> B64.to_Q x.
Proof.
  unfold B64.int, B64.to_Q.
  destruct (Prim2SF x) as [s|s| |s m e]; try reflexivity.
  cbn [fmap option_fmap option_map]. f_equal.
  assert (Hpos : forall p : positive, (0 < 2 ^ Zpos p)%Z)
    by (intros p; apply Z.pow_pos_nonneg; lia).
  destruct e as [|p|p].
  - change (0 <=? 0)%Z with true. cbv iota.
    destruct s; unfold Py.int; cbn [Qnum Qden Qopp inject_Z].
    + now rewrite Z.quot_1_r.
    + now rewrite Z.quot_1_r.
  - change (0 <=? Zpos p)%Z with true. cbv iota.
    destruct s; unfold Py.int; cbn [Qnum Qden Qopp inject_Z].
    + now rewrite Z.quot_1_r.
    + now rewrite Z.quot_1_r.
  - change (0 <=? Zneg p)%Z with false. cbv iota.
    change (- Zneg p)%Z with (Zpos p).
    destruct s; unfold Py.int; cbn [Qnum Qden Qopp].
    + rewrite Z2Pos.id by apply Hpos.
      change (- Zpos m)%Z with (- (Zpos m))%Z.
      rewrite Z.quot_opp_l by (specialize (Hpos p); lia).
      rewrite Z.quot_div_nonneg by (specialize (Hpos p); lia). reflexivity.
    + rewrite Z2Pos.id by apply Hpos.
      rewrite Z.quot_div_nonneg by (specialize (Hpos p); lia). reflexivity.
Qed.

(** The units a recipe row takes are the whole number nearest to the
    product the program computes in binary64: never more than half a unit
    from it, never negative when it is not negative, and there whenever the
    product is finite.  The product is the binary64 one: at 50 cases of 1.0
    a case it lies a little above 54.5 for a wastage of 0.09 and 55 units
    are taken, where the product of the decimals is 54.5 and rounds to 54;
    for a wastage of 0.15 it lies below 57.5 and 57 units are taken, where
    the decimals give 58. *)
Theorem depletion_int_nearest :
  (forall (cases_produced : Z) (recipe : ProductionRecipe) (d : Z) (x : Q),
     depletion_int cases_produced recipe = Some d ->
     B64.to_Q (depletion cases_produced recipe) = Some x ->
     Qabs (inject_Z d - x) <= 1 # 2 /\ (0 <= x -> (0 <= d)%Z))
  /\ (forall (cases_produced : Z) (recipe : ProductionRecipe),
        is_Some (depletion_int cases_produced recipe)
        <-> is_Some (B64.to_Q (depletion cases_produced recipe)))
  /\ (depletion_int 50 {| finished_good_id := 1; inventory_item_id := 1;
                          packaging_type := Shipping; qty_per_case := 1.0;
                          wastage_factor := 0.09 |} = Some 55%Z
      /\ Py.round (50 * 1.0 * (1 + 0.09)) = 54%Z)
  /\ (depletion_int 50 {| finished_good_id := 1; inventory_item_id := 1;
                          packaging_type := Shipping; qty_per_case := 1.0;
                          wastage_factor := 0.15 |} = Some 57%Z
      /\ Py.round (50 * 1.0 * (1 + 0.15)) = 58%Z).
Proof.
  split; [|split; [|split]].
  - intros cases_produced recipe d x Hd Hx.
    unfold depletion_int in Hd. rewrite B64_round_to_Q, Hx in Hd.
    injection Hd as <-. split; [apply Py_round_half|].
    intros H0. pose proof (Py_round_cases x) as Hr.
    assert (0 <= Qfloor x)%Z.
    { rewrite <- (Qfloor_Z 0). now apply Qfloor_resp_le. }
    lia.
  - intros cases_produced recipe. unfold depletion_int.
    rewrite B64_round_to_Q.
    destruct (B64.to_Q (depletion cases_produced recipe)); cbn;
      split; intros [y Hy]; solve [eauto|discriminate].
  - split; vm_compute; reflexivity.
  - split; vm_compute; reflexivity.
Qed.

Lemma depletion_int_nearest_witness :
  Qabs (inject_Z 48 - (6755399441055744 # 140737488355328)) <= 1 # 2.
Proof.
  destruct (proj1 depletion_int_nearest 2%Z
              {| finished_good_id := 1; inventory_item_id := 1;
                 packaging_type := Shipping; qty_per_case := inject_Z 24;
                 wastage_factor := 0 |} 48%Z
              (6755399441055744 # 140737488355328)) as [H _].
  - vm_compute. reflexivity.
  - vm_compute. reflexivity.
  - exact H.
Defined.

(** For the same product, when it is not negative, the older path, which
    truncates, takes at most as many units as the ledger path, which
    rounds, and at most one unit less; neither raises. *)
Theorem truncated_depletion_le_rounded (cases_produced : Z)
    (recipe : ProductionRecipe) (legacy : LegacyRecipe) (raw_material : RawMaterial)
    (x : Q) :
  depletion cases_produced recipe
  = legacy_depletion cases_produced legacy raw_material ->
  B64.to_Q (depletion cases_produced recipe) = Some x ->
  0 <= x ->
  exists d_legacy d_ledger : Z,
    B64.int (legacy_depletion cases_produced legacy raw_material) = Some d_legacy
    /\ depletion_int cases_produced recipe = Some d_ledger
    /\ (d_legacy <= d_ledger <= d_legacy + 1)%Z.
Proof.
  intros Heq Hx H0. exists (Py.int x), (Py.round x).
  split; [now rewrite <- Heq, B64_int_to_Q, Hx|].
  split; [unfold depletion_int; now rewrite B64_round_to_Q, Hx|].
  now apply Py_int_le_round.
Qed.

Lemma truncated_depletion_le_rounded_witness :
  exists d_legacy d_ledger : Z,
    B64.int (legacy_depletion 2 bottles_recipe short_raw_material) = Some d_legacy
    /\ depletion_int 2 {| finished_good_id := 1; inventory_item_id := 1;
                          packaging_type := Shipping; qty_per_case := inject_Z 24;
                          wastage_factor := 0.02 |} = Some d_ledger
    /\ (d_legacy <= d_ledger <= d_legacy + 1)%Z.
Proof.
  apply (truncated_depletion_le_rounded 2
           {| finished_good_id := 1; inventory_item_id := 1;
              packaging_type := Shipping; qty_per_case := inject_Z 24;
              wastage_factor := 0.02 |}
           bottles_recipe short_raw_material
           (6890507429876859 # 140737488355328)).
  - vm_compute. reflexivity.
  - vm_compute. reflexivity.
  - vm_compute. discriminate.
Defined.

End Rounding.

(** ** The older raw-material depletion *)

Section Legacy.

Implicit Types (raw : gmap Z RawMaterial) (recipe : LegacyRecipe) (rm : RawMaterial).

Lemma deplete_raw_material_step_inl (cases_produced : Z) raw recipe raw' :
  deplete_raw_material_step cases_produced raw recipe = inl raw' ->
  exists rm d,
    raw !! lr_raw_material_id recipe = Some rm
    /\ B64.int (legacy_depletion cases_produced recipe rm) = Some d
    /\ raw' = <[lr_raw_material_id recipe := deplete_raw_material rm d]> raw.
Proof.
  unfold deplete_raw_material_step. cbv zeta.
  destruct (raw !! lr_raw_material_id recipe) as [rm|]; [|discriminate].
  destruct (B64.int (legacy_depletion cases_produced recipe rm)) as [d|] eqn:Hd;
    [|discriminate].
  intros [= <-]. now exists rm, d.
Qed.

Lemma deplete_raw_material_step_applies (cases_produced : Z) raw recipe :
  legacy_row_applies cases_produced raw recipe
  <-> exists raw', deplete_raw_material_step cases_produced raw recipe = inl raw'.
Proof.
  unfold legacy_row_applies, deplete_raw_material_step. cbv zeta.
  destruct (raw !! lr_raw_material_id recipe) as [rm|].
  - destruct (B64.int (legacy_depletion cases_produced recipe rm)) as [d|] eqn:Hd.
    + split; [intros _; eauto|]. intros _. exists rm. rewrite Hd. eauto.
    + split; [|intros [? H]; discriminate].
      intros (rm' & [= <-] & [d Hd']). congruence.
  - split; [intros (rm' & H & _); discriminate|intros [? H]; discriminate].
Qed.

Lemma legacy_row_applies_insert (cases_produced : Z) raw (k : Z) rm (d : Z) recipe :
  raw !! k = Some rm ->
  legacy_row_applies cases_produced (<[k := deplete_raw_material rm d]> raw) recipe
  <-> legacy_row_applies cases_produced raw recipe.
Proof.
  intros Hk. unfold legacy_row_applies.
  destruct (decide (lr_raw_material_id recipe = k)) as [->|Hne].
  - rewrite lookup_insert_eq, Hk. split.
    + intros (rm' & [= <-] & H). exists rm. split; [reflexivity|exact H].
    + intros (rm' & [= <-] & H). eexists. split; [reflexivity|exact H].
  - now rewrite lookup_insert_ne by congruence.
Qed.

Lemma deplete_raw_material_loop_error (cases_produced : Z) (rows : list LegacyRecipe) :
  forall raw,
    (deplete_raw_material_loop cases_produced rows raw).2 = None
    <-> Forall (legacy_row_applies cases_produced raw) rows.
Proof.
  induction rows as [|r rows IH]; intros raw.
  - cbn. split; [constructor|reflexivity].
  - cbn [deplete_raw_material_loop].
    destruct (deplete_raw_material_step cases_produced raw r) as [raw'|e] eqn:Hstep.
    + pose proof (deplete_raw_material_step_inl _ _ _ _ Hstep) as (rm & d & Hrm & Hd & ->).
      rewrite IH, Forall_cons.
      assert (Hr : legacy_row_applies cases_produced raw r).
      { exists rm. split; [exact Hrm|]. rewrite Hd. eauto. }
      split.
      * intros Hall. split; [exact Hr|].
        eapply Forall_impl; [exact Hall|]. intros r' Hr'.
        exact (proj1 (legacy_row_applies_insert _ _ _ _ _ _ Hrm) Hr').
      * intros [_ Hall]. eapply Forall_impl; [exact Hall|]. intros r' Hr'.
        exact (proj2 (legacy_row_applies_insert _ _ _ _ _ _ Hrm) Hr').
    + cbn. split; [discriminate|].
      intros [Hr _]%Forall_cons.
      apply deplete_raw_material_step_applies in Hr as [raw' Hraw']. congruence.
Qed.

Lemma deplete_raw_material_loop_nonneg (cases_produced : Z) (rows : list LegacyRecipe) :
  forall raw,
    map_Forall (fun _ rm => 0 <= rm_current_stock rm) raw ->
    map_Forall (fun _ rm => 0 <= rm_current_stock rm)
               (deplete_raw_material_loop cases_produced rows raw).1.
Proof.
  induction rows as [|r rows IH]; intros raw H; [exact H|].
  cbn [deplete_raw_material_loop].
  destruct (deplete_raw_material_step cases_produced raw r) as [raw'|e] eqn:Hstep;
    [|exact H].
  apply deplete_raw_material_step_inl in Hstep as (rm & d & _ & _ & ->).
  apply IH. apply map_Forall_insert_2; [|exact H]. cbn. lia.
Qed.

(** The older path writes [current_stock] cut off at 0 and the ledger
    columns by the formula, with the depletion, the binary64 product,
    truncated.  Starting from a material whose stock equals its units, the
    two stay equal while the stock suffices; past that the stock stays at 0
    and the units go negative.  A recipe row whose raw material is missing
    is not skipped: the lookup raises and nothing is written for it.
    However the loop ends, it makes no stock negative.  At 100 units with a
    wastage of 0.13 the product is a little below 113 and 112 units are
    taken. *)
Theorem legacy_depletion_clamped :
  (forall (cases_produced : Z) raw recipe rm (d : Z),
     raw !! lr_raw_material_id recipe = Some rm ->
     B64.int (legacy_depletion cases_produced recipe rm) = Some d ->
     exists rm',
       deplete_raw_material_step cases_produced raw recipe
       = inl (<[lr_raw_material_id recipe := rm']> raw)
       /\ rm_current_stock rm' = Z.max 0 (rm_current_stock rm - d)
       /\ rm_depleted rm' = rm_depleted rm + d
       /\ rm_units_remaining rm' = rm_started rm - rm_depleted rm' + rm_added rm
       /\ (rm_units_remaining rm = rm_started rm - rm_depleted rm + rm_added rm ->
           rm_current_stock rm = rm_units_remaining rm ->
           (d <= rm_current_stock rm -> rm_current_stock rm' = rm_units_remaining rm')
           /\ (rm_current_stock rm < d ->
               rm_current_stock rm' = 0 /\ rm_units_remaining rm' < 0)))
  /\ (forall (cases_produced : Z) raw recipe,
        raw !! lr_raw_material_id recipe = None ->
        deplete_raw_material_step cases_produced raw recipe = inr NotFoundError)
  /\ (forall (fg_id cases_produced : Z) (legacy : list LegacyRecipe) raw,
        map_Forall (fun _ rm => 0 <= rm_current_stock rm) raw ->
        map_Forall (fun _ rm => 0 <= rm_current_stock rm)
                   (deplete_raw_materials fg_id cases_produced legacy raw).1)
  /\ B64.int (legacy_depletion 100
                {| lr_finished_good_id := 1; lr_raw_material_id := 1;
                   lr_qty_per_case := 1 |}
                {| rm_name := "Bottles"; rm_current_stock := 500;
                   rm_reorder_point := 0; rm_wastage_factor := 0.13;
                   rm_units_per_case := 24; rm_started := 500; rm_depleted := 0;
                   rm_added := 0; rm_units_remaining := 500;
                   rm_cases_remaining := 20 |}) = Some 112.
Proof.
  split; [|split; [|split]].
  - intros cases_produced raw recipe rm d Hrm Hd.
    unfold deplete_raw_material_step. cbv zeta. rewrite Hrm, Hd.
    eexists. split; [reflexivity|]. cbn.
    split; [reflexivity|]. split; [reflexivity|]. split; [reflexivity|].
    intros Hinv Hstock. lia.
  - intros cases_produced raw recipe Hrm.
    unfold deplete_raw_material_step. cbv zeta. now rewrite Hrm.
  - intros fg_id cases_produced legacy raw. unfold deplete_raw_materials.
    apply deplete_raw_material_loop_nonneg.
  - vm_compute. reflexivity.
Qed.

Lemma legacy_depletion_clamped_witness :
  exists rm',
    deplete_raw_material_step 2 {[ 1 := short_raw_material ]} bottles_recipe
    = inl (<[1 := rm']> {[ 1 := short_raw_material ]})
    /\ rm_current_stock rm' = 0.
Proof.
  destruct (proj1 legacy_depletion_clamped 2 {[ 1 := short_raw_material ]}
              bottles_recipe short_raw_material 48)
    as (rm' & Hstep & Hstock & _).
  - reflexivity.
  - vm_compute. reflexivity.
  - exists rm'. split; [exact Hstep|]. rewrite Hstock. vm_compute. reflexivity.
Defined.

End Legacy.

(** ** The [Record Production] handler *)

Section RecordProduction.

Implicit Types (db : ProductionDB) (pkg : PackagingType) (fg : FinishedGood).

Lemma produced_counts_units pkg (cases_produced : Z) fg :
  let '(s, bs, bi) := produced_counts pkg cases_produced fg in
  stock_units s bs bi = fg_units fg + 24 * cases_produced.
Proof.
  destruct pkg; cbn [produced_counts]; unfold fg_units, stock_units, UNITS_PER_CASE; lia.
Qed.

(** The shape of a run for a product that is found: the finished good and
    the history row are written whatever the depletion loops do. *)
Lemma record_production_found (product : string) pkg (cases_produced : Z)
    (batch : string) db (fg_id : Z) fg :
  first_named fg_name product (rows (finished_goods db)) = Some (fg_id, fg) ->
  exists fg',
    let '(s, bs, bi) := produced_counts pkg cases_produced fg in
    update_finished_good (finished_goods db) fg_id s bs bi (fg_abv fg) None
    = Some (<[fg_id := fg']> (finished_goods db),
            current_stock (derive_finished_good_metrics s bs bi (fg_abv fg)))
    /\ singles fg' = s /\ bottled_s fg' = bs /\ bottled_i fg' = bi
    /\ fg_consistent fg'
    /\ sold fg' = sold fg /\ samples fg' = samples fg
    /\ fg_name fg' = fg_name fg /\ fg_abv fg' = fg_abv fg
    /\ let inv_res :=
         deplete_inventory cases_produced
           (production_recipes_for fg_id pkg (production_recipes db))
           (inventory_tracking db) in
       let raw_res :=
         deplete_raw_materials fg_id cases_produced (recipes db) (raw_materials db) in
       record_production product pkg cases_produced batch db =
         ({| finished_goods := <[fg_id := fg']> (finished_goods db);
             production_history :=
               production_history db ++
                 [production_history_entry fg_id product pkg cases_produced batch fg];
             production_recipes := production_recipes db;
             inventory_tracking := inv_res.1.1;
             recipes := recipes db;
             raw_materials :=
               match inv_res.2 with
               | Some _ => raw_materials db
               | None => raw_res.1
               end |},
          match inv_res.2 with
          | Some e => InventoryDepletionFailed e
          | None =>
              match raw_res.2 with
              | Some e => RawMaterialDepletionFailed e
              | None => Recorded
              end
          end).
Proof.
  intros Hfind.
  pose proof (first_named_rows_Some _ _ _ _ _ Hfind) as [Hfg _].
  unfold record_production. rewrite Hfind.
  destruct (produced_counts pkg cases_produced fg) as [[s bs] bi].
  destruct (update_finished_good_found _ _ _ s bs bi None Hfg)
    as (fg' & Hupd & Hcons & Hs & Hbs & Hbi & Hsold & Hname & Habv & _ & Hsamples & _).
  exists fg'. rewrite Hupd.
  split; [reflexivity|].
  repeat (split; [assumption|]).
  unfold record_production_inventory. cbv zeta.
  destruct (deplete_inventory _ _ _) as [[inv' upds] [e|]]; cbn [fst snd].
  - reflexivity.
  - destruct (deplete_raw_materials _ _ _ _) as [raw' [e'|]]; reflexivity.
Qed.

(** Whatever the packaging, a run for a product that is found adds 24
    units a case to the first finished good with the product name, in the
    column of that packaging; its derived columns are recomputed, so with
    stock and cases not negative [current_stock] grows by the cases
    produced.  The other finished goods are left as they are.  This is
    written before the depletion loops and stays written when one of them
    raises; the run ends as recorded when every recipe row of the product
    and packaging names a stored item, every older recipe row a stored raw
    material, and the depletions are finite. *)
Theorem record_production_adds_cases (product : string) pkg (cases_produced : Z)
    (batch : string) db (fg_id : Z) fg :
  first_named fg_name product (rows (finished_goods db)) = Some (fg_id, fg) ->
  let res := record_production product pkg cases_produced batch db in
  (exists fg',
     finished_goods res.1 !! fg_id = Some fg'
     /\ fg_units fg' = fg_units fg + 24 * cases_produced
     /\ (singles fg', bottled_s fg', bottled_i fg')
        = produced_counts pkg cases_produced fg
     /\ fg_consistent fg'
     /\ (0 <= fg_units fg -> 0 <= cases_produced ->
         fg_current_stock fg' = fg_units fg / 24 + cases_produced)
     /\ sold fg' = sold fg /\ samples fg' = samples fg
     /\ fg_name fg' = fg_name fg /\ fg_abv fg' = fg_abv fg
     /\ forall id, id <> fg_id ->
                   finished_goods res.1 !! id = finished_goods db !! id)
  /\ (Forall (row_applies cases_produced (inventory_tracking db))
             (production_recipes_for fg_id pkg (production_recipes db)) ->
      Forall (legacy_row_applies cases_produced (raw_materials db))
             (filter (fun r => lr_finished_good_id r = fg_id) (recipes db)) ->
      res.2 = Recorded).
Proof.
  intros Hfind res.
  destruct (record_production_found product pkg cases_produced batch db fg_id fg Hfind)
    as (fg' & H).
  pose proof (produced_counts_units pkg cases_produced fg) as Hunits.
  destruct (produced_counts pkg cases_produced fg) as [[s bs] bi].
  destruct H as (_ & Hs & Hbs & Hbi & Hcons & Hsold & Hsamples & Hname & Habv & Hres).
  cbv zeta in Hres. subst res. rewrite Hres. cbn [fst snd finished_goods].
  split.
  - exists fg'.
    split; [apply lookup_insert_eq|].
    assert (Hu' : fg_units fg' = fg_units fg + 24 * cases_produced)
      by (unfold fg_units at 1; now rewrite Hs, Hbs, Hbi).
    split; [exact Hu'|].
    split; [now rewrite Hs, Hbs, Hbi|].
    split; [exact Hcons|].
    split.
    { intros H0 Hc. destruct Hcons as (-> & _).
      rewrite current_stock_units. fold (fg_units fg'). rewrite Hu'.
      rewrite Z.quot_div_nonneg by lia.
      rewrite Z.mul_comm, Z.div_add by lia. reflexivity. }
    repeat (split; [assumption|]).
    intros id Hne. now rewrite lookup_insert_ne.
  - intros Hinv Hraw.
    apply (deplete_loop_error _ _ _ []) in Hinv.
    apply deplete_raw_material_loop_error in Hraw.
    unfold deplete_inventory, deplete_raw_materials. now rewrite Hinv, Hraw.
Qed.

Lemma record_production_adds_cases_witness :
  (record_production "Typhoon (GLASS)" Shipping 2 "(No Batch)" production_example_db).2
  = Recorded.
Proof.
  apply (proj2 (record_production_adds_cases "Typhoon (GLASS)" Shipping 2 "(No Batch)"
                  production_example_db 1 typhoon_glass
                  ltac:(vm_compute; reflexivity))).
  - apply Forall_cons. split; [|constructor].
    split; [exists ledger_example_item; reflexivity|].
    exists 22. vm_compute. reflexivity.
  - apply Forall_cons. split; [|constructor].
    exists short_raw_material. split; [reflexivity|].
    exists 48. vm_compute. reflexivity.
Defined.

Lemma total_cases_add (s bs bi s' bs' bi' c : Z) :
  stock_units s' bs' bi' = stock_units s bs bi + 24 * c ->
  (calculate_total_cases_from_stock s' bs' bi'
   == calculate_total_cases_from_stock s bs bi + inject_Z c)%Q.
Proof.
  unfold calculate_total_cases_from_stock, stock_units, Py.true_div. intros ->.
  rewrite inject_Z_plus, inject_Z_mult. unfold UNITS_PER_CASE. field.
Qed.

(** The proof gallons a production adds to the history. *)
Lemma history_proof_gallons (fg_id : Z) (product : string) pkg (c : Z)
    (batch : string) fg :
  let e := production_history_entry fg_id product pkg c batch fg in
  ((0 < fg_abv fg)%Q ->
   (ph_proof_gallons_produced e == inject_Z c * 1.27 * (fg_abv fg * 2) / 100)%Q)
  /\ ((fg_abv fg <= 0)%Q ->
      ph_proof_gallons_produced e = 0.0%Q /\ ph_excise_tax_incurred e = 0.0%Q)
  /\ (0 < c -> (ph_excise_tax_incurred e == 13.50 * ph_proof_gallons_produced e)%Q).
Proof.
  cbv zeta. unfold production_history_entry.
  cbn [ph_proof_gallons_produced ph_excise_tax_incurred].
  destruct (Py.gtb (fg_abv fg) 0) eqn:Habv.
  - apply Py_gtb_lt in Habv.
    split; [intros _; unfold calculate_proof_gallons, GALLONS_PER_CASE; field|].
    split; [intros Hle; lra|]. intros Hc.
    assert (Hpos : (0 < calculate_proof_gallons (inject_Z c * GALLONS_PER_CASE)
                           (fg_abv fg * 2))%Q).
    { unfold calculate_proof_gallons, GALLONS_PER_CASE.
      apply Qmult_lt_0_compat.
      - apply Qmult_lt_0_compat; [|reflexivity].
        rewrite <- (Zlt_Qlt 0). exact Hc.
      - apply Qmult_lt_0_compat; [lra|reflexivity]. }
    rewrite (proj2 (Py_gtb_lt _ _) Hpos).
    unfold calculate_excise_tax, calculate_excise_tax_at. ring.
  - apply Py_gtb_le in Habv.
    split; [intros Hlt; lra|].
    split; [intros _; split; reflexivity|]. intros _. reflexivity.
Qed.

Lemma metrics_add_cases (s bs bi s' bs' bi' c : Z) (abv : Q) :
  stock_units s' bs' bi' = stock_units s bs bi + 24 * c ->
  let m := derive_finished_good_metrics s bs bi abv in
  let m' := derive_finished_good_metrics s' bs' bi' abv in
  (proof_gallons m' ==
   proof_gallons m
   + (if Py.gtb abv 0
      then calculate_proof_gallons (inject_Z c * GALLONS_PER_CASE) (abv * 2)
      else 0.0))%Q.
Proof.
  intros Hu. cbv zeta. unfold derive_finished_good_metrics.
  pose proof (total_cases_add _ _ _ _ _ _ _ Hu) as Htc.
  destruct (Py.gtb abv 0); cbn [proof_gallons]; [|reflexivity].
  unfold calculate_proof_gallons. rewrite Htc. ring.
Qed.

(** The history row of a recorded run of at least one case carries 24
    units a case, and its proof gallons and tax are exactly what the run
    adds to the proof gallons and tax due of the finished good; both are
    [0.0] for a good without alcohol. *)
Theorem record_production_accrual (product : string) pkg (cases_produced : Z)
    (batch : string) db (fg_id : Z) fg :
  first_named fg_name product (rows (finished_goods db)) = Some (fg_id, fg) ->
  0 < cases_produced ->
  let res := record_production product pkg cases_produced batch db in
  let old := derive_finished_good_metrics (singles fg) (bottled_s fg) (bottled_i fg)
               (fg_abv fg) in
  exists fg' e,
    finished_goods res.1 !! fg_id = Some fg'
    /\ production_history res.1 = production_history db ++ [e]
    /\ ph_finished_good_id e = fg_id
    /\ ph_cases_produced e = cases_produced
    /\ ph_units_produced e = cases_produced * 24
    /\ (fg_proof_gallons fg' == proof_gallons old + ph_proof_gallons_produced e)%Q
    /\ (fg_excise_tax_due fg' == excise_tax_due old + ph_excise_tax_incurred e)%Q
    /\ ((fg_abv fg <= 0)%Q ->
        ph_proof_gallons_produced e = 0.0%Q /\ ph_excise_tax_incurred e = 0.0%Q).
Proof.
  intros Hfind Hc res old.
  destruct (record_production_found product pkg cases_produced batch db fg_id fg Hfind)
    as (fg' & H).
  pose proof (produced_counts_units pkg cases_produced fg) as Hunits.
  destruct (produced_counts pkg cases_produced fg) as [[s bs] bi].
  destruct H as (_ & Hs & Hbs & Hbi & Hcons & _ & _ & _ & Habv & Hres).
  cbv zeta in Hres. subst res. rewrite Hres.
  cbn [fst snd finished_goods production_history].
  set (e := production_history_entry fg_id product pkg cases_produced batch fg).
  exists fg', e.
  split; [apply lookup_insert_eq|]. split; [reflexivity|].
  split; [reflexivity|]. split; [reflexivity|]. split; [reflexivity|].
  destruct (history_proof_gallons fg_id product pkg cases_produced batch fg)
    as (Hpos & Hzero & Htax).
  fold e in Hpos, Hzero, Htax.
  destruct Hcons as (_ & Hpg & Hex).
  rewrite Hs, Hbs, Hbi, Habv in Hpg, Hex.
  pose proof (metrics_add_cases (singles fg) (bottled_s fg) (bottled_i fg)
                s bs bi cases_produced (fg_abv fg) Hunits) as Hadd.
  cbv zeta in Hadd.
  assert (Hpg' : (fg_proof_gallons fg' == proof_gallons old + ph_proof_gallons_produced e)%Q).
  { rewrite Hpg, Hadd. subst old e. unfold production_history_entry.
    cbn [ph_proof_gallons_produced]. reflexivity. }
  split; [exact Hpg'|]. split; [|exact Hzero].
  rewrite Hex, (Htax Hc).
  assert (Hexm : forall a b c d,
             (excise_tax_due (derive_finished_good_metrics a b c d)
              == 13.50 * proof_gallons (derive_finished_good_metrics a b c d))%Q).
  { intros a b c d. unfold derive_finished_good_metrics.
    destruct (Py.gtb d 0); cbn [excise_tax_due proof_gallons]; [|reflexivity].
    unfold calculate_excise_tax, calculate_excise_tax_at. ring. }
  subst old. rewrite !Hexm, <- Hpg, Hpg'. ring.
Qed.

Lemma record_production_accrual_witness :
  exists e,
    production_history
      (record_production "Typhoon (GLASS)" Shipping 2 "(No Batch)"
         production_example_db).1 = [e]
    /\ ph_units_produced e = 48.
Proof.
  destruct (record_production_accrual "Typhoon (GLASS)" Shipping 2 "(No Batch)"
              production_example_db 1 typhoon_glass)
    as (fg' & e & _ & Hh & _ & _ & Hu & _).
  - vm_compute. reflexivity.
  - lia.
  - exists e. split; [exact Hh|exact Hu].
Defined.

(** A product name no finished good carries: the error is shown and no
    table is written.  A name a finished good carries is found and never
    answered with that error: the run ends as recorded exactly when every
    recipe row of the product and packaging names a stored inventory item,
    every older recipe row a stored raw material, and the depletions are
    finite.  Otherwise a depletion loop raises: the history row is written
    all the same, and when it is the inventory loop that raises, no raw
    material is written.  On the example store without its ledger item the
    run ends with [NotFoundError]. *)
Theorem record_production_not_found (product : string) pkg (cases_produced : Z)
    (batch : string) db :
  let res := record_production product pkg cases_produced batch db in
  ((forall id fg, finished_goods db !! id = Some fg -> fg_name fg <> product) ->
   res = (db, ProductNotFound))
  /\ ((exists id fg, finished_goods db !! id = Some fg /\ fg_name fg = product) ->
      exists fg_id fg,
        first_named fg_name product (rows (finished_goods db)) = Some (fg_id, fg))
  /\ (forall fg_id fg,
        first_named fg_name product (rows (finished_goods db)) = Some (fg_id, fg) ->
        (res.2 = Recorded <->
         Forall (row_applies cases_produced (inventory_tracking db))
                (production_recipes_for fg_id pkg (production_recipes db))
         /\ Forall (legacy_row_applies cases_produced (raw_materials db))
                   (filter (fun r => lr_finished_good_id r = fg_id) (recipes db)))
        /\ res.2 <> ProductNotFound /\ res.2 <> UpdateFailed
        /\ length (production_history res.1) = S (length (production_history db))
        /\ (forall e, res.2 = InventoryDepletionFailed e ->
                      raw_materials res.1 = raw_materials db))
  /\ (record_production "Typhoon (GLASS)" Shipping 2 "(No Batch)"
        dangling_production_db).2 = InventoryDepletionFailed NotFoundError.
Proof.
  cbv zeta. split; [|split; [|split]].
  - intros Hall. unfold record_production.
    destruct (first_named fg_name product (rows (finished_goods db)))
      as [[fg_id fg]|] eqn:Hfind; [|reflexivity].
    apply first_named_rows_Some in Hfind as [Hfg Hname].
    now destruct (Hall fg_id fg Hfg).
  - intros (id & fg & Hfg & Hname).
    destruct (first_named fg_name product (rows (finished_goods db)))
      as [[fg_id fg0]|] eqn:Hfind; [eauto|].
    rewrite first_named_rows_None in Hfind. now destruct (Hfind id fg Hfg).
  - intros fg_id fg Hfind.
    destruct (record_production_found product pkg cases_produced batch db fg_id fg Hfind)
      as (fg' & H).
    destruct (produced_counts pkg cases_produced fg) as [[s bs] bi].
    destruct H as (_ & _ & _ & _ & _ & _ & _ & _ & _ & Hres).
    cbv zeta in Hres. rewrite Hres. cbn [fst snd production_history raw_materials].
    rewrite <- (deplete_loop_error cases_produced _ (inventory_tracking db) []).
    rewrite <- (deplete_raw_material_loop_error cases_produced _ (raw_materials db)).
    unfold deplete_inventory, deplete_raw_materials.
    destruct (deplete_loop _ _ _).2 as [e|];
      [|destruct (deplete_raw_material_loop _ _ _).2 as [e'|]].
    + split; [split; [discriminate|intros [H _]; discriminate]|].
      split; [discriminate|]. split; [discriminate|].
      split; [rewrite length_app; cbn; lia|]. reflexivity.
    + split; [split; [discriminate|intros [_ H]; discriminate]|].
      split; [discriminate|]. split; [discriminate|].
      split; [rewrite length_app; cbn; lia|]. discriminate.
    + split; [split; [intros _; split; reflexivity|reflexivity]|].
      split; [discriminate|]. split; [discriminate|].
      split; [rewrite length_app; cbn; lia|]. discriminate.
  - vm_compute. reflexivity.
Qed.

Lemma record_production_not_found_witness :
  exists fg_id fg,
    first_named fg_name "Typhoon (GLASS)" (rows (finished_goods production_example_db))
    = Some (fg_id, fg).
Proof.
  apply (proj1 (proj2 (record_production_not_found "Typhoon (GLASS)" InStore 1
                         "(No Batch)" production_example_db))).
  exists 1, typhoon_glass. split; reflexivity.
Defined.

End RecordProduction.

(** ** Shipping an order *)

Section Shipping.

Implicit Types (table : gmap Z FinishedGood) (fg : FinishedGood).

Lemma ship_order_item_found table (product : string) (q fg_id : Z) fg :
  first_named fg_name product (rows table) = Some (fg_id, fg) ->
  exists fg',
    ship_order_item table (product, q) = Some (<[fg_id := fg']> table)
    /\ (singles fg', bottled_s fg', bottled_i fg', sold fg') = shipped_counts fg q
    /\ fg_consistent fg'
    /\ fg_name fg' = fg_name fg /\ fg_abv fg' = fg_abv fg.
Proof.
  intros Hfind.
  pose proof (first_named_rows_Some _ _ _ _ _ Hfind) as [Hfg _].
  unfold ship_order_item. cbn [fst snd]. rewrite Hfind.
  destruct (shipped_counts fg q) as [[[s bs] bi] new_sold].
  destruct (update_finished_good_found _ _ _ s bs bi (Some new_sold) Hfg)
    as (fg' & Hupd & Hcons & Hs & Hbs & Hbi & Hsold & Hname & Habv & _).
  exists fg'. rewrite Hupd. cbn in Hsold.
  split; [reflexivity|]. split; [congruence|]. auto.
Qed.

(** Shipping [q] cases of a product with non-negative counts takes them
    from the shipping boxes first, then from the in-store boxes, then one
    single a case from the singles; no count goes below 0, what is taken is
    the smaller of [q] and what there is, and [sold] grows by the whole [q]
    even when less could be taken.  The derived columns are recomputed. *)
Theorem ship_order_item_takes_in_order table (product : string) (q fg_id : Z) fg :
  first_named fg_name product (rows table) = Some (fg_id, fg) ->
  0 <= singles fg -> 0 <= bottled_s fg -> 0 <= bottled_i fg -> 0 <= q ->
  exists fg',
    ship_order_item table (product, q) = Some (<[fg_id := fg']> table)
    /\ fg_consistent fg'
    /\ 0 <= singles fg' /\ 0 <= bottled_s fg' /\ 0 <= bottled_i fg'
    /\ (bottled_s fg - bottled_s fg') + (bottled_i fg - bottled_i fg')
       + (singles fg - singles fg')
       = Z.min q (bottled_s fg + bottled_i fg + singles fg)
    /\ sold fg' = sold fg + q
    /\ bottled_s fg' = Z.max 0 (bottled_s fg - q)
    /\ (0 < bottled_s fg' -> bottled_i fg' = bottled_i fg)
    /\ (0 < bottled_i fg' -> singles fg' = singles fg).
Proof.
  intros Hfind Hs Hbs Hbi Hq.
  destruct (ship_order_item_found table product q fg_id fg Hfind)
    as (fg' & Hship & Hcounts & Hcons & _).
  exists fg'. split; [exact Hship|]. split; [exact Hcons|].
  unfold shipped_counts in Hcounts. cbv zeta in Hcounts.
  injection Hcounts as -> -> -> ->. lia.
Qed.

Lemma ship_order_item_takes_in_order_witness :
  exists fg',
    ship_order_item {[ 1 := typhoon_glass ]} ("Typhoon (GLASS)", 10)
    = Some (<[1 := fg']> {[ 1 := typhoon_glass ]})
    /\ bottled_s fg' = 0 /\ sold fg' = 10.
Proof.
  destruct (ship_order_item_takes_in_order {[ 1 := typhoon_glass ]}
              "Typhoon (GLASS)" 10 1 typhoon_glass)
    as (fg' & Hship & _ & _ & _ & _ & _ & Hsold & Hs & _).
  - vm_compute. reflexivity.
  - vm_compute. discriminate.
  - vm_compute. discriminate.
  - vm_compute. discriminate.
  - lia.
  - exists fg'. split; [exact Hship|]. split; [exact Hs|exact Hsold].
Defined.

Lemma ship_order_items_total (items : list (string * Z)) :
  forall table, is_Some (ship_order_items items table).
Proof.
  induction items as [|[product q] items IH]; intros table; [cbn; eauto|].
  cbn [ship_order_items].
  destruct (first_named fg_name product (rows table)) as [[fg_id fg]|] eqn:Hfind.
  - destruct (ship_order_item_found table product q fg_id fg Hfind) as (fg' & -> & _).
    apply IH.
  - unfold ship_order_item. cbn [fst snd]. rewrite Hfind. apply IH.
Qed.

Lemma ship_order_items_unknown (items : list (string * Z)) table :
  (forall item id fg, item ∈ items -> table !! id = Some fg -> fg_name fg <> item.1) ->
  ship_order_items items table = Some table.
Proof.
  induction items as [|item items IH]; intros Hall; [reflexivity|].
  cbn [ship_order_items]. unfold ship_order_item.
  assert (Hnone : first_named fg_name item.1 (rows table) = None).
  { apply first_named_rows_None. intros id fg Hfg.
    apply (Hall item id fg); [apply list_elem_of_here|exact Hfg]. }
  rewrite Hnone. apply IH. intros item' id fg Hin.
  apply Hall. now apply list_elem_of_further.
Qed.

(** The stock moves only when an order enters the status [Shipped]: any
    other change of status, a second save of [Shipped] included, leaves the
    finished goods as they are.  Entering [Shipped] never fails, and items
    whose product is not in the table change nothing. *)
Theorem update_order_status_ships_once (old_status new_status : OrderStatus)
    (items : list (string * Z)) table :
  (old_status = Shipped \/ new_status <> Shipped ->
   update_order_status old_status new_status items table = Some table)
  /\ (old_status <> Shipped ->
      update_order_status old_status Shipped items table
      = ship_order_items items table)
  /\ is_Some (update_order_status old_status new_status items table)
  /\ ((forall item id fg,
         item ∈ items -> table !! id = Some fg -> fg_name fg <> item.1) ->
      update_order_status old_status new_status items table = Some table).
Proof.
  unfold update_order_status.
  split; [|split; [|split]].
  - intros [-> | Hne].
    + rewrite bool_decide_eq_false_2 by (intros H; now apply H). reflexivity.
    + rewrite (bool_decide_eq_false_2 (new_status = Shipped)) by exact Hne.
      now rewrite andb_false_r.
  - intros Hne. now rewrite !bool_decide_eq_true_2.
  - destruct (_ && _); [apply ship_order_items_total|eauto].
  - intros Hall. destruct (_ && _); [|reflexivity].
    now apply ship_order_items_unknown.
Qed.

Lemma update_order_status_ships_once_witness :
  update_order_status Shipped Shipped [("Typhoon (GLASS)", 10)] {[ 1 := typhoon_glass ]}
  = Some {[ 1 := typhoon_glass ]}.
Proof.
  apply (proj1 (update_order_status_ships_once Shipped Shipped
                  [("Typhoon (GLASS)", 10)] {[ 1 := typhoon_glass ]})).
  left. reflexivity.
Defined.

End Shipping.

(** ** Physical counts *)

Section Counts.

Lemma NoDup_rows_keys {A : Type} (table : gmap Z A) : NoDup (rows table).*1.
Proof.
  unfold rows. rewrite merge_sort_Permutation. apply NoDup_fst_map_to_list.
Qed.

Lemma true_div_nonneg_bound (v s : Z) :
  0 < s -> - s <= v -> (- (100) <= Py.true_div v s * 100)%Q.
Proof.
  intros Hs Hv. unfold Py.true_div.
  assert (Hs' : (0 < inject_Z s)%Q) by (rewrite <- (Zlt_Qlt 0); exact Hs).
  assert (Hv' : (- inject_Z s <= inject_Z v)%Q)
    by (rewrite <- inject_Z_opp, <- Zle_Qle; exact Hv).
  assert (H : (- (1) <= inject_Z v / inject_Z s)%Q).
  { apply Qle_shift_div_l; [exact Hs'|]. lra. }
  lra.
Qed.

(** The variance of a count.  For a finished good the units are singles
    plus 24 a bottled case and the variance in cases is the variance in
    units over 24.  The percentage is the variance over the system units
    times 100 when the system units are positive, and 0 otherwise whatever
    was counted; a count that is not negative never gives less than
    -100%. *)
Theorem count_variance_policy :
  (forall (fg_id : Z) (fg : FinishedGood) (a_s a_bs a_bi : Z),
     let c := count_finished_good fg_id fg (a_s, a_bs, a_bi) in
     let system := fg_units fg in
     fc_variance_units c = stock_units a_s a_bs a_bi - system
     /\ (fc_variance_cases c * 24 == inject_Z (fc_variance_units c))%Q
     /\ (system <= 0 -> fc_variance_percentage c = 0%Q)
     /\ (0 < system ->
         (fc_variance_percentage c
          == inject_Z (fc_variance_units c) / inject_Z system * 100)%Q
         /\ (0 <= stock_units a_s a_bs a_bi ->
             (- (100) <= fc_variance_percentage c)%Q)))
  /\ (forall (item_id : Z) (item : InventoryItem) (actual : Z),
        let c := count_inventory_item item_id item actual in
        ic_variance_units c = actual - units_remaining item
        /\ (units_remaining item <= 0 -> ic_variance_percentage c = 0%Q)
        /\ (0 < units_remaining item ->
            (ic_variance_percentage c
             == inject_Z (ic_variance_units c) / inject_Z (units_remaining item) * 100)%Q
            /\ (0 <= actual -> (- (100) <= ic_variance_percentage c)%Q))).
Proof.
  split.
  - intros fg_id fg a_s a_bs a_bi c system. subst c.
    unfold count_finished_good. cbv zeta.
    cbn [fc_variance_units fc_variance_cases fc_variance_percentage].
    fold (fg_units fg). fold system.
    split; [reflexivity|]. split.
    { unfold Py.true_div, UNITS_PER_CASE. field. }
    split.
    + intros Hle. destruct (Z.gtb_spec system 0); [lia|reflexivity].
    + intros Hpos. destruct (Z.gtb_spec system 0); [|lia].
      split; [reflexivity|]. intros Ha.
      apply true_div_nonneg_bound; lia.
  - intros item_id item actual c. subst c.
    unfold count_inventory_item. cbv zeta.
    cbn [ic_variance_units ic_variance_percentage].
    split; [reflexivity|]. split.
    + intros Hle. destruct (Z.gtb_spec (units_remaining item) 0); [lia|reflexivity].
    + intros Hpos. destruct (Z.gtb_spec (units_remaining item) 0); [|lia].
      split; [reflexivity|]. intros Ha.
      apply true_div_nonneg_bound; lia.
Qed.

Lemma count_variance_policy_witness :
  (ic_variance_percentage (count_inventory_item 1 ledger_example_item 72)
   == inject_Z (72 - 90) / inject_Z 90 * 100)%Q.
Proof.
  apply (proj2 count_variance_policy 1 ledger_example_item 72). reflexivity.
Defined.

(** The adjustment of one item. *)
Lemma adjust_inventory_item_ok (item : InventoryItem) (actual : Z) :
  let it' := adjust_inventory_item item actual in
  units_remaining it' = actual
  /\ ledger_invariant it'
  /\ trunc_cases_invariant it'
  /\ started it' = started item /\ depleted it' = depleted item
  /\ units_per_case it' = units_per_case item /\ item_name it' = item_name item.
Proof.
  cbv zeta. unfold adjust_inventory_item, ledger_invariant, trunc_cases_invariant.
  cbn. rewrite cases_of_units_quot. repeat split. lia.
Qed.

Lemma save_inv_counts_spec (adjust_inv : bool) (actual : Z -> Z)
    (rs : list (Z * InventoryItem)) :
  forall (log : list InvCount) (tbl : gmap Z InventoryItem),
    NoDup rs.*1 ->
    (forall id item, (id, item) ∈ rs -> tbl !! id = Some item) ->
    exists log' tbl',
      save_inv_counts adjust_inv
        (map (fun r => count_inventory_item r.1 r.2 (actual r.1)) rs) (log, tbl)
      = Some (log', tbl')
      /\ log' = log ++ map (fun r => count_inventory_item r.1 r.2 (actual r.1)) rs
      /\ (forall id item, (id, item) ∈ rs ->
                          tbl' !! id = Some (counted_item adjust_inv actual id item))
      /\ (forall id, id ∉ rs.*1 -> tbl' !! id = tbl !! id).
Proof.
  induction rs as [|[id0 item0] rs IH]; intros log tbl Hnd Hall.
  - exists log, tbl. cbn. rewrite app_nil_r. repeat split; auto.
    intros id item Hin. inversion Hin.
  - cbn [map fmap list_fmap] in Hnd. apply NoDup_cons in Hnd as [Hnotin Hnd].
    assert (H0 : tbl !! id0 = Some item0) by (apply Hall; apply list_elem_of_here).
    cbn [map save_inv_counts fst snd].
    set (c0 := count_inventory_item id0 item0 (actual id0)).
    set (tbl1 := if adjust_inv && negb (ic_variance_units c0 =? 0)
                 then <[id0 := adjust_inventory_item item0 (actual id0)]> tbl
                 else tbl).
    assert (Hstep : save_inv_count adjust_inv (log, tbl) c0 = Some (log ++ [c0], tbl1)).
    { unfold save_inv_count, tbl1.
      destruct (adjust_inv && negb (ic_variance_units c0 =? 0)); [|reflexivity].
      cbn [ic_item_id ic_actual_units c0 count_inventory_item]. now rewrite H0. }
    rewrite Hstep.
    assert (H1 : tbl1 !! id0 = Some (counted_item adjust_inv actual id0 item0)).
    { unfold tbl1, counted_item. cbn [ic_variance_units c0 count_inventory_item].
      destruct (adjust_inv && _); [apply lookup_insert_eq|exact H0]. }
    assert (Hother : forall id, id <> id0 -> tbl1 !! id = tbl !! id).
    { intros id Hne. unfold tbl1.
      destruct (adjust_inv && _); [now rewrite lookup_insert_ne|reflexivity]. }
    destruct (IH (log ++ [c0]) tbl1 Hnd) as (log' & tbl' & Hsave & Hlog & Hin' & Hout).
    { intros id item Hin. rewrite Hother; [apply Hall; now apply list_elem_of_further|].
      intros ->. apply Hnotin. apply list_elem_of_fmap. exists (id0, item). auto. }
    exists log', tbl'. split; [exact Hsave|].
    split; [rewrite Hlog, <- app_assoc; reflexivity|]. split.
    + intros id item Hin. apply elem_of_cons in Hin as [[= -> ->]|Hin].
      * rewrite Hout by exact Hnotin. exact H1.
      * now apply Hin'.
    + intros id Hid. rewrite fmap_cons, not_elem_of_cons in Hid.
      cbn [fst] in Hid. destruct Hid as [Hne Hid].
      rewrite Hout by exact Hid. now apply Hother.
Qed.

(** Saving an inventory count never fails and logs one count an item.
    Without the adjustment the ledger is untouched.  With it every item
    whose count differs gets [added] solved so that its units are the
    count, keeping [started] and [depleted]; an item whose count matches is
    not written.  Every item then has the counted units and satisfies the
    ledger formula if it did, so a second count of the same numbers finds
    no variance. *)
Theorem save_inventory_count_adjusts (adjust_inv : bool) (actual : Z -> Z)
    (log : list InvCount) (inv : gmap Z InventoryItem) :
  exists log' inv',
    save_inventory_count adjust_inv actual log inv = Some (log', inv')
    /\ length log' = (length log + base.size inv)%nat
    /\ (forall id, inv' !! id = counted_item adjust_inv actual id <$> inv !! id)
    /\ (adjust_inv = false -> inv' = inv)
    /\ (adjust_inv = true ->
        forall id item', inv' !! id = Some item' ->
          units_remaining item' = actual id
          /\ ic_variance_units (count_inventory_item id item' (actual id)) = 0
          /\ exists item, inv !! id = Some item
               /\ started item' = started item /\ depleted item' = depleted item
               /\ (ledger_invariant item -> ledger_invariant item')).
Proof.
  unfold save_inventory_count. cbv zeta.
  destruct (save_inv_counts_spec adjust_inv actual (rows inv) log inv
              (NoDup_rows_keys inv))
    as (log' & inv' & Hsave & Hlog & Hin & Hout).
  { intros id item. apply elem_of_rows. }
  exists log', inv'. split; [exact Hsave|].
  assert (Hlookup : forall id, inv' !! id = counted_item adjust_inv actual id <$> inv !! id).
  { intros id. destruct (inv !! id) as [item|] eqn:Hid.
    - cbn. apply Hin. now apply elem_of_rows.
    - cbn. rewrite Hout; [exact Hid|]. intros Hmem.
      apply list_elem_of_fmap in Hmem as ([id' item] & -> & Hmem).
      apply elem_of_rows in Hmem. cbn in Hid. congruence. }
  split.
  { rewrite Hlog, length_app, length_map. f_equal.
    unfold rows. rewrite merge_sort_Permutation. apply length_map_to_list. }
  split; [exact Hlookup|]. split.
  - intros ->. apply map_eq. intros id. rewrite Hlookup.
    destruct (inv !! id); reflexivity.
  - intros -> id item' Hid. rewrite Hlookup in Hid.
    destruct (inv !! id) as [item|] eqn:Hitem; [|discriminate].
    cbn in Hid. injection Hid as <-. unfold counted_item. cbn [andb].
    destruct (Z.eqb_spec (actual id - units_remaining item) 0) as [Heq|Hne]; cbn [negb].
    + split; [lia|]. split; [cbn; lia|]. exists item. auto.
    + destruct (adjust_inventory_item_ok item (actual id))
        as (Hu & Hinv & _ & Hs & Hd & _).
      split; [exact Hu|]. split; [cbn; lia|]. exists item. auto.
Qed.

Lemma save_inventory_count_adjusts_witness :
  exists log' inv',
    save_inventory_count true (fun _ => 72) [] {[ 1 := ledger_example_item ]}
    = Some (log', inv')
    /\ forall id item', inv' !! id = Some item' -> units_remaining item' = 72.
Proof.
  destruct (save_inventory_count_adjusts true (fun _ => 72) []
              {[ 1 := ledger_example_item ]})
    as (log' & inv' & Hsave & _ & _ & _ & Hadj).
  exists log', inv'. split; [exact Hsave|].
  intros id item' Hid. apply (Hadj eq_refl id item' Hid).
Defined.

End Counts.

Section FgCounts.

Implicit Types (tbl : gmap Z FinishedGood) (fg : FinishedGood).

Lemma save_fg_count_adjust (log : list FgCount) tbl (id : Z) fg (actual : Z * Z * Z) :
  tbl !! id = Some fg ->
  exists fg',
    save_fg_count true (log, tbl) (count_finished_good id fg actual)
    = Some (log ++ [count_finished_good id fg actual], <[id := fg']> tbl)
    /\ fg_counted actual fg fg'.
Proof.
  intros Hfg. destruct actual as [[a_s a_bs] a_bi].
  unfold save_fg_count.
  cbn [count_finished_good fc_fg_id actual_singles actual_bottled_s actual_bottled_i].
  rewrite Hfg.
  destruct (update_finished_good_found tbl id fg a_s a_bs a_bi None Hfg)
    as (fg' & -> & Hcons & Hs & Hbs & Hbi & Hsold & Hname & Habv & Hcs & Hsm & _).
  exists fg'. split; [reflexivity|].
  unfold fg_counted. cbn in Hsold. rewrite Hs, Hbs, Hbi. auto 10.
Qed.

Lemma save_fg_counts_spec (actual : Z -> Z * Z * Z) (rs : list (Z * FinishedGood)) :
  forall (log : list FgCount) tbl,
    NoDup rs.*1 ->
    (forall id fg, (id, fg) ∈ rs -> tbl !! id = Some fg) ->
    exists log' tbl',
      save_fg_counts true
        (map (fun r => count_finished_good r.1 r.2 (actual r.1)) rs) (log, tbl)
      = Some (log', tbl')
      /\ log' = log ++ map (fun r => count_finished_good r.1 r.2 (actual r.1)) rs
      /\ (forall id fg, (id, fg) ∈ rs ->
            exists fg', tbl' !! id = Some fg' /\ fg_counted (actual id) fg fg')
      /\ (forall id, id ∉ rs.*1 -> tbl' !! id = tbl !! id).
Proof.
  induction rs as [|[id0 fg0] rs IH]; intros log tbl Hnd Hall.
  - exists log, tbl. cbn. rewrite app_nil_r. repeat split; auto.
    intros id fg Hin. inversion Hin.
  - rewrite fmap_cons in Hnd. apply NoDup_cons in Hnd as [Hnotin Hnd].
    cbn [fst] in Hnotin.
    assert (H0 : tbl !! id0 = Some fg0) by (apply Hall; apply list_elem_of_here).
    cbn [map save_fg_counts fst snd].
    destruct (save_fg_count_adjust log tbl id0 fg0 (actual id0) H0)
      as (fg0' & -> & Hcounted).
    destruct (IH (log ++ [count_finished_good id0 fg0 (actual id0)])
                 (<[id0 := fg0']> tbl) Hnd)
      as (log' & tbl' & Hsave & Hlog & Hin' & Hout).
    { intros id fg Hin. rewrite lookup_insert_ne;
        [apply Hall; now apply list_elem_of_further|].
      intros ->. apply Hnotin. apply list_elem_of_fmap. exists (id, fg). auto. }
    exists log', tbl'. split; [exact Hsave|].
    split; [rewrite Hlog, <- app_assoc; reflexivity|]. split.
    + intros id fg Hin. apply elem_of_cons in Hin as [[= -> ->]|Hin].
      * exists fg0'. rewrite Hout by exact Hnotin.
        split; [apply lookup_insert_eq|exact Hcounted].
      * now apply Hin'.
    + intros id Hid. rewrite fmap_cons, not_elem_of_cons in Hid.
      cbn [fst] in Hid. destruct Hid as [Hne Hid].
      rewrite Hout by exact Hid. now rewrite lookup_insert_ne.
Qed.

Lemma save_fg_counts_no_adjust (counts : list FgCount) :
  forall (log : list FgCount) tbl,
    save_fg_counts false counts (log, tbl) = Some (log ++ counts, tbl).
Proof.
  induction counts as [|c counts IH]; intros log tbl.
  - cbn. now rewrite app_nil_r.
  - cbn [save_fg_counts save_fg_count]. rewrite IH, <- app_assoc. reflexivity.
Qed.

(** Saving a physical count of the finished goods never fails and logs one
    count a product.  Without the adjustment the table is untouched.  With
    it every product, also one whose count matches, is rewritten with the
    counted numbers and its derived columns recomputed, the other columns
    kept; a second count of the same numbers finds no variance. *)
Theorem save_physical_count_adjusts (adjust_inventory : bool)
    (actual : Z -> Z * Z * Z) (log : list FgCount) tbl :
  exists log' tbl',
    save_physical_count adjust_inventory actual log tbl = Some (log', tbl')
    /\ length log' = (length log + base.size tbl)%nat
    /\ (adjust_inventory = false -> tbl' = tbl)
    /\ (adjust_inventory = true ->
        (forall id fg, tbl !! id = Some fg ->
           exists fg',
             tbl' !! id = Some fg'
             /\ fg_counted (actual id) fg fg'
             /\ fc_variance_units (count_finished_good id fg' (actual id)) = 0)
        /\ (forall id, tbl !! id = None -> tbl' !! id = None)).
Proof.
  unfold save_physical_count. cbv zeta.
  assert (Hlen : length (rows tbl) = base.size tbl).
  { unfold rows. rewrite merge_sort_Permutation. apply length_map_to_list. }
  destruct adjust_inventory.
  - destruct (save_fg_counts_spec actual (rows tbl) log tbl (NoDup_rows_keys tbl))
      as (log' & tbl' & Hsave & Hlog & Hin & Hout).
    { intros id fg. apply elem_of_rows. }
    exists log', tbl'. split; [exact Hsave|].
    split; [now rewrite Hlog, length_app, length_map, Hlen|].
    split; [discriminate|]. intros _. split.
    + intros id fg Hfg.
      destruct (Hin id fg) as (fg' & Hfg' & Hc); [now apply elem_of_rows|].
      exists fg'. split; [exact Hfg'|]. split; [exact Hc|].
      destruct Hc as (Hcounts & _). destruct (actual id) as [[a_s a_bs] a_bi].
      injection Hcounts as Hs Hbs Hbi.
      cbn [count_finished_good fc_variance_units]. rewrite Hs, Hbs, Hbi. lia.
    + intros id Hnone. rewrite Hout; [exact Hnone|]. intros Hmem.
      apply list_elem_of_fmap in Hmem as ([id' fg] & -> & Hmem).
      apply elem_of_rows in Hmem. cbn in Hnone. congruence.
  - rewrite save_fg_counts_no_adjust. eexists _, _. split; [reflexivity|].
    split; [now rewrite length_app, length_map, Hlen|].
    split; [reflexivity|discriminate].
Qed.

Lemma save_physical_count_adjusts_witness :
  exists log' tbl',
    save_physical_count false (fun _ => (160, 6, 13)) [] {[ 1 := typhoon_glass ]}
    = Some (log', tbl')
    /\ tbl' = {[ 1 := typhoon_glass ]}.
Proof.
  destruct (save_physical_count_adjusts false (fun _ => (160, 6, 13)) []
              {[ 1 := typhoon_glass ]})
    as (log' & tbl' & Hsave & _ & Hkeep & _).
  exists log', tbl'. split; [exact Hsave|]. apply Hkeep. reflexivity.
Defined.

End FgCounts.

(** ** The blended ABV *)

Section BlendedAbv.

Local Open Scope Q_scope.

Implicit Types (spirits : gmap Z BulkSpirit) (recipes : list BatchRecipe).

Lemma total_alcohol_weight_terms spirits (w : Q) recipes :
  total_alcohol_weight spirits w recipes
  == w * Qsum (recipe_abv_terms spirits recipes) / 100.
Proof.
  unfold total_alcohol_weight.
  enough (forall acc,
             fold_left
               (fun total recipe =>
                  match recipe_spirit spirits recipe with
                  | Some (_, spirit) =>
                      total + w * (percentage recipe / 100.0) * (s_abv spirit / 100.0)
                  | None => total
                  end) recipes acc
             == acc + w * Qsum (recipe_abv_terms spirits recipes) / 100) as H
    by (rewrite H; ring).
  induction recipes as [|r recipes IH]; intros acc.
  - cbn. field.
  - cbn [fold_left]. rewrite IH.
    unfold recipe_abv_terms; cbn [omap list_omap].
    destruct (recipe_spirit spirits r) as [[id s]|]; [|reflexivity].
    rewrite Qsum_cons. field.
Qed.

Lemma abv_terms_bounds spirits (m : Q) recipes :
  recipe_rows_sound spirits m recipes ->
  0 <= Qsum (recipe_abv_terms spirits recipes)
  /\ Qsum (recipe_abv_terms spirits recipes)
     <= m * Qsum (recipe_spirit_percentages spirits recipes) / 100
  /\ 0 <= Qsum (recipe_spirit_percentages spirits recipes).
Proof.
  induction recipes as [|r recipes IH]; intros Hsound.
  - cbn. split; [discriminate|]. split; [|discriminate].
    unfold Qdiv. rewrite Qmult_0_r, Qmult_0_l. discriminate.
  - destruct IH as (IH0 & IHm & IHp).
    { intros r' id s Hin. apply Hsound. now apply list_elem_of_further. }
    unfold recipe_abv_terms, recipe_spirit_percentages in *.
    cbn [omap list_omap].
    destruct (recipe_spirit spirits r) as [[id s]|] eqn:Hr; [|auto].
    destruct (Hsound r id s (list_elem_of_here _ _) Hr) as (Hp & Ha0 & Ham).
    rewrite !Qsum_cons.
    assert (H1 : 0 <= percentage r * s_abv s) by (now apply Qmult_le_0_compat).
    assert (H2 : percentage r * s_abv s <= percentage r * m).
    { rewrite !(Qmult_comm (percentage r)).
      apply Qmult_le_compat_r; assumption. }
    fold (recipe_abv_terms spirits recipes) in *.
    fold (recipe_spirit_percentages spirits recipes) in *.
    set (t := Qsum (recipe_abv_terms spirits recipes)) in *.
    set (p := Qsum (recipe_spirit_percentages spirits recipes)) in *.
    clearbody t p.
    set (x := percentage r * s_abv s) in *. set (q := percentage r) in *.
    clearbody x q.
    split; [|split].
    + assert (0 <= x / 100) by (apply Qle_shift_div_l; [reflexivity|lra]). lra.
    + assert (x / 100 <= m * q / 100).
      { unfold Qdiv. apply Qmult_le_compat_r; [|discriminate].
        rewrite (Qmult_comm m q). exact H2. }
      assert (E : m * (q + p) / 100 == m * q / 100 + m * p / 100) by field.
      rewrite E. lra.
    + lra.
Qed.

Lemma batch_abv_terms spirits recipes (w : Q) :
  0 < w -> batch_abv spirits w recipes == Qsum (recipe_abv_terms spirits recipes).
Proof.
  intros Hw. unfold batch_abv. rewrite (proj2 (Py_gtb_lt w 0) Hw).
  rewrite total_alcohol_weight_terms.
  generalize (Qsum (recipe_abv_terms spirits recipes)). intros t. field. lra.
Qed.

Lemma batch_abv_bounds spirits recipes (w m : Q) :
  0 <= m ->
  recipe_rows_sound spirits m recipes ->
  Qsum (recipe_spirit_percentages spirits recipes) <= 100 ->
  0 <= batch_abv spirits w recipes /\ batch_abv spirits w recipes <= m.
Proof.
  intros Hm Hsound Hp.
  destruct (Qlt_le_dec 0 w) as [Hw|Hw].
  - rewrite (batch_abv_terms spirits recipes w Hw).
    destruct (abv_terms_bounds spirits m recipes Hsound) as (H0 & Hle & Hp0).
    split; [exact H0|].
    eapply Qle_trans; [exact Hle|].
    set (p := Qsum (recipe_spirit_percentages spirits recipes)) in *.
    apply Qle_shift_div_r; [reflexivity|].
    rewrite (Qmult_comm m 100). rewrite (Qmult_comm m p).
    apply Qmult_le_compat_r; assumption.
  - unfold batch_abv. rewrite (proj2 (Py_gtb_le w 0) Hw).
    split; [discriminate|]. eapply Qle_trans; [|exact Hm]. discriminate.
Qed.

(** The blended ABV does not depend on the weight produced: for any
    positive weight it is the sum over the spirit-backed rows of
    percentage x spirit ABV / 100.  When no percentage is negative, the
    spirits named have an ABV between 0 and [m], and the percentages of the
    spirit-backed rows total at most 100, it lies between 0 and [m]. *)
Theorem batch_abv_scale_free spirits recipes :
  (forall w : Q, 0 < w ->
     batch_abv spirits w recipes == Qsum (recipe_abv_terms spirits recipes))
  /\ (forall w w' : Q, 0 < w -> 0 < w' ->
        batch_abv spirits w recipes == batch_abv spirits w' recipes)
  /\ (forall w m : Q,
        0 <= m ->
        recipe_rows_sound spirits m recipes ->
        Qsum (recipe_spirit_percentages spirits recipes) <= 100 ->
        0 <= batch_abv spirits w recipes /\ batch_abv spirits w recipes <= m).
Proof.
  split; [apply batch_abv_terms|]. split.
  - intros w w' Hw Hw'.
    now rewrite (batch_abv_terms _ _ w Hw), (batch_abv_terms _ _ w' Hw').
  - intros w m. apply batch_abv_bounds.
Qed.

Lemma batch_abv_scale_free_witness :
  batch_abv blend_example_spirits 100 blend_example_recipes
  == batch_abv blend_example_spirits 250 blend_example_recipes.
Proof.
  apply (proj1 (proj2 (batch_abv_scale_free blend_example_spirits
                         blend_example_recipes)) 100 250); reflexivity.
Defined.

End BlendedAbv.

(** ** The depletion of the spirits *)

Section SpiritDepletion.

Local Open Scope Q_scope.

Implicit Types (spirits : gmap Z BulkSpirit) (recipes : list BatchRecipe).

Lemma recipe_spirit_truthy spirits (r : BatchRecipe) :
  recipe_spirit spirits r =
    match truthy_spirit_id r with
    | Some id => match spirits !! id with Some s => Some (id, s) | None => None end
    | None => None
    end.
Proof.
  unfold recipe_spirit, truthy_spirit_id.
  destruct (bulk_spirit_id r) as [id|]; [|reflexivity].
  destruct (id =? 0)%Z; reflexivity.
Qed.

Lemma gallons_from_weight_consistent (w abv g : Q) :
  calculate_gallons_from_weight w abv = Some g ->
  g * calculate_density_from_abv abv == w.
Proof.
  unfold calculate_gallons_from_weight.
  destruct (Qeq_bool w 0) eqn:Hw.
  - intros [= <-]. apply Qeq_bool_iff in Hw. rewrite Hw. ring.
  - cbv zeta. destruct (Qeq_bool (calculate_density_from_abv abv) 0) eqn:Hd;
      [discriminate|].
    intros [= <-]. apply Qeq_bool_false in Hd. field. exact Hd.
Qed.





End SpiritDepletion.

(** ** What a blend run writes *)

Section ProduceBatchMore.

Local Set Warnings "-clear-no-such-hyp".

Local Open Scope Q_scope.

Implicit Types (spirits : gmap Z BulkSpirit) (recipes : list BatchRecipe) (db : DB).

(** The parts of a recorded run. *)
Lemma produce_batch_Produced_inv (id : Z) (w : Q) db db' :
  produce_batch id w db = (db', Produced) ->
  let recipes := filter (fun r => batch_id r = id) (batch_recipes db) in
  let run_abv := batch_abv (bulk_spirits db) w recipes in
  exists selected_batch spirits' batch_gallons new_total_gallons,
    batches db !! id = Some selected_batch
    /\ recipes <> []
    /\ existsb (spirit_missing (bulk_spirits db)) recipes = false
    /\ calculate_gallons_from_weight w run_abv = Some batch_gallons
    /\ deplete_spirits w recipes (bulk_spirits db) = (spirits', true)
    /\ calculate_gallons_from_weight
         (calculate_weight_from_gallons (gallons selected_batch) (b_abv selected_batch)
          + w) run_abv = Some new_total_gallons
    /\ db' =
       {| bulk_spirits := spirits';
          batches :=
            <[id := {| b_name := b_name selected_batch;
                       gallons := new_total_gallons;
                       bottled_gallons := bottled_gallons selected_batch;
                       ending := new_total_gallons - bottled_gallons selected_batch;
                       b_abv := run_abv;
                       b_proof_gallons :=
                         calculate_proof_gallons new_total_gallons (run_abv * 2) |}]>
              (batches db);
          batch_recipes := batch_recipes db;
          batch_production_log :=
            batch_production_log db ++
              [ {| log_batch_id := id;
                   weight_produced_lbs := w;
                   gallons_produced := batch_gallons;
                   log_abv := run_abv;
                   log_proof_gallons :=
                     calculate_proof_gallons batch_gallons (run_abv * 2) |} ] |}.
Proof.
  intros H recipes run_abv. unfold produce_batch in H.
  destruct (batches db !! id) as [selected_batch|]; [|discriminate].
  fold recipes in H. destruct recipes as [|r0 rs] eqn:Hrecipes; [discriminate|].
  destruct (existsb _ _) eqn:Hmiss; [discriminate|].
  fold run_abv in H.
  destruct (calculate_gallons_from_weight w run_abv) as [batch_gallons|] eqn:Hg;
    [|discriminate].
  destruct (deplete_spirits _ _ _) as [spirits' [|]] eqn:Hdep; cbv beta iota in H;
    [|discriminate].
  destruct (calculate_gallons_from_weight
              (calculate_weight_from_gallons _ _ + w) run_abv)
    as [new_total_gallons|] eqn:Hg'; [|discriminate].
  injection H as <-.
  exists selected_batch, spirits', batch_gallons, new_total_gallons.
  repeat (split; [first [reflexivity|assumption|discriminate]|]). reflexivity.
Qed.

Lemma existsb_elem_of {A : Type} (f : A -> bool) (l : list A) :
  existsb f l = true <-> exists x, x ∈ l /\ f x = true.
Proof.
  rewrite existsb_exists. split; intros (x & Hin & Hf); exists x;
    (split; [now apply list_elem_of_In|exact Hf]).
Qed.

Lemma existsb_false_elem_of {A : Type} (f : A -> bool) (l : list A) :
  existsb f l = false <-> forall x, x ∈ l -> f x = false.
Proof.
  split.
  - intros H x Hin. destruct (f x) eqn:Hf; [|reflexivity].
    assert (existsb f l = true) by (apply existsb_elem_of; eauto). congruence.
  - intros H. destruct (existsb f l) eqn:E; [|reflexivity].
    apply existsb_elem_of in E as (x & Hin & Hf). rewrite (H x Hin) in Hf. discriminate.
Qed.




(** A recorded run leaves [ending = gallons - bottled_gallons] on the
    batch, with its bottled gallons and name kept; the new gallons are the
    weight of the old gallons, taken at the old ABV, plus the weight
    produced, converted at the ABV of the run, and the proof gallons are
    those of all the gallons.  The log row holds the volume of the weight
    produced and its proof gallons.  No other batch and no recipe row is
    written. *)
Theorem produce_batch_batch_record (id : Z) (w : Q) db db' :
  produce_batch id w db = (db', Produced) ->
  exists b b' e,
    batches db !! id = Some b
    /\ batches db' !! id = Some b'
    /\ batch_production_log db' = batch_production_log db ++ [e]
    /\ ending b' = gallons b' - bottled_gallons b'
    /\ bottled_gallons b' = bottled_gallons b /\ b_name b' = b_name b
    /\ gallons b' * calculate_density_from_abv (b_abv b')
       == calculate_weight_from_gallons (gallons b) (b_abv b) + w
    /\ b_proof_gallons b' == gallons b' * (b_abv b' * 2) / 100
    /\ gallons_produced e * calculate_density_from_abv (log_abv e) == w
    /\ log_proof_gallons e == gallons_produced e * (log_abv e * 2) / 100
    /\ (forall id', id' <> id -> batches db' !! id' = batches db !! id')
    /\ batch_recipes db' = batch_recipes db.
Proof.
  intros H.
  destruct (produce_batch_Produced_inv id w db db' H)
    as (sb & spirits' & bg & ntg & Hb & _ & _ & Hg & _ & Hg' & ->).
  cbn [batches batch_production_log batch_recipes].
  eexists sb, _, _. split; [exact Hb|].
  split; [apply lookup_insert_eq|]. split; [reflexivity|].
  cbn [ending gallons bottled_gallons b_name b_abv b_proof_gallons
       gallons_produced log_abv log_proof_gallons].
  split; [reflexivity|]. split; [reflexivity|]. split; [reflexivity|].
  split; [now apply gallons_from_weight_consistent|].
  split; [apply calculate_proof_gallons_formula|].
  split; [now apply gallons_from_weight_consistent|].
  split; [apply calculate_proof_gallons_formula|].
  split; [|reflexivity].
  intros id' Hne. now rewrite lookup_insert_ne.
Qed.

Lemma produce_batch_batch_record_witness :
  exists b',
    batches (produce_batch 1 100 two_run_db).1 !! 1%Z = Some b'
    /\ ending b' = gallons b' - bottled_gallons b'.
Proof.
  destruct (produce_batch_batch_record 1 100 two_run_db
              (produce_batch 1 100 two_run_db).1)
    as (b & b' & e & _ & Hb & _ & He & _).
  - vm_compute. reflexivity.
  - exists b'. split; [exact Hb|exact He].
Defined.

Lemma deplete_spirits_ok (w : Q) recipes :
  forall spirits,
    map_Forall (fun _ s => s_abv s <= 100) spirits ->
    exists spirits', deplete_spirits w recipes spirits = (spirits', true).
Proof.
  induction recipes as [|r recipes IH]; intros spirits Hall; [cbn; eauto|].
  cbn [deplete_spirits].
  destruct (recipe_spirit spirits r) as [[sid s]|] eqn:Hr; [|now apply IH].
  assert (Hs : spirits !! sid = Some s).
  { rewrite recipe_spirit_truthy in Hr.
    destruct (truthy_spirit_id r) as [k|]; [|discriminate].
    destruct (spirits !! k) eqn:Hk; [|discriminate]. now injection Hr as -> ->. }
  pose proof (Hall sid s Hs) as Habv. cbn beta in Habv. cbv zeta.
  destruct (calculate_gallons_from_weight _ (s_abv s)) as [g|] eqn:Hg.
  - apply IH. apply map_Forall_insert_2; [exact Habv|exact Hall].
  - apply gallons_from_weight_None in Hg as [_ Hsing].
    lra.
Qed.

(** A run is recorded whenever the batch exists and has a recipe whose rows
    name stored spirits only, provided the data are in their ranges: every
    spirit has an ABV of at most 100, the rows of the recipe are sound for
    the bound 100 and their spirit percentages total at most 100.  No
    division by a zero density can then occur, and whether the spirits
    suffice plays no part. *)
Theorem produce_batch_succeeds (id : Z) (w : Q) db (b : Batch) :
  let recipes := filter (fun r => batch_id r = id) (batch_recipes db) in
  batches db !! id = Some b ->
  recipes <> [] ->
  (forall r, r ∈ recipes -> spirit_missing (bulk_spirits db) r = false) ->
  map_Forall (fun _ s => s_abv s <= 100) (bulk_spirits db) ->
  recipe_rows_sound (bulk_spirits db) 100 recipes ->
  Qsum (recipe_spirit_percentages (bulk_spirits db) recipes) <= 100 ->
  (produce_batch id w db).2 = Produced.
Proof.
  intros recipes Hb Hne Hmiss Hall Hsound Hsum.
  unfold produce_batch. rewrite Hb. fold recipes.
  destruct recipes as [|r0 rs] eqn:Hrecipes; [now destruct Hne|].
  rewrite (proj2 (existsb_false_elem_of _ _) Hmiss).
  set (run_abv := batch_abv (bulk_spirits db) w (r0 :: rs)).
  assert (Hrun : run_abv <= 100).
  { apply (batch_abv_bounds (bulk_spirits db) (r0 :: rs) w 100);
      [discriminate|exact Hsound|exact Hsum]. }
  assert (Hsome : forall x, exists g, calculate_gallons_from_weight x run_abv = Some g).
  { intros x. destruct (calculate_gallons_from_weight x run_abv) as [g|] eqn:Hg; [eauto|].
    apply gallons_from_weight_None in Hg as [_ Hsing].
    lra. }
  destruct (Hsome w) as [bg ->].
  destruct (deplete_spirits_ok w (r0 :: rs) (bulk_spirits db) Hall) as [spirits' ->].
  destruct (Hsome (calculate_weight_from_gallons (gallons b) (b_abv b) + w))
    as [ntg ->].
  reflexivity.
Qed.

Lemma produce_batch_succeeds_witness :
  (produce_batch 1 2000 two_run_db).2 = Produced.
Proof.
  apply (produce_batch_succeeds 1 2000 two_run_db
           {| b_name := "Typhoon"; gallons := 0; bottled_gallons := 0;
              ending := 0; b_abv := 0; b_proof_gallons := 0 |}).
  - reflexivity.
  - discriminate.
  - intros r Hin. apply list_elem_of_singleton in Hin as ->. reflexivity.
  - intros sid s Hs. unfold two_run_db in Hs. cbn [bulk_spirits] in Hs.
    apply lookup_insert_Some in Hs as [[_ <-]|[_ Hs]]; [discriminate|].
    apply lookup_singleton_Some in Hs as [_ <-]. discriminate.
  - intros r sid s Hin Hr.
    apply list_elem_of_singleton in Hin as ->.
    cbn in Hr. injection Hr as <- <-. repeat split; discriminate.
  - discriminate.
Defined.

(** Every way the run that carries a press of the button can end without a
    record leaves the batches, the recipes and the log as they were, and
    all but the division error leave the whole store.  The outcome tells a
    missing batch, a missing recipe and a recipe row that names a spirit
    which is not stored; there is no outcome for spirits that do not
    suffice. *)
Theorem produce_batch_outcomes (id : Z) (w : Q) db :
  let res := produce_batch id w db in
  let recipes := filter (fun r => batch_id r = id) (batch_recipes db) in
  (res.2 = NoSuchBatch <-> batches db !! id = None)
  /\ (res.2 = NoRecipe <-> is_Some (batches db !! id) /\ recipes = [])
  /\ (res.2 = SpiritNotFound <->
      is_Some (batches db !! id) /\ recipes <> []
      /\ exists r, r ∈ recipes /\ spirit_missing (bulk_spirits db) r = true)
  /\ (res.2 = NoSuchBatch \/ res.2 = NoRecipe \/ res.2 = SpiritNotFound -> res.1 = db)
  /\ (res.2 <> Produced ->
      batches res.1 = batches db
      /\ batch_production_log res.1 = batch_production_log db)
  /\ batch_recipes res.1 = batch_recipes db.
Proof.
  cbv zeta. unfold produce_batch.
  destruct (batches db !! id) as [sb|] eqn:Hb;
    [|cbn; rewrite <- not_eq_None_Some; naive_solver].
  destruct (filter (fun r => batch_id r = id) (batch_recipes db)) as [|r0 rs] eqn:Hrec;
    [cbn; naive_solver|].
  destruct (existsb _ _) eqn:Hmiss.
  { apply existsb_elem_of in Hmiss. cbn. naive_solver. }
  assert (Hnone : ~ exists r, r ∈ r0 :: rs /\ spirit_missing (bulk_spirits db) r = true).
  { intros Hex. apply existsb_elem_of in Hex. congruence. }
  destruct (calculate_gallons_from_weight w _) as [bg|]; [|cbn; naive_solver].
  destruct (deplete_spirits _ _ _) as [spirits' [|]]; [|cbn; naive_solver].
  destruct (calculate_gallons_from_weight _ _) as [ntg|]; cbn; naive_solver.
Qed.

Lemma produce_batch_outcomes_witness : (produce_batch 1 100 dangling_db).1 = dangling_db.
Proof.
  apply (proj1 (proj2 (proj2 (proj2 (produce_batch_outcomes 1 100 dangling_db))))).
  right. right. vm_compute. reflexivity.
Defined.

End ProduceBatchMore.

(** ** Recalculation at start-up *)

Section Recalculation.

Lemma recalc_inventory_item_fixed (it : InventoryItem) :
  ledger_invariant it -> trunc_cases_invariant it -> recalc_inventory_item it = it.
Proof.
  unfold ledger_invariant, trunc_cases_invariant, recalc_inventory_item.
  destruct it as [n upc s d a u c]. cbn. intros -> ->.
  now rewrite cases_of_units_quot.
Qed.

Lemma recalc_inventory_item_ok (it : InventoryItem) :
  ledger_invariant (recalc_inventory_item it)
  /\ trunc_cases_invariant (recalc_inventory_item it).
Proof.
  unfold ledger_invariant, trunc_cases_invariant, recalc_inventory_item. cbn.
  split; [reflexivity|apply cases_of_units_quot].
Qed.

Lemma recalc_finished_good_fixed (fg : FinishedGood) :
  fg_consistent fg -> recalc_finished_good fg = fg.
Proof.
  unfold fg_consistent, recalc_finished_good.
  destruct fg. cbn. intros (-> & -> & ->). reflexivity.
Qed.

Lemma recalc_batch_nonneg (b : Batch) : (0 <= b_proof_gallons (recalc_batch b))%Q.
Proof.
  unfold recalc_batch. cbn.
  destruct (Py.gtb (ending b) 0) eqn:He; [|discriminate].
  destruct (Py.gtb (b_abv b) 0) eqn:Ha; [|discriminate]. cbn [andb].
  apply Py_gtb_lt in He, Ha. unfold calculate_proof_gallons.
  apply Qmult_le_0_compat; [lra|].
  apply Qmult_le_0_compat; [lra|discriminate].
Qed.

(** After the recalculation every ledger item satisfies the ledger formula
    with its cases truncated, every raw material likewise with its stock
    equal to its units, every finished good has the metrics of its counts,
    every spirit the proof gallons of its wine gallons and proof, and no
    batch has negative proof gallons.  The counts and the ledger inputs are
    never touched, no row appears or disappears, and a second
    recalculation changes nothing. *)
Theorem update_calculated_fields_establishes (db : Tables) :
  let db' := update_calculated_fields db in
  map_Forall (fun _ it => ledger_invariant it /\ trunc_cases_invariant it)
             (t_inventory_tracking db')
  /\ map_Forall (fun _ rm =>
                   rm_units_remaining rm = rm_started rm - rm_depleted rm + rm_added rm
                   /\ rm_current_stock rm = rm_units_remaining rm)
                (t_raw_materials db')
  /\ map_Forall (fun _ fg => fg_consistent fg) (t_finished_goods db')
  /\ map_Forall (fun _ s =>
                   (s_proof_gallons s == wine_gallons s * s_proof s / 100)%Q)
                (t_bulk_spirits db')
  /\ map_Forall (fun _ b => (0 <= b_proof_gallons b)%Q) (t_batches db')
  /\ (forall id,
        (started <$> t_inventory_tracking db' !! id) = (started <$> t_inventory_tracking db !! id)
        /\ (depleted <$> t_inventory_tracking db' !! id)
           = (depleted <$> t_inventory_tracking db !! id)
        /\ (added <$> t_inventory_tracking db' !! id)
           = (added <$> t_inventory_tracking db !! id)
        /\ (fg_units <$> t_finished_goods db' !! id)
           = (fg_units <$> t_finished_goods db !! id))
  /\ update_calculated_fields db' = db'.
Proof.
  cbv zeta. unfold update_calculated_fields.
  cbn [t_inventory_tracking t_raw_materials t_finished_goods t_bulk_spirits t_batches].
  split; [|split; [|split; [|split; [|split; [|split]]]]].
  - intros id it. rewrite lookup_fmap. destruct (_ !! id); [|discriminate].
    intros [= <-]. apply recalc_inventory_item_ok.
  - intros id rm. rewrite lookup_fmap. destruct (_ !! id); [|discriminate].
    intros [= <-]. cbn. split; reflexivity.
  - intros id fg. rewrite lookup_fmap. destruct (_ !! id); [|discriminate].
    intros [= <-]. unfold fg_consistent. cbn. repeat split.
  - intros id s. rewrite lookup_fmap. destruct (_ !! id); [|discriminate].
    intros [= <-]. cbn. apply calculate_proof_gallons_formula.
  - intros id b. rewrite lookup_fmap. destruct (_ !! id); [|discriminate].
    intros [= <-]. apply recalc_batch_nonneg.
  - intros id. rewrite !lookup_fmap.
    destruct (t_inventory_tracking db !! id), (t_finished_goods db !! id);
      repeat split.
  - f_equal; rewrite <- map_fmap_compose; apply map_fmap_ext; intros id x _; cbn.
    + reflexivity.
    + reflexivity.
    + reflexivity.
    + apply recalc_finished_good_fixed. unfold fg_consistent. cbn. repeat split.
    + apply recalc_inventory_item_fixed; apply recalc_inventory_item_ok.
Qed.

Lemma update_calculated_fields_establishes_witness :
  ledger_invariant (recalc_inventory_item ledger_example_item).
Proof.
  apply (proj1 (update_calculated_fields_establishes
                  {| t_raw_materials := ∅; t_bulk_spirits := ∅; t_batches := ∅;
                     t_finished_goods := ∅;
                     t_inventory_tracking := {[ 1 := ledger_example_item ]} |})
           1 (recalc_inventory_item ledger_example_item)).
  reflexivity.
Defined.

(** The recalculation of the next run does not disturb what the engine
    wrote: the record of the canonical branch, of a production depletion
    and of a count adjustment is left as it is, and so is the record of a
    cases edit when the units per case are positive and the cases entered
    are not negative; a finished good with the metrics of its counts is
    left as it is. *)
Theorem recalculation_keeps_records :
  (forall (current_item : InventoryItem) (row : EditedRow),
     leftover_branch current_item row = false ->
     recalc_inventory_item (reconcile_ledger_edit current_item row)
     = reconcile_ledger_edit current_item row)
  /\ (forall (item : InventoryItem) (d : Z),
        recalc_inventory_item (deplete_item item d) = deplete_item item d)
  /\ (forall (item : InventoryItem) (actual : Z),
        recalc_inventory_item (adjust_inventory_item item actual)
        = adjust_inventory_item item actual)
  /\ (forall (current_item : InventoryItem) (row : EditedRow),
        leftover_branch current_item row = true ->
        0 < row_units_per_case row -> 0 <= row_cases_remaining row ->
        recalc_inventory_item (reconcile_ledger_edit current_item row)
        = reconcile_ledger_edit current_item row)
  /\ (forall fg : FinishedGood, fg_consistent fg -> recalc_finished_good fg = fg).
Proof.
  split; [|split; [|split; [|split]]].
  - intros cur row Hb. rewrite (reconcile_canonical _ _ Hb).
    apply recalc_inventory_item_fixed.
    + reflexivity.
    + unfold trunc_cases_invariant. cbn. apply cases_of_units_quot.
  - intros item d. apply recalc_inventory_item_fixed.
    + reflexivity.
    + unfold trunc_cases_invariant, deplete_item. cbn. apply cases_of_units_quot.
  - intros item actual.
    destruct (adjust_inventory_item_ok item actual) as (_ & Hinv & Htr & _).
    now apply recalc_inventory_item_fixed.
  - intros cur row Hb Hupc Hc. rewrite (reconcile_leftover _ _ Hb).
    apply recalc_inventory_item_fixed.
    + unfold ledger_invariant. cbn. lia.
    + unfold trunc_cases_invariant. cbn.
      destruct (Z.gtb_spec (row_units_per_case row) 0); [|lia].
      pose proof (Z.mod_pos_bound (units_remaining cur) (row_units_per_case row) Hupc).
      rewrite Z.quot_div_nonneg by nia.
      rewrite Z.div_add_l by lia. rewrite Z.div_small by lia. lia.
  - apply recalc_finished_good_fixed.
Qed.

Lemma recalculation_keeps_records_witness :
  recalc_inventory_item (reconcile_ledger_edit ledger_example_item ledger_example_row)
  = reconcile_ledger_edit ledger_example_item ledger_example_row.
Proof.
  apply (proj1 (proj2 (proj2 (proj2 recalculation_keeps_records)))
           ledger_example_item ledger_example_row).
  - reflexivity.
  - reflexivity.
  - discriminate.
Defined.

End Recalculation.

(** ** Duplicate rows *)

Section Duplicates.

Context {A : Type} (name_of : A -> string).

Global Instance row_le_trans : Transitive (@row_le A).
Proof. intros x y z. unfold row_le. lia. Qed.

Global Instance row_le_total : Total (@row_le A).
Proof. intros x y. unfold row_le. lia. Qed.

Lemma rows_split (table : gmap Z A) (l1 l2 : list (Z * A)) (id : Z) (a : A) :
  rows table = l1 ++ (id, a) :: l2 ->
  forall r, r ∈ l1 -> r.1 < id.
Proof.
  intros Heq r Hr.
  pose proof (StronglySorted_merge_sort row_le (map_to_list table)) as Hs.
  pose proof (NoDup_rows_keys table) as Hnd.
  fold (rows table) in Hs. rewrite Heq in Hs, Hnd.
  assert (Hle : row_le r (id, a)).
  { eapply (StronglySorted_app_1_elem_of _ l1 ((id, a) :: l2)); [exact Hs|exact Hr|left]. }
  unfold row_le in Hle. cbn in Hle.
  rewrite fmap_app, fmap_cons in Hnd. cbn [fst] in Hnd.
  apply NoDup_app in Hnd as (_ & Hdis & _).
  assert (r.1 <> id); [|lia].
  intros E. apply (Hdis (r.1)).
  - apply list_elem_of_fmap. now exists r.
  - rewrite E. left.
Qed.

Lemma duplicates_fold_spec (l : list (Z * A)) :
  forall (seen : gset string) (del : list Z) (id : Z),
    id ∈ (fold_left (duplicates_step name_of) l (seen, del)).2
    <-> id ∈ del
        \/ exists l1 a l2, l = l1 ++ (id, a) :: l2
             /\ (name_of a ∈ seen \/ exists r, r ∈ l1 /\ name_of r.2 = name_of a).
Proof.
  induction l as [|[i x] l IH]; intros seen del id.
  - cbn. split; [now left|].
    intros [H|(l1 & a & l2 & H & _)]; [exact H|]. destruct l1; discriminate.
  - cbn [fold_left]. unfold duplicates_step at 2. cbn [snd fst].
    destruct (decide (name_of x ∈ seen)) as [Hin|Hnin]; rewrite IH; clear IH.
    + rewrite elem_of_app, list_elem_of_singleton. split.
      * intros [[H| ->]|(l1 & a & l2 & -> & H)].
        -- now left.
        -- right. exists [], x, l. split; [reflexivity|now left].
        -- right. exists ((i, x) :: l1), a, l2. split; [reflexivity|].
           destruct H as [H|(r & Hr & Hn)]; [now left|].
           right. exists r. split; [now right|exact Hn].
      * intros [H|(l1 & a & l2 & Heq & H)]; [now left; left|].
        destruct l1 as [|y l1]; cbn in Heq.
        -- inversion Heq; subst; clear Heq. left. now right.
        -- inversion Heq; subst; clear Heq. right. exists l1, a, l2. split; [reflexivity|].
           destruct H as [H|(r & Hr & Hn)]; [now left|].
           apply elem_of_cons in Hr as [-> | Hr].
           ++ left. cbn in Hn. now rewrite <- Hn.
           ++ right. now exists r.
    + split.
      * intros [H|(l1 & a & l2 & -> & H)]; [now left|].
        right. exists ((i, x) :: l1), a, l2. split; [reflexivity|].
        destruct H as [H|(r & Hr & Hn)].
        -- apply elem_of_union in H as [H|H]; [|now left].
           apply elem_of_singleton in H. right. exists (i, x). split; [left|now symmetry].
        -- right. exists r. split; [now right|exact Hn].
      * intros [H|(l1 & a & l2 & Heq & H)]; [now left|].
        destruct l1 as [|y l1]; cbn in Heq.
        -- inversion Heq; subst; clear Heq.
           destruct H as [H|(r & Hr & _)]; [contradiction|].
           now apply elem_of_nil in Hr.
        -- inversion Heq; subst; clear Heq. right. exists l1, a, l2. split; [reflexivity|].
           destruct H as [H|(r & Hr & Hn)].
           ++ left. apply elem_of_union. now right.
           ++ apply elem_of_cons in Hr as [-> | Hr].
              ** left. apply elem_of_union. left. apply elem_of_singleton.
                 cbn in Hn. now symmetry.
              ** right. now exists r.
Qed.

Lemma delete_all_lookup (del : list Z) :
  forall (table : gmap Z A) (id : Z),
    fold_left (fun t item_id => delete item_id t) del table !! id
    = if decide (id ∈ del) then None else table !! id.
Proof.
  induction del as [|d del IH]; intros table id; cbn [fold_left].
  - destruct (decide (id ∈ [])) as [H|_]; [now apply elem_of_nil in H|reflexivity].
  - rewrite IH.
    destruct (decide (id ∈ del)) as [H|H].
    + rewrite decide_True by now right. reflexivity.
    + destruct (decide (id = d)) as [->|Hne].
      * rewrite decide_True by left. apply lookup_delete_eq.
      * rewrite decide_False by (rewrite elem_of_cons; tauto).
        now apply lookup_delete_ne.
Qed.

Lemma items_to_delete_rows (table : gmap Z A) (id : Z) (a : A) :
  table !! id = Some a ->
  id ∈ items_to_delete name_of (rows table)
  <-> exists j b, table !! j = Some b /\ name_of b = name_of a /\ j < id.
Proof.
  intros Hid. unfold items_to_delete. rewrite duplicates_fold_spec. split.
  - intros [H|(l1 & a' & l2 & Heq & [H|(r & Hr & Hn)])].
    + now apply elem_of_nil in H.
    + now apply elem_of_empty in H.
    + assert (Ha : table !! id = Some a').
      { apply elem_of_rows. rewrite Heq. apply elem_of_app. right. left. }
      assert (a' = a) by congruence. subst a'.
      exists r.1, r.2. split; [|split; [exact Hn|]].
      * apply elem_of_rows. rewrite Heq. apply elem_of_app. left.
        now destruct r.
      * eapply rows_split; [exact Heq|exact Hr].
  - intros (j & b & Hj & Hn & Hlt). right.
    apply elem_of_rows in Hid.
    apply list_elem_of_split in Hid as (l1 & l2 & Heq).
    exists l1, a, l2. split; [exact Heq|]. right.
    exists (j, b). split; [|exact Hn].
    apply elem_of_rows in Hj. rewrite Heq in Hj.
    apply elem_of_app in Hj as [Hj|Hj]; [exact Hj|].
    exfalso. apply elem_of_cons in Hj as [Hj|Hj].
    + injection Hj as -> _. lia.
    + pose proof (StronglySorted_merge_sort row_le (map_to_list table)) as Hs.
      fold (rows table) in Hs. rewrite Heq in Hs.
      apply StronglySorted_app_1_r in Hs.
      apply StronglySorted_inv in Hs as [_ Hall].
      rewrite Forall_forall in Hall. specialize (Hall _ Hj).
      unfold row_le in Hall. cbn in Hall.
      pose proof (NoDup_rows_keys table) as Hnd. rewrite Heq in Hnd.
      rewrite fmap_app, fmap_cons in Hnd. cbn [fst] in Hnd.
      apply NoDup_app in Hnd as (_ & _ & Hnd). apply NoDup_cons in Hnd as [Hnd _].
      lia.
Qed.

Lemma remove_duplicates_table_lookup (table : gmap Z A) (id : Z) (a : A) :
  remove_duplicates_table name_of table !! id = Some a
  <-> table !! id = Some a
      /\ forall j b, table !! j = Some b -> name_of b = name_of a -> id <= j.
Proof.
  unfold remove_duplicates_table. rewrite delete_all_lookup.
  destruct (decide (id ∈ _)) as [Hdel|Hdel].
  - split; [discriminate|]. intros [Hid Hmin].
    apply (items_to_delete_rows _ _ _ Hid) in Hdel as (j & b & Hj & Hn & Hlt).
    specialize (Hmin _ _ Hj Hn). lia.
  - split.
    + intros Hid. split; [exact Hid|]. intros j b Hj Hn.
      destruct (Z.le_gt_cases id j) as [|Hlt]; [assumption|].
      exfalso. apply Hdel. apply (items_to_delete_rows _ _ _ Hid). now exists j, b.
    + now intros [Hid _].
Qed.

Lemma remove_duplicates_table_unique (table : gmap Z A) (i j : Z) (a b : A) :
  remove_duplicates_table name_of table !! i = Some a ->
  remove_duplicates_table name_of table !! j = Some b ->
  name_of a = name_of b -> i = j.
Proof.
  intros [Hi Hmi]%remove_duplicates_table_lookup [Hj Hmj]%remove_duplicates_table_lookup Hn.
  specialize (Hmi _ _ Hj (eq_sym Hn)). specialize (Hmj _ _ Hi Hn). lia.
Qed.

(** [remove_duplicates] keeps, of the rows of a table that share a name, the
    one with the lowest id and deletes the others.  So a row is left
    exactly when no row with a lower id has its name; afterwards no two rows
    share a name, every name of the table is still there, the look-up by
    name finds the one row with the name, and a second pass deletes
    nothing. *)
Theorem remove_duplicates_keeps_first (table : gmap Z A) :
  let table' := remove_duplicates_table name_of table in
  (forall id a,
     table' !! id = Some a
     <-> table !! id = Some a
         /\ forall j b, table !! j = Some b -> name_of b = name_of a -> id <= j)
  /\ (forall i j a b,
        table' !! i = Some a -> table' !! j = Some b -> name_of a = name_of b -> i = j)
  /\ (forall id a, table !! id = Some a ->
        exists id' a', table' !! id' = Some a' /\ name_of a' = name_of a /\ id' <= id)
  /\ (forall name id a,
        first_named name_of name (rows table') = Some (id, a)
        <-> table' !! id = Some a /\ name_of a = name)
  /\ (forall name, first_named name_of name (rows table')
                   = first_named name_of name (rows table))
  /\ remove_duplicates_table name_of table' = table'.
Proof.
  cbv zeta.
  assert (Hfirst : forall name id a,
             first_named name_of name (rows (remove_duplicates_table name_of table))
             = Some (id, a)
             <-> remove_duplicates_table name_of table !! id = Some a /\ name_of a = name).
  { intros name id a. split; [apply first_named_rows_Some|].
    intros [Hid Hn].
    destruct (first_named name_of name (rows (remove_duplicates_table name_of table)))
      as [[id' a']|] eqn:Hf.
    - apply first_named_rows_Some in Hf as [Hid' Hn'].
      assert (id' = id)
        by (eapply remove_duplicates_table_unique; [exact Hid'|exact Hid|congruence]).
      subst id'. congruence.
    - exfalso. rewrite first_named_rows_None in Hf. exact (Hf _ _ Hid Hn). }
  split; [apply remove_duplicates_table_lookup|].
  split; [apply remove_duplicates_table_unique|].
  split; [|split; [exact Hfirst|split]].
  - intros id a Hid.
    destruct (first_named name_of (name_of a) (rows table)) as [[id' a']|] eqn:Hf.
    + exists id', a'.
      pose proof Hf as [Hid' Hn']%first_named_rows_Some.
      unfold first_named in Hf.
      destruct (list_find _ (rows table)) as [[k r]|] eqn:Hfind; [|discriminate].
      injection Hf as ->. apply list_find_Some in Hfind as (Hk & _ & Hmin).
      assert (Hlow : forall j b, table !! j = Some b -> name_of b = name_of a -> id' <= j).
      { intros j b Hj Hn.
        destruct (Z.le_gt_cases id' j) as [|Hlt]; [assumption|exfalso].
        apply elem_of_rows in Hj. apply list_elem_of_lookup in Hj as [m Hm].
        destruct (Nat.lt_trichotomy m k) as [Hmk|[->|Hmk]].
        - exact (Hmin _ _ Hm Hmk Hn).
        - rewrite Hk in Hm. injection Hm as -> _. lia.
        - apply take_drop_middle in Hm as Hsplit.
          symmetry in Hsplit.
          pose proof (rows_split table _ _ _ _ Hsplit (id', a')) as Hlt'.
          cbn in Hlt'. assert (id' < j); [|lia]. apply Hlt'.
          apply list_elem_of_lookup. exists k. rewrite lookup_take_lt by exact Hmk.
          exact Hk. }
      split; [|split; [exact Hn'|now apply (Hlow id a)]].
      apply remove_duplicates_table_lookup. split; [exact Hid'|].
      intros j b Hj Hn. apply (Hlow j b Hj). congruence.
    + exfalso. rewrite first_named_rows_None in Hf. exact (Hf _ _ Hid eq_refl).
  - intros name.
    destruct (first_named name_of name (rows table)) as [[id a]|] eqn:Hf.
    + apply Hfirst.
      pose proof Hf as [Hid Hn]%first_named_rows_Some.
      split; [|exact Hn]. apply remove_duplicates_table_lookup. split; [exact Hid|].
      intros j b Hj Hnb.
      unfold first_named in Hf.
      destruct (list_find _ (rows table)) as [[k r]|] eqn:Hfind; [|discriminate].
      injection Hf as ->. apply list_find_Some in Hfind as (Hk & _ & Hmin).
      destruct (Z.le_gt_cases id j) as [|Hlt]; [assumption|exfalso].
      apply elem_of_rows in Hj. apply list_elem_of_lookup in Hj as [m Hm].
      destruct (Nat.lt_trichotomy m k) as [Hmk|[->|Hmk]].
      * apply (Hmin _ _ Hm Hmk). cbn. congruence.
      * rewrite Hk in Hm. injection Hm as -> _. lia.
      * apply take_drop_middle in Hm as Hsplit. symmetry in Hsplit.
        pose proof (rows_split table _ _ _ _ Hsplit (id, a)) as Hlt'.
        cbn in Hlt'. assert (id < j); [|lia]. apply Hlt'.
        apply list_elem_of_lookup. exists k. rewrite lookup_take_lt by exact Hmk.
        exact Hk.
    + apply first_named_rows_None. rewrite first_named_rows_None in Hf.
      intros id a [Hid _]%remove_duplicates_table_lookup. now apply (Hf id a).
  - apply map_eq. intros id. apply option_eq. intros a.
    rewrite (remove_duplicates_table_lookup (remove_duplicates_table name_of table)).
    split; [now intros [H _]|]. intros Hid. split; [exact Hid|].
    intros j b Hj Hn.
    assert (id = j); [|lia].
    eapply remove_duplicates_table_unique; [exact Hid|exact Hj|congruence].
Qed.

End Duplicates.

Lemma remove_duplicates_keeps_first_witness :
  exists id' a',
    remove_duplicates_table item_name duplicated_ledger !! id' = Some a'
    /\ item_name a' = item_name ledger_example_item /\ id' <= 2.
Proof.
  apply (proj1 (proj2 (proj2 (remove_duplicates_keeps_first item_name
                                duplicated_ledger))) 2 ledger_example_item).
  vm_compute. reflexivity.
Defined.

(** ** Saving bulk spirits and recipes *)

Section SpiritsAndRecipes.

Local Open Scope Q_scope.

Lemma gallons_from_weight_nonneg (w abv g : Q) :
  0 <= w -> 0 < calculate_density_from_abv abv ->
  calculate_gallons_from_weight w abv = Some g -> 0 <= g.
Proof.
  intros Hw Hd. unfold calculate_gallons_from_weight.
  destruct (Qeq_bool w 0) eqn:Hw0.
  - intros [= <-]. discriminate.
  - cbv zeta. destruct (Qeq_bool (calculate_density_from_abv abv) 0); [discriminate|].
    intros [= <-]. apply Qle_shift_div_l; [exact Hd|]. lra.
Qed.

(** Saving an edited spirit with an ABV between 0% and 100% always goes
    through.  The stored wine gallons agree with the weight at the density
    of the ABV, the stored proof is the whole number of twice the ABV, cut
    down, and the stored proof gallons are those of the stored proof: for a
    weight that is not negative they are never above the proof gallons of
    the exact proof, twice the ABV. *)
Theorem save_spirit_row_consistent (name : string) (weight_lbs abv : Q) :
  0 <= abv -> abv <= 100 ->
  exists s,
    save_spirit_row name weight_lbs abv = Some s
    /\ spirit_volume_consistent s
    /\ (exists n : Z, s_proof s = inject_Z n
                      /\ inject_Z n <= abv * 2 /\ abv * 2 < inject_Z n + 1)
    /\ (0 <= weight_lbs ->
        0 <= s_proof_gallons s
        /\ s_proof_gallons s <= calculate_proof_gallons (wine_gallons s) (abv * 2)).
Proof.
  intros H0 H100. pose proof (density_pos abv H100) as Hd.
  unfold save_spirit_row. cbv zeta.
  destruct (calculate_gallons_from_weight weight_lbs abv) as [g|] eqn:Hg.
  2:{ apply gallons_from_weight_None in Hg as [_ Hg]. lra. }
  eexists. split; [reflexivity|].
  assert (Hfl : Py.int (abv * 2) = Qfloor (abv * 2)) by (apply Py_int_floor; lra).
  pose proof (Qfloor_le (abv * 2)) as Hlo. pose proof (Qlt_floor (abv * 2)) as Hhi.
  rewrite inject_Z_plus in Hhi. change (inject_Z 1) with 1 in Hhi.
  split; [|split].
  - split; cbn.
    + now apply gallons_from_weight_consistent.
    + apply calculate_proof_gallons_formula.
  - exists (Py.int (abv * 2)). cbn. rewrite Hfl. repeat split; assumption.
  - intros Hw. cbn. rewrite Hfl.
    pose proof (gallons_from_weight_nonneg _ _ _ Hw Hd Hg) as Hg0.
    assert (Hn0 : 0 <= inject_Z (Qfloor (abv * 2))).
    { rewrite <- (Zle_Qle 0).
      change 0%Z with (Qfloor 0). apply Qfloor_resp_le. lra. }
    unfold calculate_proof_gallons. split.
    + apply Qmult_le_0_compat; [exact Hg0|].
      apply Qmult_le_0_compat; [exact Hn0|discriminate].
    + rewrite !(Qmult_comm g). apply Qmult_le_compat_r; [|exact Hg0].
      unfold Qdiv. apply Qmult_le_compat_r; [exact Hlo|discriminate].
Qed.

Lemma save_spirit_row_consistent_witness :
  exists s, save_spirit_row "Bourbon" 100 40.4 = Some s /\ s_proof s == 80.
Proof.
  destruct (save_spirit_row_consistent "Bourbon" 100 40.4) as (s & Hs & _ & Hp & _).
  - discriminate.
  - discriminate.
  - exists s. split; [exact Hs|].
    vm_compute in Hs. injection Hs as <-. reflexivity.
Defined.

(** [Save Recipe] stores the entered rows exactly when the test on their
    total passes, and changes nothing otherwise.  When it stores them, the
    recipe a later blend run reads for the batch is the entered rows, in
    order, the recipes of the other batches are what they were, and the
    spirits, the batches and the production log are untouched; saving the
    same rows again changes nothing more.  The test is the binary64 one:
    it passes for 100 and for 99.95 + 0.1, fails for 60.2 + 40, and also
    passes for 60.1 + 40 and for 59.9 + 40, whose sums in binary64 lie
    within 0.1 of 100 although the decimals are 0.1 away. *)
Theorem save_recipe_replaces (id : Z) (recipe_items : list (option Z * string * Q))
    (db : DB) :
  let db' := save_recipe id recipe_items db in
  let entered :=
    map (fun item => {| batch_id := id; bulk_spirit_id := item.1.1;
                        ingredient_name := item.1.2; percentage := item.2 |})
        recipe_items in
  (recipe_total_ok recipe_items = false -> db' = db)
  /\ (recipe_total_ok recipe_items = true ->
      filter (fun r => batch_id r = id) (batch_recipes db') = entered
      /\ (forall j, j <> id ->
            filter (fun r => batch_id r = j) (batch_recipes db')
            = filter (fun r => batch_id r = j) (batch_recipes db))
      /\ bulk_spirits db' = bulk_spirits db
      /\ batches db' = batches db
      /\ batch_production_log db' = batch_production_log db)
  /\ save_recipe id recipe_items db' = db'
  /\ (recipe_total_ok [(Some 1%Z, "Vodka", 100)] = true
      /\ recipe_total_ok [(Some 1%Z, "Vodka", 99.95); (None, "Bitters", 0.1)] = true
      /\ recipe_total_ok [(Some 1%Z, "Vodka", 60.2); (None, "Lime Juice", 40)] = false
      /\ recipe_total_ok [(Some 1%Z, "Vodka", 60.1); (None, "Lime Juice", 40)] = true
      /\ recipe_total_ok [(Some 1%Z, "Vodka", 59.9); (None, "Lime Juice", 40)] = true).
Proof.
  cbv zeta.
  assert (Hown : forall l : list (option Z * string * Q),
             filter (fun r => batch_id r = id)
               (map (fun item => {| batch_id := id; bulk_spirit_id := item.1.1;
                                    ingredient_name := item.1.2;
                                    percentage := item.2 |}) l)
             = map (fun item => {| batch_id := id; bulk_spirit_id := item.1.1;
                                   ingredient_name := item.1.2;
                                   percentage := item.2 |}) l).
  { induction l as [|i l IH]; [reflexivity|]. cbn [map].
    rewrite filter_cons_True by reflexivity. now rewrite IH. }
  assert (Hother : forall (j : Z) (l : list (option Z * string * Q)), j <> id ->
             filter (fun r => batch_id r = j)
               (map (fun item => {| batch_id := id; bulk_spirit_id := item.1.1;
                                    ingredient_name := item.1.2;
                                    percentage := item.2 |}) l) = []).
  { intros j l Hj. induction l as [|i l IH]; [reflexivity|]. cbn [map].
    rewrite filter_cons_False by (cbn; congruence). exact IH. }
  assert (Hnone : forall l : list BatchRecipe,
             filter (fun r => batch_id r = id) (filter (fun r => batch_id r <> id) l) = []).
  { induction l as [|r l IH]; [reflexivity|].
    destruct (decide (batch_id r = id)) as [E|E].
    - rewrite (filter_cons_False (fun r => batch_id r <> id)) by tauto. exact IH.
    - rewrite (filter_cons_True (fun r => batch_id r <> id)) by exact E.
      rewrite filter_cons_False by exact E. exact IH. }
  assert (Hkeep : forall (j : Z) (l : list BatchRecipe), j <> id ->
             filter (fun r => batch_id r = j) (filter (fun r => batch_id r <> id) l)
             = filter (fun r => batch_id r = j) l).
  { intros j l Hj. induction l as [|r l IH]; [reflexivity|].
    destruct (decide (batch_id r = id)) as [E|E].
    - rewrite (filter_cons_False (fun r => batch_id r <> id)) by tauto.
      rewrite (filter_cons_False (fun r => batch_id r = j)) by congruence. exact IH.
    - rewrite (filter_cons_True (fun r => batch_id r <> id)) by exact E.
      destruct (decide (batch_id r = j)) as [E'|E'].
      + rewrite !(filter_cons_True (fun r => batch_id r = j)) by exact E'.
        now rewrite IH.
      + rewrite !(filter_cons_False (fun r => batch_id r = j)) by exact E'.
        exact IH. }
  assert (Hnot : forall l : list BatchRecipe,
             filter (fun r => batch_id r <> id) (filter (fun r => batch_id r <> id) l)
             = filter (fun r => batch_id r <> id) l).
  { induction l as [|r l IH]; [reflexivity|].
    destruct (decide (batch_id r = id)) as [E|E].
    - rewrite (filter_cons_False (fun r => batch_id r <> id)) by tauto. exact IH.
    - rewrite (filter_cons_True (fun r => batch_id r <> id)) by exact E.
      rewrite (filter_cons_True (fun r => batch_id r <> id)) by exact E.
      now rewrite IH. }
  assert (Hdrop : forall l : list (option Z * string * Q),
             filter (fun r => batch_id r <> id)
               (map (fun item => {| batch_id := id; bulk_spirit_id := item.1.1;
                                    ingredient_name := item.1.2;
                                    percentage := item.2 |}) l) = []).
  { induction l as [|i l IH]; [reflexivity|]. cbn [map].
    rewrite filter_cons_False by (cbn; tauto). exact IH. }
  unfold save_recipe.
  destruct (recipe_total_ok recipe_items) eqn:Hok.
  - split; [discriminate|]. split; [|split].
    + intros _. cbn [batch_recipes bulk_spirits batches batch_production_log].
      rewrite filter_app, Hnone, Hown. cbn [app].
      split; [reflexivity|].
      split; [|repeat split].
      intros j Hj. rewrite filter_app, Hkeep, Hother by exact Hj. apply app_nil_r.
    + cbn [batch_recipes bulk_spirits batches batch_production_log].
      rewrite filter_app, Hnot, Hdrop, app_nil_r. reflexivity.
    + repeat split; vm_compute; reflexivity.
  - split; [reflexivity|]. split; [discriminate|]. split; [reflexivity|].
    repeat split; vm_compute; reflexivity.
Qed.

Lemma save_recipe_replaces_witness :
  filter (fun r => batch_id r = 1%Z)
         (batch_recipes (save_recipe 1 [(Some 2%Z, "Overproof", 100)]
                           (produce_batch 1 100 two_run_db).1))
  = [{| batch_id := 1; bulk_spirit_id := Some 2%Z;
        ingredient_name := "Overproof"; percentage := 100 |}].
Proof.
  apply (proj1 (proj2 (save_recipe_replaces 1 [(Some 2%Z, "Overproof", 100)]
                         (produce_batch 1 100 two_run_db).1))).
  vm_compute. reflexivity.
Defined.

End SpiritsAndRecipes.
